(** * signalk-openweather-provider: cache-or-fetch gateway and polling scheduler

    A shallow embedding of the plugin's TypeScript sources:
    - [openweather.ts]: the [OpenWeather] class (request URL, [fetchData],
      [fetchObservations] / [fetchForecasts] / [fetchWarnings] and the three
      response parsers);
    - [weather-service.ts]: [initWeather], [stopWeather], [pollWeatherData]
      with its retry counters and timers;
    - the later revision of [weather-service.ts] (watchdog placed at the head
      of [pollWeatherData], single error counter, [handleError]).

    Promises are modelled by explicit state passing: an [async] function is
    split at its [await] into the part that runs before the request is sent
    and the part that runs when the promise settles.  Exceptions are values of
    [JS.Result].  Timers live in an explicit event-loop table.  A callback
    reads the clock once per run: every [Date.now()] of one run is the same
    [now]. *)

From Stdlib Require Import ZArith QArith Qround List Lia Bool.
From stdpp Require Import base option gmap strings.
Import ListNotations.

Local Open Scope string_scope.
Local Open Scope list_scope.
Local Open Scope Z_scope.

(* ===================================================================== *)
(** ** JavaScript platform pieces *)
(* ===================================================================== *)

Module JS.

(** A completed computation: a value, or a thrown [Error] with its message. *)
Inductive Result (A : Type) : Type :=
| Ok (a : A)
| Throw (msg : string).
Arguments Ok {A} a.
Arguments Throw {A} msg.

Definition bind {A B : Type} (r : Result A) (k : A -> Result B) : Result B :=
  match r with
  | Ok a => k a
  | Throw m => Throw m
  end.

(** [try { body } catch (err) { throw new Error(msg) }] *)
Definition rethrow {A : Type} (msg : string) (r : Result A) : Result A :=
  match r with
  | Ok a => Ok a
  | Throw _ => Throw msg
  end.

Definition isOk {A : Type} (r : Result A) : bool :=
  match r with
  | Ok _ => true
  | Throw _ => false
  end.

(** [Array.prototype.forEach] with a body that pushes one element or throws. *)
Fixpoint forEach {A B : Type} (f : A -> Result B) (l : list A) : Result (list B) :=
  match l with
  | [] => Ok []
  | x :: xs =>
      bind (f x) (fun y => bind (forEach f xs) (fun ys => Ok (y :: ys)))
  end.

(** [arr.slice(0, end)] for an integral [end]: a negative [end] counts from
    the back, and the result never extends past the array. *)
Definition slice0 {A : Type} (end_ : Z) (l : list A) : list A :=
  let len := Z.of_nat (length l) in
  let k := if end_ <? 0 then Z.max (len + end_) 0 else Z.min end_ len in
  firstn (Z.to_nat k) l.

(** Truthiness of a number that is not NaN. *)
Definition truthy (z : Z) : bool := negb (z =? 0).

(** A [number] variable that may still be [undefined] or hold [NaN]. *)
Inductive number : Type :=
| Undefined
| NaN
| Num (z : Z).

(** [a < b] with [a] a proper number: false when [b] is undefined or NaN. *)
Definition ltNumber (a : Z) (b : number) : bool :=
  match b with
  | Num z => a <? z
  | _ => false
  end.

(** *** [Date]: time values are integral milliseconds since the epoch. *)

Definition maxTimeValue : Z := 8640000000000000.

Definition msPerDay : Z := 86400000.

Definition digit (z : Z) : string :=
  match z with
  | 0 => "0" | 1 => "1" | 2 => "2" | 3 => "3" | 4 => "4"
  | 5 => "5" | 6 => "6" | 7 => "7" | 8 => "8" | _ => "9"
  end.

(** The [n] low decimal digits of [z], zero padded. *)
Fixpoint pad (n : nat) (z : Z) : string :=
  match n with
  | O => ""
  | S n' => pad n' (z / 10) +:+ digit (z mod 10)
  end.

(** Proleptic Gregorian (year, month, day) of a day number counted from
    1970-01-01. *)
Definition civilFromDays (days : Z) : Z * Z * Z :=
  let z := days + 719468 in
  let era := z / 146097 in
  let doe := z - era * 146097 in
  let yoe := (doe - doe / 1460 + doe / 36524 - doe / 146096) / 365 in
  let doy := doe - (365 * yoe + yoe / 4 - yoe / 100) in
  let mp := (5 * doy + 2) / 153 in
  let d := doy - (153 * mp + 2) / 5 + 1 in
  let m := if mp <? 10 then mp + 3 else mp - 9 in
  let y := yoe + era * 400 + (if m <=? 2 then 1 else 0) in
  (y, m, d).

Definition yearString (y : Z) : string :=
  if (0 <=? y) && (y <=? 9999) then pad 4 y
  else (if y <? 0 then "-" else "+") +:+ pad 6 (Z.abs y).

(** The text of [toISOString] for a valid time value. *)
Definition isoString (t : Z) : string :=
  let '(y, m, d) := civilFromDays (t / msPerDay) in
  let r := t mod msPerDay in
  yearString y +:+ "-" +:+ pad 2 m +:+ "-" +:+ pad 2 d +:+ "T" +:+
  pad 2 (r / 3600000) +:+ ":" +:+ pad 2 (r / 60000 mod 60) +:+ ":" +:+
  pad 2 (r / 1000 mod 60) +:+ "." +:+ pad 3 (r mod 1000) +:+ "Z".

(** [new Date(t).toISOString()]: a time value outside the representable
    range makes an invalid date, on which [toISOString] throws. *)
Definition toISOString (t : Z) : Result string :=
  if Z.abs t <=? maxTimeValue then Ok (isoString t)
  else Throw "Invalid time value".

(** *** Timers of the event loop.

    [setTimeout] and [setInterval] hand out fresh handles; a one-shot timer
    leaves the table when it fires, a repeating one stays until cleared. *)

Record Timer (C : Type) : Type := mkTimer {
  handle : nat;
  repeating : bool;
  delay : Z;
  armedAt : Z;
  callback : C
}.
Arguments mkTimer {C}.
Arguments handle {C}.
Arguments repeating {C}.
Arguments delay {C}.
Arguments armedAt {C}.
Arguments callback {C}.

Record Loop (C : Type) : Type := mkLoop {
  nextHandle : nat;
  timers : list (Timer C)
}.
Arguments mkLoop {C}.
Arguments nextHandle {C}.
Arguments timers {C}.

Definition emptyLoop {C : Type} : Loop C := mkLoop 1%nat [].

Definition arm {C : Type} (rep : bool) (cb : C) (ms now : Z) (l : Loop C)
  : nat * Loop C :=
  let h := nextHandle l in
  (h, mkLoop (S h) (timers l ++ [mkTimer h rep ms now cb])).

Definition setTimeout {C : Type} := @arm C false.

Definition setInterval {C : Type} := @arm C true.

(** [clearTimeout(h)] / [clearInterval(h)] *)
Definition clear {C : Type} (h : nat) (l : Loop C) : Loop C :=
  mkLoop (nextHandle l)
         (List.filter (fun t => negb (Nat.eqb (handle t) h)) (timers l)).

(** [if (v) { clearTimeout(v) }] for a variable holding a handle or
    undefined (a timer handle is an object, hence truthy). *)
Definition clearIfSet {C : Type} (v : option nat) (l : Loop C) : Loop C :=
  match v with
  | Some h => clear h l
  | None => l
  end.

Definition find {C : Type} (h : nat) (l : Loop C) : option (Timer C) :=
  List.find (fun t => Nat.eqb (handle t) h) (timers l).

(** The table after timer [h] has fired. *)
Definition fired {C : Type} (h : nat) (l : Loop C) : Loop C :=
  match find h l with
  | Some t => if repeating t then l else clear h l
  | None => l
  end.

Definition live {C : Type} (p : Timer C -> bool) (l : Loop C) : list (Timer C) :=
  List.filter p (timers l).

(** Every handle in the table was handed out before [h]. *)
Definition below {C : Type} (h : nat) (ts : list (Timer C)) : Prop :=
  Forall (fun t => (handle t < h)%nat) ts.

End JS.

Import JS.


(* ===================================================================== *)
(** ** Data model *)
(* ===================================================================== *)

(** [Position] of [@signalk/server-api]. *)
Record Position : Type := mkPosition {
  latitude : Q;
  longitude : Q
}.

(** [WEATHER_CONFIG]; [pollInterval] is a count of minutes, one of
    [WEATHER_POLL_INTERVAL] when it comes from the configuration form. *)
Record WEATHER_CONFIG : Type := mkConfig {
  apiKey : string;
  enable : bool;
  pollInterval : number
}.

Definition WEATHER_POLL_INTERVAL : list Z := [15; 30; 60].

Definition DEFAULT_POLL_INTERVAL : Z := 60.

(** *** Provider records ([OWObservation], [OWForecast], [OWWarning]).

    A field that the response may lack is an [option]; [None] is
    [undefined].  Time stamps are whole Unix seconds; measurements are
    rationals standing for the doubles of the response. *)

Module OWWeather.
Record t : Type := mk {
  id : option Z;
  main : option string;
  description : option string;
  icon : option string
}.
End OWWeather.

Module OWObservation.
Record t : Type := mk {
  dt : option Z;
  sunrise : option Z;
  sunset : option Z;
  temp : option Q;
  feels_like : option Q;
  pressure : option Q;
  humidity : option Q;
  dew_point : option Q;
  uvi : option Q;
  clouds : option Q;
  visibility : option Q;
  wind_speed : option Q;
  wind_deg : option Q;
  weather : option (list OWWeather.t);
  rain : option (gmap string Q);
  snow : option (gmap string Q)
}.
End OWObservation.

Module OWTemp.
Record t : Type := mk {
  day : option Q;
  min : option Q;
  max : option Q;
  night : option Q;
  eve : option Q;
  morn : option Q
}.
End OWTemp.

Module OWFeelsLike.
Record t : Type := mk {
  day : option Q;
  night : option Q;
  eve : option Q;
  morn : option Q
}.
End OWFeelsLike.

(** One entry of the [daily] (with [T := OWTemp.t], [F := OWFeelsLike.t], as
    the interface declares) or of the [hourly] array (with [T := Q],
    [F := Q], which is what [f.temp as any] reads for the 'point' period). *)
Module OWForecast.
Record t (T F : Type) : Type := mk {
  dt : option Z;
  sunrise : option Z;
  sunset : option Z;
  moonrise : option Z;
  moonset : option Z;
  moon_phase : option Q;
  temp : option T;
  feels_like : option F;
  pressure : option Q;
  humidity : option Q;
  dew_point : option Q;
  wind_speed : option Q;
  wind_deg : option Q;
  wind_gust : option Q;
  weather : option (list OWWeather.t);
  clouds : option Q;
  pop : option Q;
  uvi : option Q;
  rain : option (gmap string Q);
  snow : option (gmap string Q)
}.
Arguments mk {T F}.
Arguments dt {T F}.
Arguments sunrise {T F}.
Arguments sunset {T F}.
Arguments temp {T F}.
Arguments feels_like {T F}.
Arguments pressure {T F}.
Arguments humidity {T F}.
Arguments dew_point {T F}.
Arguments wind_speed {T F}.
Arguments wind_deg {T F}.
Arguments wind_gust {T F}.
Arguments weather {T F}.
Arguments clouds {T F}.
Arguments uvi {T F}.
Arguments rain {T F}.
Arguments snow {T F}.
End OWForecast.

Module OWWarning.
Record t : Type := mk {
  sender_name : option string;
  event : option string;
  start : option Z;
  end_ : option Z;
  description : option string;
  tags : option (list string)
}.
End OWWarning.

(** [OWResponse]: the keys of the response object that the plugin reads. *)
Module OWResponse.
Record t : Type := mk {
  cod : option Z;
  message : option string;
  current : option OWObservation.t;
  hourly : option (list (OWForecast.t Q Q));
  daily : option (list (OWForecast.t OWTemp.t OWFeelsLike.t));
  alerts : option (list OWWarning.t)
}.
End OWResponse.

(** *** Weather API records ([WeatherData], [WeatherWarning]). *)

Inductive WeatherForecastType : Type := daily | point.

Inductive WeatherDataType : Type :=
| forecast (p : WeatherForecastType)
| observation.

Inductive TendencyKind : Type :=
| steady | decreasing | increasing | tendencyNotAvailable.

Inductive PrecipitationKind : Type :=
| reserved | rainKind | thunderstorm | freezingRain | mixedIce | snowKind
| precipitationNotAvailable.

Module Outside.
Record t : Type := mk {
  minTemperature : option Q;
  maxTemperature : option Q;
  feelsLikeTemperature : option Q;
  precipitationVolume : option Q;
  absoluteHumidity : option Q;
  horizontalVisibility : option Q;
  uvIndex : option Q;
  cloudCover : option Q;
  temperature : option Q;
  dewPointTemperature : option Q;
  pressure : option Q;
  pressureTendency : option TendencyKind;
  relativeHumidity : option Q;
  precipitationType : option PrecipitationKind
}.
(** [Object.keys(o).length === 0] *)
Definition isEmpty (o : t) : bool :=
  match o with
  | mk None None None None None None None None None None None None None None
      => true
  | _ => false
  end.
End Outside.

Module Water.
Record t : Type := mk {
  temperature : option Q;
  level : option Q;
  levelTendency : option TendencyKind;
  surfaceCurrentSpeed : option Q;
  surfaceCurrentDirection : option Q;
  salinity : option Q;
  waveSignificantHeight : option Q;
  wavePeriod : option Q;
  waveDirection : option Q;
  swellHeight : option Q;
  swellPeriod : option Q;
  swellDirection : option Q
}.
Definition empty : t :=
  mk None None None None None None None None None None None None.
Definition isEmpty (o : t) : bool :=
  match o with
  | mk None None None None None None None None None None None None => true
  | _ => false
  end.
End Water.

Module Wind.
Record t : Type := mk {
  speedTrue : option Q;
  directionTrue : option Q;
  gust : option Q;
  gustDirection : option Q
}.
Definition isEmpty (o : t) : bool :=
  match o with
  | mk None None None None => true
  | _ => false
  end.
End Wind.

Module Sun.
Record t : Type := mk {
  sunrise : option string;
  sunset : option string
}.
Definition isEmpty (o : t) : bool :=
  match o with
  | mk None None => true
  | _ => false
  end.
End Sun.

Module WeatherData.
Record t : Type := mk {
  description : option string;
  date : string;
  type : WeatherDataType;
  outside : option Outside.t;
  water : option Water.t;
  wind : option Wind.t;
  sun : option Sun.t
}.
End WeatherData.

Module WeatherWarning.
Record t : Type := mk {
  startTime : string;
  endTime : string;
  details : option string;
  source : option string;
  type : option string
}.
End WeatherWarning.

(** [WeatherReqParams] *)
Record WeatherReqParams : Type := mkParams {
  maxCount : option Z;
  startDate : option string
}.

(* ===================================================================== *)
(** ** [lib/cache]: the geospatial response cache *)
(* ===================================================================== *)

(** Modelled from the spec: [WCache.calcId], the derivation of a spatial cell
    key from a position, is not among the sources.  The spec fixes only that
    it is a pure, deterministic function of the position, so it is an
    interface here. *)
Class SpatialGrid : Type := calcId : Position -> string.

Module WCache.

(** Modelled from the spec: a cache entry is the payload of a successful
    remote fetch and the time it was fetched at; the key is the one it is
    stored under. *)
Record Entry : Type := mkEntry {
  payload : OWResponse.t;
  fetchedAt : Z
}.

(** Modelled from the spec: the [WCache] object is not among the sources.
    It holds the [maxAge] that the [OpenWeather] constructor assigns and one
    entry per cell key. *)
Record t : Type := mk {
  maxAge : number;
  entries : gmap string Entry
}.

Definition msPerMinute : Z := 60000.

(** Modelled from the spec: [maxAge] is a duration, "set once at
    initialization from the polling interval".  The constructor assigns the
    configured poll interval, which is a number of minutes, and the README
    has cached data refreshed once its age is the poll interval or more; the
    time stamps are milliseconds.  So the threshold that the age of an entry
    is compared with is [maxAge] minutes in milliseconds (a product with
    undefined or NaN is NaN). *)
Definition maxAgeMillis (c : t) : number :=
  match maxAge c with
  | Num m => Num (m * msPerMinute)
  | _ => NaN
  end.

(** Modelled from the spec: [WCache.contains] (the spec's [lookup]) derives
    the key and returns a reference to the stored entry only if an entry
    exists for that key and [now - entry.fetchedAt < maxAge]; otherwise it
    returns nothing. *)
Definition contains `{SpatialGrid} (now : Z) (position : Position) (c : t)
  : option string :=
  let id := calcId position in
  match entries c !! id with
  | Some e =>
      if ltNumber (now - fetchedAt e) (maxAgeMillis c) then Some id else None
  | None => None
  end.

(** Modelled from the spec: [WCache.getEntry] (the spec's [get]) returns the
    stored payload for a reference. *)
Definition getEntry (id : string) (c : t) : option OWResponse.t :=
  payload <$> entries c !! id.

(** Modelled from the spec: [WCache.setEntry] (the spec's [put]) overwrites
    any existing entry for the key with a new entry stamped at the current
    time. *)
Definition setEntry (now : Z) (id : string) (data : OWResponse.t) (c : t) : t :=
  mk (maxAge c) (<[id := mkEntry data now]> (entries c)).

(** Modelled from the spec: [maxAge] is a plain field of the cache
    configuration, so the assignment [wcache.maxAge = v] stores [v]. *)
Definition setMaxAge (v : number) (c : t) : t := mk v (entries c).

End WCache.

(* ===================================================================== *)
(** ** [openweather.ts]: class [OpenWeather] *)
(* ===================================================================== *)

(** A request URL: the empty string, or the One Call endpoint with its
    [lat], [lon] and [appid] query parameters. *)
Inductive Url : Type :=
| EmptyUrl
| OneCall (lat lon : Q) (appid : string).

(** What [await fetch(url)] followed by [await res.json()] produces: a
    rejection, or the parsed body. *)
Inductive Reply : Type :=
| Rejected (reason : string)
| Body (owData : OWResponse.t).

(** The remote service as it answers at one moment. *)
Definition Remote : Type := Url -> Reply.

(** [fetch(url)]: an empty URL is rejected before anything is sent. *)
Definition fetch (net : Remote) (url : Url) : Reply :=
  match url with
  | EmptyUrl => Rejected "Failed to parse URL"
  | _ => net url
  end.

(** The object state; [requests] logs the argument of every [fetch] call. *)
Record OpenWeather : Type := mkOpenWeather {
  settings : WEATHER_CONFIG;
  wcache : WCache.t;
  requests : list Url
}.

(** [constructor(config, path)]; [store] is the object [new WCache(path)]. *)
Definition newOpenWeather (config : WEATHER_CONFIG) (store : WCache.t)
  : OpenWeather :=
  mkOpenWeather config (WCache.setMaxAge (pollInterval config) store) [].

Definition getUrl (ow : OpenWeather) (position : Position) : Url :=
  if String.eqb (apiKey (settings ow)) "" then EmptyUrl
  else OneCall (latitude position) (longitude position) (apiKey (settings ow)).

Definition logRequest (url : Url) (ow : OpenWeather) : OpenWeather :=
  mkOpenWeather (settings ow) (wcache ow) (requests ow ++ [url]).

Definition updateCache `{SpatialGrid} (now : Z) (position : Position)
    (owData : OWResponse.t) (ow : OpenWeather) : OpenWeather :=
  mkOpenWeather (settings ow)
                (WCache.setEntry now (calcId position) owData (wcache ow))
                (requests ow).

Definition fetchDataError : string := "Error fetching weather data from provider!".

Definition fetchData `{SpatialGrid} (net : Remote) (now : Z)
    (position : Position) (ow : OpenWeather)
  : Result OWResponse.t * OpenWeather :=
  let url := getUrl ow position in
  let ow1 := logRequest url ow in
  match fetch net url with
  | Rejected _ => (Throw fetchDataError, ow1)
  | Body owData =>
      match OWResponse.cod owData with
      | Some _ => (Throw fetchDataError, ow1)
      | None => (Ok owData, updateCache now position owData ow1)
      end
  end.

(** The lines shared by [fetchObservations], [fetchForecasts] and
    [fetchWarnings]: [contains], then [fetchData] when
    [bypassCache || !entryId], else [getEntry].  [bypassCache] is an optional
    parameter; [None] is the omitted argument. *)
Definition resolve `{SpatialGrid} (net : Remote) (now : Z)
    (position : Position) (bypassCache : option bool) (ow : OpenWeather)
  : Result (option OWResponse.t) * OpenWeather :=
  let entryId := WCache.contains now position (wcache ow) in
  match bypassCache, entryId with
  | (None | Some false), Some id => (Ok (WCache.getEntry id (wcache ow)), ow)
  | _, _ =>
      let '(r, ow') := fetchData net now position ow in
      (bind r (fun owData => Ok (Some owData)), ow')
  end.

(** *** Parsers *)

(** [Math.PI / 180] *)
Definition piOver180 : Q := 17453292519943295 # 1000000000000000000.

Definition div100 (x : Q) : Q := (x / 100)%Q.

Definition mul100 (x : Q) : Q := (x * 100)%Q.

Definition degToRad (x : Q) : Q := (piOver180 * x)%Q.

(** [x ? new Date(x * 1000).toISOString() : new Date().toISOString()] *)
Definition dateOrNow (now : Z) (x : option Z) : Result string :=
  match x with
  | Some s => if truthy s then toISOString (s * 1000) else Ok (isoString now)
  | None => Ok (isoString now)
  end.

(** [w[0].description ?? ''] *)
Definition firstDescription (w : option (list OWWeather.t)) : Result string :=
  match w with
  | Some (w0 :: _) => Ok (default "" (OWWeather.description w0))
  | _ => Throw "Cannot read properties of undefined"
  end.

(** Under [typeof x !== 'undefined']: [new Date(x * 1000).toISOString()] *)
Definition isoIfDefined (x : option Z) : Result (option string) :=
  match x with
  | Some s => bind (toISOString (s * 1000)) (fun d => Ok (Some d))
  | None => Ok None
  end.

(** The seconds value, if any, names a date that [toISOString] prints. *)
Definition printable (x : option Z) : bool :=
  match x with
  | Some s => Z.abs (s * 1000) <=? maxTimeValue
  | None => true
  end.

(** Rain is preferred over snow when both carry a ['1h'] volume. *)
Definition precipitation (rain snow : option (gmap string Q))
  : option PrecipitationKind * option Q :=
  match rain ≫= (.!! "1h") with
  | Some v => (Some rainKind, Some v)
  | None =>
      match snow ≫= (.!! "1h") with
      | Some v => (Some snowKind, Some v)
      | None => (None, None)
      end
  end.

(** [if (o && Object.keys(o).length === 0) { delete o }] *)
Definition clean {A : Type} (isEmpty : A -> bool) (o : option A) : option A :=
  match o with
  | Some a => if isEmpty a then None else Some a
  | None => None
  end.

Definition observationOf (now : Z) (current : OWObservation.t)
  : Result WeatherData.t :=
  bind (dateOrNow now (OWObservation.dt current)) (fun date =>
  bind (firstDescription (OWObservation.weather current)) (fun descr =>
  let '(ptype, pvolume) :=
    precipitation (OWObservation.rain current) (OWObservation.snow current) in
  let outside := {|
    Outside.minTemperature := None;
    Outside.maxTemperature := None;
    Outside.feelsLikeTemperature := OWObservation.feels_like current;
    Outside.precipitationVolume := pvolume;
    Outside.absoluteHumidity := div100 <$> OWObservation.humidity current;
    Outside.horizontalVisibility := OWObservation.visibility current;
    Outside.uvIndex := OWObservation.uvi current;
    Outside.cloudCover := div100 <$> OWObservation.clouds current;
    Outside.temperature := OWObservation.temp current;
    Outside.dewPointTemperature := OWObservation.dew_point current;
    Outside.pressure := mul100 <$> OWObservation.pressure current;
    Outside.pressureTendency := None;
    Outside.relativeHumidity := None;
    Outside.precipitationType := ptype |} in
  bind (isoIfDefined (OWObservation.sunrise current)) (fun sunrise =>
  bind (isoIfDefined (OWObservation.sunset current)) (fun sunset =>
  let sun := Sun.mk sunrise sunset in
  let wind := {|
    Wind.speedTrue := OWObservation.wind_speed current;
    Wind.directionTrue := degToRad <$> OWObservation.wind_deg current;
    Wind.gust := None;
    Wind.gustDirection := None |} in
  Ok {| WeatherData.description := Some descr;
        WeatherData.date := date;
        WeatherData.type := observation;
        WeatherData.outside := clean Outside.isEmpty (Some outside);
        WeatherData.water := clean Water.isEmpty (Some Water.empty);
        WeatherData.wind := clean Wind.isEmpty (Some wind);
        WeatherData.sun := clean Sun.isEmpty (Some sun) |})))).

(** [owData] may be [undefined] (nothing stored under the reference). *)
Definition parseOWObservations (now : Z) (owData : option OWResponse.t)
  : Result (list WeatherData.t) :=
  match owData ≫= OWResponse.current with
  | Some current => bind (observationOf now current) (fun obs => Ok [obs])
  | None => Ok []
  end.

(** The part of the [forEach] body that depends on the period: the [sun]
    object and the min / max / feels-like / plain temperatures. *)
Definition PeriodPart : Type :=
  (option Sun.t * option Q * option Q * option Q * option Q)%type.

Definition dailyPart (f : OWForecast.t OWTemp.t OWFeelsLike.t)
  : Result PeriodPart :=
  bind (isoIfDefined (OWForecast.sunrise f)) (fun sunrise =>
  bind (isoIfDefined (OWForecast.sunset f)) (fun sunset =>
  match OWForecast.temp f, OWForecast.feels_like f with
  | Some t, Some fl =>
      Ok (Some (Sun.mk sunrise sunset), OWTemp.min t, OWTemp.max t,
          OWFeelsLike.day fl, None)
  | _, _ => Throw "Cannot read properties of undefined"
  end)).

Definition pointPart (f : OWForecast.t Q Q) : Result PeriodPart :=
  Ok (None, None, None, OWForecast.feels_like f, OWForecast.temp f).

Definition forecastOf {T F : Type} (now : Z) (period : WeatherForecastType)
    (part : OWForecast.t T F -> Result PeriodPart) (f : OWForecast.t T F)
  : Result WeatherData.t :=
  bind (dateOrNow now (OWForecast.dt f)) (fun date =>
  bind (firstDescription (OWForecast.weather f)) (fun descr =>
  bind (part f) (fun '(sun, minT, maxT, feels, temperature) =>
  let '(ptype, pvolume) :=
    precipitation (OWForecast.rain f) (OWForecast.snow f) in
  let outside := {|
    Outside.minTemperature := minT;
    Outside.maxTemperature := maxT;
    Outside.feelsLikeTemperature := feels;
    Outside.precipitationVolume := pvolume;
    Outside.absoluteHumidity := div100 <$> OWForecast.humidity f;
    Outside.horizontalVisibility := None;
    Outside.uvIndex := OWForecast.uvi f;
    Outside.cloudCover := div100 <$> OWForecast.clouds f;
    Outside.temperature := temperature;
    Outside.dewPointTemperature := OWForecast.dew_point f;
    Outside.pressure := mul100 <$> OWForecast.pressure f;
    Outside.pressureTendency := None;
    Outside.relativeHumidity := None;
    Outside.precipitationType := ptype |} in
  let wind := clean Wind.isEmpty (Some {|
    Wind.speedTrue := OWForecast.wind_speed f;
    Wind.directionTrue := degToRad <$> OWForecast.wind_deg f;
    Wind.gust := OWForecast.wind_gust f;
    Wind.gustDirection := None |}) in
  Ok {| WeatherData.description := Some descr;
        WeatherData.date := date;
        WeatherData.type := forecast period;
        (* the source tests [forecast.wind] before it looks at [outside] *)
        WeatherData.outside :=
          match wind with
          | Some _ => clean Outside.isEmpty (Some outside)
          | None => Some outside
          end;
        WeatherData.water := None;
        WeatherData.wind := wind;
        WeatherData.sun := clean Sun.isEmpty sun |}))).

Definition parseOWForecasts (now : Z) (owData : option OWResponse.t)
    (period : WeatherForecastType) : Result (list WeatherData.t) :=
  match period with
  | point =>
      match owData ≫= OWResponse.hourly with
      | Some forecasts => forEach (forecastOf now point pointPart) forecasts
      | None => Ok []
      end
  | daily =>
      match owData ≫= OWResponse.daily with
      | Some forecasts => forEach (forecastOf now daily dailyPart) forecasts
      | None => Ok []
      end
  end.

Definition warningOf (alert : OWWarning.t) : Result WeatherWarning.t :=
  bind (match OWWarning.start alert with
        | Some s => if truthy s then toISOString (s * 1000) else Ok ""
        | None => Ok ""
        end) (fun startTime =>
  bind (match OWWarning.end_ alert with
        | Some e =>
            if truthy e then
              (* [new Date(alert.start * 1000)]; an undefined start makes an
                 invalid date *)
              match OWWarning.start alert with
              | Some s => toISOString (s * 1000)
              | None => Throw "Invalid time value"
              end
            else Ok ""
        | None => Ok ""
        end) (fun endTime =>
  Ok {| WeatherWarning.startTime := startTime;
        WeatherWarning.endTime := endTime;
        WeatherWarning.details := OWWarning.description alert;
        WeatherWarning.source := OWWarning.sender_name alert;
        WeatherWarning.type := OWWarning.event alert |})).

Definition parseOWWarnings (owData : option OWResponse.t)
  : Result (list WeatherWarning.t) :=
  match owData ≫= OWResponse.alerts with
  | Some alerts => forEach warningOf alerts
  | None => Ok []
  end.

(** *** The three public methods *)

(** [options?.maxCount ? l.slice(0, options.maxCount) : l] *)
Definition truncate {A : Type} (options : option WeatherReqParams) (l : list A)
  : list A :=
  match options ≫= maxCount with
  | Some n => if truthy n then slice0 n l else l
  | None => l
  end.

Definition parseError : string := "Error fetching / parsing weather data!".

Definition forecastError : string :=
  "Error fetching / parsing weather data from provider!".

Definition fetchObservations `{SpatialGrid} (net : Remote) (now : Z)
    (position : Position) (options : option WeatherReqParams)
    (bypassCache : option bool) (ow : OpenWeather)
  : Result (list WeatherData.t) * OpenWeather :=
  let '(r, ow') := resolve net now position bypassCache ow in
  (rethrow parseError
     (bind r (fun owData =>
      bind (parseOWObservations now owData) (fun obs =>
      Ok (truncate options obs)))),
   ow').

Definition fetchForecasts `{SpatialGrid} (net : Remote) (now : Z)
    (position : Position) (type : WeatherForecastType)
    (options : option WeatherReqParams) (bypassCache : option bool)
    (ow : OpenWeather)
  : Result (list WeatherData.t) * OpenWeather :=
  let '(r, ow') := resolve net now position bypassCache ow in
  (rethrow forecastError
     (bind r (fun owData =>
      bind (parseOWForecasts now owData type) (fun f =>
      Ok (truncate options f)))),
   ow').

Definition fetchWarnings `{SpatialGrid} (net : Remote) (now : Z)
    (position : Position) (bypassCache : option bool) (ow : OpenWeather)
  : Result (list WeatherWarning.t) * OpenWeather :=
  let '(r, ow') := resolve net now position bypassCache ow in
  (rethrow parseError (bind r parseOWWarnings), ow').

(** The three methods under one name, for statements that hold of each. *)
Inductive Method : Type :=
| Observations (options : option WeatherReqParams)
| Forecasts (type : WeatherForecastType) (options : option WeatherReqParams)
| Warnings.

(** The object after a call of the method. *)
Definition after `{SpatialGrid} (m : Method) (net : Remote) (now : Z)
    (position : Position) (bypassCache : option bool) (ow : OpenWeather)
  : OpenWeather :=
  match m with
  | Observations options =>
      snd (fetchObservations net now position options bypassCache ow)
  | Forecasts type options =>
      snd (fetchForecasts net now position type options bypassCache ow)
  | Warnings => snd (fetchWarnings net now position bypassCache ow)
  end.

(* ===================================================================== *)
(** ** Host interface shared by both revisions of [weather-service.ts] *)
(* ===================================================================== *)

Inductive DeltaValue : Type :=
| VPosition (p : Position)
| VName (name : string)
| VString (s : string)
| VNumber (q : Q)
| VPrecipitation (k : PrecipitationKind).

Definition PathValue : Type := (string * DeltaValue)%type.

(** What the plugin does to the host; [server.debug] output is left out. *)
Inductive HostEvent : Type :=
| RegisterWeatherProvider
| SetPluginError (msg : string)
| ConsoleLog (msg : string)
| HandleMessage (pluginId context : string) (values : list PathValue).

Definition weatherServiceName : string := "OpenWeather".

Definition wakeInterval : Z := 60000.

(** [if (typeof v !== 'undefined') { deltaValues.push({path, value: v}) }] *)
Definition pushIfDefined {A : Type} (path : string) (wrap : A -> DeltaValue)
    (v : option A) : list PathValue :=
  match v with
  | Some x => [(path, wrap x)]
  | None => []
  end.

(** The [values] array built by [emitMeteoDeltas]; [obs] is [obs[0]], which
    is undefined for an empty observation list, and reading a property of
    undefined throws. *)
Definition meteoDeltas (position : Position) (obs : option WeatherData.t)
  : Result (list PathValue) :=
  match obs with
  | None => Throw "Cannot read properties of undefined (reading 'date')"
  | Some obs =>
      let outside := WeatherData.outside obs in
      let sun := WeatherData.sun obs in
      let wind := WeatherData.wind obs in
      Ok ([("navigation.position", VPosition position);
           ("", VName weatherServiceName);
           ("environment.date", VString (WeatherData.date obs))]
          ++ pushIfDefined "environment.outside.horizontalVisibility" VNumber
               (outside ≫= Outside.horizontalVisibility)
          ++ pushIfDefined "environment.sun.sunrise" VString
               (sun ≫= Sun.sunrise)
          ++ pushIfDefined "environment.sun.sunset" VString
               (sun ≫= Sun.sunset)
          ++ pushIfDefined "environment.outside.uvIndex" VNumber
               (outside ≫= Outside.uvIndex)
          ++ pushIfDefined "environment.outside.cloudCover" VNumber
               (outside ≫= Outside.cloudCover)
          ++ pushIfDefined "environment.outside.temperature" VNumber
               (outside ≫= Outside.temperature)
          ++ pushIfDefined "environment.outside.dewPointTemperature" VNumber
               (outside ≫= Outside.dewPointTemperature)
          ++ pushIfDefined "environment.outside.feelsLikeTemperature" VNumber
               (outside ≫= Outside.feelsLikeTemperature)
          ++ pushIfDefined "environment.outside.pressure" VNumber
               (outside ≫= Outside.pressure)
          ++ pushIfDefined "environment.outside.relativeHumidity" VNumber
               (outside ≫= Outside.relativeHumidity)
          ++ pushIfDefined "environment.outside.absoluteHumidity" VNumber
               (outside ≫= Outside.absoluteHumidity)
          ++ pushIfDefined "environment.outside.precipitationType"
               VPrecipitation (outside ≫= Outside.precipitationType)
          ++ pushIfDefined "environment.wind.speedTrue" VNumber
               (wind ≫= Wind.speedTrue)
          ++ pushIfDefined "environment.wind.directionTrue" VNumber
               (wind ≫= Wind.directionTrue))
  end.

(** [fetchInterval = (config.pollInterval ?? 60) * 60000], then the
    [isNaN] fallback. *)
Definition fetchIntervalOf (config : WEATHER_CONFIG) : Z :=
  match pollInterval config with
  | Undefined => 60 * 60000
  | NaN => 60 * 60000
  | Num m => m * 60000
  end.

(** [if (lastFetch) { const e = Date.now() - lastFetch; if (e < fetchInterval) ... }] *)
Definition notDue (now : Z) (lastFetch : option Z) (fetchInterval : Z) : bool :=
  match lastFetch with
  | Some t => truthy t && (now - t <? fetchInterval)
  | None => false
  end.

(* ===================================================================== *)
(** ** [weather-service.ts] *)
(* ===================================================================== *)

Module WeatherService.

(** The three callbacks the module hands to [setInterval] / [setTimeout]. *)
Inductive Callback : Type :=
| WakeTick        (* the interval armed after a successful fetch *)
| NoPositionRetry (* the timeout armed when no position is known *)
| FetchRetry.     (* the timeout armed in the [catch] of the fetch *)

Definition retry_interval : Z := 10000.
Definition retry_maxCount : Z := 3.
Definition noPosRetry_maxCount : Z := 12.
Definition noPosRetry_interval : Z := 10000.

(** The module-level variables, the timer table and the host log. *)
Record State : Type := mkState {
  pluginId : string;
  lastWake : option Z;
  lastFetch : option Z;
  fetchInterval : Z;
  timer : option nat;
  retryTimer : option nat;
  retry_count : Z;
  noPosRetry_count : Z;
  weatherService : option OpenWeather;
  loop : Loop Callback;
  host : list HostEvent
}.

(** The variables as the module leaves them when it is loaded. *)
Definition loaded : State :=
  mkState "" None None 3600000 None None 0 0 None emptyLoop [].

Definition set_times (w f : option Z) (s : State) : State :=
  mkState (pluginId s) w f (fetchInterval s) (timer s) (retryTimer s)
          (retry_count s) (noPosRetry_count s) (weatherService s) (loop s)
          (host s).

Definition set_lastWake (w : option Z) (s : State) : State :=
  set_times w (lastFetch s) s.

Definition set_lastFetch (f : option Z) (s : State) : State :=
  set_times (lastWake s) f s.

Definition set_retry_count (n : Z) (s : State) : State :=
  mkState (pluginId s) (lastWake s) (lastFetch s) (fetchInterval s) (timer s)
          (retryTimer s) n (noPosRetry_count s) (weatherService s) (loop s)
          (host s).

Definition set_noPosRetry_count (n : Z) (s : State) : State :=
  mkState (pluginId s) (lastWake s) (lastFetch s) (fetchInterval s) (timer s)
          (retryTimer s) (retry_count s) n (weatherService s) (loop s)
          (host s).

Definition set_weatherService (ow : option OpenWeather) (s : State) : State :=
  mkState (pluginId s) (lastWake s) (lastFetch s) (fetchInterval s) (timer s)
          (retryTimer s) (retry_count s) (noPosRetry_count s) ow (loop s)
          (host s).

Definition set_loop (l : Loop Callback) (s : State) : State :=
  mkState (pluginId s) (lastWake s) (lastFetch s) (fetchInterval s) (timer s)
          (retryTimer s) (retry_count s) (noPosRetry_count s)
          (weatherService s) l (host s).

Definition emit (e : HostEvent) (s : State) : State :=
  mkState (pluginId s) (lastWake s) (lastFetch s) (fetchInterval s) (timer s)
          (retryTimer s) (retry_count s) (noPosRetry_count s)
          (weatherService s) (loop s) (host s ++ [e]).

(** [timer = setInterval(cb, ms)] *)
Definition armTimer (cb : Callback) (ms now : Z) (s : State) : State :=
  let '(h, l) := setInterval cb ms now (loop s) in
  mkState (pluginId s) (lastWake s) (lastFetch s) (fetchInterval s) (Some h)
          (retryTimer s) (retry_count s) (noPosRetry_count s)
          (weatherService s) l (host s).

(** [retryTimer = setTimeout(cb, ms)] *)
Definition armRetryTimer (cb : Callback) (ms now : Z) (s : State) : State :=
  let '(h, l) := setTimeout cb ms now (loop s) in
  mkState (pluginId s) (lastWake s) (lastFetch s) (fetchInterval s) (timer s)
          (Some h) (retry_count s) (noPosRetry_count s)
          (weatherService s) l (host s).

(** An [async] call either runs to its end, or stops at
    [await weatherService.fetchObservations(pos.value, undefined, true)]. *)
Inductive Poll : Type :=
| Done (s : State)
| Await (s : State) (position : Position).

Definition stateOf (p : Poll) : State :=
  match p with
  | Done s => s
  | Await s _ => s
  end.

(** The text logged when the retries are spent (its line break is a blank
    here). *)
Definition exhaustedMessage (s : State) : string :=
  "*** Weather: Failed to fetch data after 3 attempts." +:+
  " Restart " +:+ pluginId s +:+ " plugin to retry.".

(** [pollWeatherData] up to the [await]; [pos] is what
    [server.getSelfPath('navigation.position')] returns, with its [value]. *)
Definition pollWeatherData (now : Z) (pos : option Position) (s : State)
  : Poll :=
  match pos with
  | None =>
      if noPosRetry_maxCount <=? noPosRetry_count s then Done s
      else
        let s := set_noPosRetry_count (noPosRetry_count s + 1) s in
        Done (armRetryTimer NoPositionRetry noPosRetry_interval now s)
  | Some position =>
      let s := set_noPosRetry_count 0 s in
      let s := set_loop (clearIfSet (retryTimer s) (loop s)) s in
      if notDue now (lastFetch s) (fetchInterval s) then Done s
      else if retry_count s <? retry_maxCount then
        Await (set_retry_count (retry_count s + 1) s) position
      else
        Done (emit (ConsoleLog (exhaustedMessage s)) (set_retry_count 0 s))
  end.

(** The [catch] block of [pollWeatherData]. *)
Definition pollFailed (now : Z) (s : State) : State :=
  armRetryTimer FetchRetry retry_interval now s.

Definition emitMeteoDeltas (position : Position) (obs : option WeatherData.t)
    (s : State) : Result State :=
  bind (meteoDeltas position obs) (fun values =>
  Ok (emit (HandleMessage (pluginId s) "meteo.openweather" values) s)).

(** [pollWeatherData] from the point where the awaited promise settles with
    [r]: the rest of the [try] block, or the [catch] block.  An exception
    thrown by [emitMeteoDeltas] lands in the same [catch], after the
    assignments before it have taken effect. *)
Definition pollWeatherData_resume (now : Z) (position : Position)
    (r : Result (list WeatherData.t)) (s : State) : State :=
  match r with
  | Ok obs =>
      let s := set_retry_count 0 s in
      let s := set_times (Some now) (Some now) s in
      match emitMeteoDeltas position (head obs) s with
      | Ok s => armTimer WakeTick wakeInterval now s
      | Throw _ => pollFailed now s
      end
  | Throw _ => pollFailed now s
  end.

(** The awaited call itself, on the module's [weatherService]. *)
Definition pollWeatherData_fetch `{SpatialGrid} (net : Remote) (now : Z)
    (position : Position) (s : State)
  : Result (list WeatherData.t) * State :=
  match weatherService s with
  | Some ow =>
      let '(r, ow') := fetchObservations net now position None (Some true) ow in
      (r, set_weatherService (Some ow') s)
  | None => (Throw "Cannot read properties of undefined", s)
  end.

(** A whole [pollWeatherData] call whose request is answered by [net] before
    any other callback runs. *)
Definition pollWeatherData_run `{SpatialGrid} (net : Remote) (now : Z)
    (pos : option Position) (s : State) : State :=
  match pollWeatherData now pos s with
  | Done s => s
  | Await s position =>
      let '(r, s) := pollWeatherData_fetch net now position s in
      pollWeatherData_resume now position r s
  end.

(** The body of the interval callback, up to its call of [pollWeatherData]:
    the watchdog, then [lastWake = Date.now()]. *)
Definition wakeWatchdog (now : Z) (s : State) : State :=
  let ok :=
    match lastWake s with
    | Some w => 50000 <=? now - w
    | None => false
    end in
  let s :=
    if ok then s
    else emit (SetPluginError "Weather watch timer error!")
              (set_loop (clearIfSet (timer s) (loop s)) s) in
  set_lastWake (Some now) s.

Definition wakeTick (now : Z) (pos : option Position) (s : State) : Poll :=
  pollWeatherData now pos (wakeWatchdog now s).

(** What a callback does when its timer fires. *)
Definition runCallback (cb : Callback) (now : Z) (pos : option Position)
    (s : State) : Poll :=
  match cb with
  | WakeTick => wakeTick now pos s
  | NoPositionRetry => pollWeatherData now pos s
  | FetchRetry => pollWeatherData now pos s
  end.

(** Timer [h] fires: a timer that is no longer in the table does nothing. *)
Definition fire (h : nat) (now : Z) (pos : option Position) (s : State)
  : Poll :=
  match JS.find h (loop s) with
  | Some t => runCallback (callback t) now pos (set_loop (fired h (loop s)) s)
  | None => Done s
  end.

Definition fire_run `{SpatialGrid} (net : Remote) (h : nat) (now : Z)
    (pos : option Position) (s : State) : State :=
  match fire h now pos s with
  | Done s => s
  | Await s position =>
      let '(r, s) := pollWeatherData_fetch net now position s in
      pollWeatherData_resume now position r s
  end.

(** The pending retry timeout fires [n] times in a row, [retry_interval]
    apart, each request being answered by [net] at once. *)
Fixpoint retryLoop `{SpatialGrid} (net : Remote) (n : nat) (now : Z)
    (pos : option Position) (s : State) : State :=
  match n with
  | O => s
  | S n' =>
      match retryTimer s with
      | Some h =>
          retryLoop net n' (now + retry_interval) pos
                    (fire_run net h (now + retry_interval) pos s)
      | None => s
      end
  end.

(** The interval held in [timer] fires [n] times in a row, [wakeInterval]
    apart. *)
Fixpoint wakeLoop `{SpatialGrid} (net : Remote) (n : nat) (now : Z)
    (pos : option Position) (s : State) : State :=
  match n with
  | O => s
  | S n' =>
      match timer s with
      | Some h =>
          wakeLoop net n' (now + wakeInterval) pos
                   (fire_run net h (now + wakeInterval) pos s)
      | None => s
      end
  end.

(** [initWeather(app, id, config)]; [store] is the object [new WCache(path)]
    makes. *)
Definition initWeather (id : string) (config : WEATHER_CONFIG)
    (store : WCache.t) (now : Z) (pos : option Position) (s : State) : Poll :=
  let s :=
    mkState id (lastWake s) (lastFetch s) (fetchIntervalOf config) (timer s)
            (retryTimer s) (retry_count s) (noPosRetry_count s)
            (Some (newOpenWeather config store)) (loop s)
            (host s ++ [RegisterWeatherProvider]) in
  if enable config then pollWeatherData now pos s else Done s.

Definition stopWeather (s : State) : State :=
  let s := set_loop (clearIfSet (timer s) (loop s)) s in
  let s := set_loop (clearIfSet (retryTimer s) (loop s)) s in
  set_lastFetch (Some (fetchInterval s - 1)) s.

(** The timer table holds [base] and, after it, the one-shot timer that
    [retryTimer] refers to, which is the latest handle handed out. *)
Definition retryPending (base : list (Timer Callback)) (h : nat) (s : State)
  : Prop :=
  retryTimer s = Some h /\
  nextHandle (loop s) = S h /\
  below h base /\
  exists ms at_ cb,
    cb <> WakeTick /\ timers (loop s) = base ++ [mkTimer h false ms at_ cb].

(** The number of [fetch] calls made so far. *)
Definition requestCount (s : State) : nat :=
  match weatherService s with
  | Some ow => length (requests ow)
  | None => O
  end.

(** The on-demand query surface. *)
Definition onDemand {A : Type} (msg : string)
    (call : OpenWeather -> Result A * OpenWeather) (s : State)
  : Result A * State :=
  match weatherService s with
  | Some ow =>
      let '(r, ow') := call ow in
      (rethrow msg r, set_weatherService (Some ow') s)
  | None => (Throw msg, s)
  end.

Definition observationError : string :=
  "Error fetching observation data from provider!".

Definition warningError : string :=
  "Error fetching weather warnings from provider!".

Definition getObservationData `{SpatialGrid} (net : Remote) (now : Z)
    (position : Position) (options : option WeatherReqParams) (s : State)
  : Result (list WeatherData.t) * State :=
  onDemand observationError
           (fetchObservations net now position options None) s.

Definition getForecastData `{SpatialGrid} (net : Remote) (now : Z)
    (position : Position) (type : WeatherForecastType)
    (options : option WeatherReqParams) (s : State)
  : Result (list WeatherData.t) * State :=
  onDemand observationError
           (fetchForecasts net now position type options None) s.

Definition getWarnings `{SpatialGrid} (net : Remote) (now : Z)
    (position : Position) (s : State)
  : Result (list WeatherWarning.t) * State :=
  onDemand warningError (fetchWarnings net now position None) s.

End WeatherService.

(* ===================================================================== *)
(** ** [weather-service.ts], later revision

    One error counter ([errorCount], at most [errorCountMax]), the periodic
    timer armed once by [initWeather], and the watchdog at the head of
    [pollWeatherData]. *)
(* ===================================================================== *)

Module WeatherServiceRev.

Inductive Callback : Type :=
| StartTimer  (* the 3 s timeout of [initWeather] *)
| Wake.       (* the interval: [() => pollWeatherData()] *)

Definition errorCountMax : Z := 5.

Record State : Type := mkState {
  pluginId : string;
  lastWake : option Z;
  lastFetch : option Z;
  fetchInterval : Z;
  timer : option nat;
  errorCount : Z;
  weatherService : option OpenWeather;
  loop : Loop Callback;
  host : list HostEvent
}.

Definition loaded : State :=
  mkState "" None None 3600000 None 0 None emptyLoop [].

Definition set_times (w f : option Z) (s : State) : State :=
  mkState (pluginId s) w f (fetchInterval s) (timer s) (errorCount s)
          (weatherService s) (loop s) (host s).

Definition set_lastWake (w : option Z) (s : State) : State :=
  set_times w (lastFetch s) s.

Definition set_errorCount (n : Z) (s : State) : State :=
  mkState (pluginId s) (lastWake s) (lastFetch s) (fetchInterval s) (timer s)
          n (weatherService s) (loop s) (host s).

Definition set_weatherService (ow : option OpenWeather) (s : State) : State :=
  mkState (pluginId s) (lastWake s) (lastFetch s) (fetchInterval s) (timer s)
          (errorCount s) ow (loop s) (host s).

Definition set_loop (l : Loop Callback) (s : State) : State :=
  mkState (pluginId s) (lastWake s) (lastFetch s) (fetchInterval s) (timer s)
          (errorCount s) (weatherService s) l (host s).

Definition emit (e : HostEvent) (s : State) : State :=
  mkState (pluginId s) (lastWake s) (lastFetch s) (fetchInterval s) (timer s)
          (errorCount s) (weatherService s) (loop s) (host s ++ [e]).

Definition stopWeather (s : State) : State :=
  mkState (pluginId s) (Some 0) (Some (fetchInterval s - 1)) (fetchInterval s)
          None (errorCount s) (weatherService s)
          (clearIfSet (timer s) (loop s)) (host s).

(** The text logged when the error budget is spent (its line break is a
    blank here). *)
Definition exhaustedMessage (s : State) : string :=
  "*** Weather: Failed to fetch data after 5 attempts." +:+
  " Restart " +:+ pluginId s +:+ " plugin to retry.".

(** [handleError(msg)]; the counts printed in the two progress lines are
    left out of their text. *)
Definition handleError (msg : string) (s : State) : State :=
  let s := emit (ConsoleLog msg) s in
  let s := set_errorCount (errorCount s + 1) s in
  if errorCountMax <=? errorCount s then
    stopWeather (emit (ConsoleLog (exhaustedMessage s)) s)
  else
    emit (ConsoleLog "*** Retry in  60 seconds.")
         (emit (ConsoleLog "*** Weather: Error count") s).

Inductive Poll : Type :=
| Done (s : State)
| Await (s : State) (position : Position).

(** [lastWake > 0], then [dt < wakeInterval - 10000]. *)
Definition watchdogTrips (now : Z) (s : State) : bool :=
  match lastWake s with
  | Some w => (0 <? w) && (now - w <? wakeInterval - 10000)
  | None => false
  end.

(** [pollWeatherData] up to the point where the request is under way. *)
Definition pollWeatherData (now : Z) (pos : option Position) (s : State)
  : Poll :=
  if watchdogTrips now s then
    Done (emit (SetPluginError "Weather timer stopped by watchdog!")
               (stopWeather s))
  else
    let s := set_lastWake (Some now) s in
    match pos with
    | None => Done (handleError "*** Weather: No vessel position detected!" s)
    | Some position =>
        if notDue now (lastFetch s) (fetchInterval s) then Done s
        else if errorCount s <? errorCountMax then Await s position
        else Done s
    end.

(** The [.catch] handler. *)
Definition pollFailed (message : string) (s : State) : State :=
  let s := handleError "*** Weather: ERROR polling weather provider!" s in
  emit (SetPluginError message) (emit (ConsoleLog message) s).

(** The [.then] handler, or the [.catch] handler, when the promise settles;
    an exception of the [.then] handler is caught by [.catch] too. *)
Definition pollWeatherData_resume (now : Z) (position : Position)
    (r : Result (list WeatherData.t)) (s : State) : State :=
  match r with
  | Ok obs =>
      let s := set_errorCount 0 s in
      let s := set_times (Some now) (Some now) s in
      match meteoDeltas position (head obs) with
      | Ok values =>
          emit (HandleMessage (pluginId s) "meteo.openweather" values) s
      | Throw m => pollFailed m s
      end
  | Throw m => pollFailed m s
  end.

Definition pollWeatherData_fetch `{SpatialGrid} (net : Remote) (now : Z)
    (position : Position) (s : State)
  : Result (list WeatherData.t) * State :=
  match weatherService s with
  | Some ow =>
      let '(r, ow') := fetchObservations net now position None (Some true) ow in
      (r, set_weatherService (Some ow') s)
  | None => (Throw "Cannot read properties of undefined", s)
  end.

Definition settle `{SpatialGrid} (net : Remote) (now : Z) (p : Poll) : State :=
  match p with
  | Done s => s
  | Await s position =>
      let '(r, s) := pollWeatherData_fetch net now position s in
      pollWeatherData_resume now position r s
  end.

(** [timer = setInterval(() => pollWeatherData(), wakeInterval)] followed by
    [pollWeatherData()]. *)
Definition startTimer (now : Z) (pos : option Position) (s : State) : Poll :=
  let '(h, l) := setInterval Wake wakeInterval now (loop s) in
  pollWeatherData now pos
    (mkState (pluginId s) (lastWake s) (lastFetch s) (fetchInterval s)
             (Some h) (errorCount s) (weatherService s) l (host s)).

Definition runCallback (cb : Callback) (now : Z) (pos : option Position)
    (s : State) : Poll :=
  match cb with
  | StartTimer => startTimer now pos s
  | Wake => pollWeatherData now pos s
  end.

Definition fire (h : nat) (now : Z) (pos : option Position) (s : State)
  : Poll :=
  match JS.find h (loop s) with
  | Some t => runCallback (callback t) now pos (set_loop (fired h (loop s)) s)
  | None => Done s
  end.

(** [initWeather]: the start-up timeout is armed only when [timer] is unset;
    its handle is not kept. *)
Definition initWeather (id : string) (config : WEATHER_CONFIG)
    (store : WCache.t) (now : Z) (s : State) : State :=
  let s :=
    mkState id (lastWake s) (lastFetch s) (fetchIntervalOf config) (timer s)
            0 (Some (newOpenWeather config store)) (loop s)
            (host s ++ [RegisterWeatherProvider]) in
  if enable config then
    match timer s with
    | None => set_loop (snd (setTimeout StartTimer 3000 now (loop s))) s
    | Some _ => s
    end
  else s.

End WeatherServiceRev.

(* ===================================================================== *)
(** ** Sample data and runs used by the examples below *)
(* ===================================================================== *)

Module Sample.

(** One-degree cells. *)
Definition degreeGrid : SpatialGrid :=
  fun p => pad 3 (Qfloor (latitude p) + 90) +:+ "," +:+
           pad 3 (Qfloor (longitude p) + 180).

Definition vessel : Position := mkPosition (10 # 1) (20 # 1).

Definition clearSky : OWWeather.t :=
  OWWeather.mk (Some 800) (Some "Clear") (Some "clear sky") (Some "01d").

Definition currentWith (tags : option (list OWWeather.t)) (temp : Q)
  : OWObservation.t :=
  {| OWObservation.dt := Some 1714712400;
     OWObservation.sunrise := Some 1714709000;
     OWObservation.sunset := Some 1714759000;
     OWObservation.temp := Some temp;
     OWObservation.feels_like := Some temp;
     OWObservation.pressure := Some (1013 # 1);
     OWObservation.humidity := Some (80 # 1);
     OWObservation.dew_point := Some (280 # 1);
     OWObservation.uvi := Some (3 # 1);
     OWObservation.clouds := Some (25 # 1);
     OWObservation.visibility := Some (10000 # 1);
     OWObservation.wind_speed := Some (5 # 1);
     OWObservation.wind_deg := Some (180 # 1);
     OWObservation.weather := tags;
     OWObservation.rain := None;
     OWObservation.snow := None |}.

Definition hourlyAt (t : Z) : OWForecast.t Q Q :=
  OWForecast.mk (Some t) None None None None None (Some (283 # 1))
    (Some (282 # 1)) (Some (1013 # 1)) (Some (80 # 1)) (Some (280 # 1))
    (Some (5 # 1)) (Some (180 # 1)) (Some (8 # 1)) (Some [clearSky])
    (Some (25 # 1)) (Some (0 # 1)) (Some (3 # 1)) None None.

Definition dailyAt (t : Z) : OWForecast.t OWTemp.t OWFeelsLike.t :=
  OWForecast.mk (Some t) (Some (t - 20000)) (Some (t + 20000)) None None None
    (Some (OWTemp.mk (Some (285 # 1)) (Some (280 # 1)) (Some (288 # 1))
                     None None None))
    (Some (OWFeelsLike.mk (Some (284 # 1)) None None None))
    (Some (1013 # 1)) (Some (80 # 1)) (Some (280 # 1))
    (Some (5 # 1)) (Some (180 # 1)) (Some (8 # 1)) (Some [clearSky])
    (Some (25 # 1)) (Some (0 # 1)) (Some (3 # 1)) None None.

(** An alert that starts on 2024-05-03 at 05:00 and ends at 08:00 UTC. *)
Definition gale : OWWarning.t :=
  OWWarning.mk (Some "Met Office") (Some "Gale warning")
               (Some 1714712400) (Some 1714723200)
               (Some "Strong wind warning.") (Some ["Wind"]).

Definition payloadWith (tags : option (list OWWeather.t)) (temp : Q)
  : OWResponse.t :=
  {| OWResponse.cod := None;
     OWResponse.message := None;
     OWResponse.current := Some (currentWith tags temp);
     OWResponse.hourly :=
       Some [hourlyAt 1714712400; hourlyAt 1714716000; hourlyAt 1714719600];
     OWResponse.daily := Some [dailyAt 1714730400; dailyAt 1714816800];
     OWResponse.alerts := Some [gale] |}.

Definition payloadA : OWResponse.t := payloadWith (Some [clearSky]) (283 # 1).

Definition payloadB : OWResponse.t := payloadWith (Some [clearSky]) (290 # 1).

(** A response whose [current.weather] array is empty. *)
Definition payloadNoTags : OWResponse.t := payloadWith (Some []) (283 # 1).

Definition remoteA : Remote := fun _ => Body payloadA.

Definition remoteB : Remote := fun _ => Body payloadB.

Definition remoteNoTags : Remote := fun _ => Body payloadNoTags.

Definition remoteDown : Remote := fun _ => Rejected "ECONNREFUSED".

Definition emptyStore : WCache.t := WCache.mk Undefined ∅.

Definition config (enabled : bool) (minutes : Z) : WEATHER_CONFIG :=
  mkConfig "0123456789abcdef" enabled (Num minutes).

(** A fresh [OpenWeather] with a 30 minute poll interval, and the same
    object after [payloadA] was fetched for [vessel] at time 0. *)
Definition service : OpenWeather := newOpenWeather (config true 30) emptyStore.

Definition serviceA : OpenWeather :=
  snd (fetchData (H := degreeGrid) remoteA 0 vessel service).

End Sample.

Module SampleRun.

Import WeatherService.

Definition t0 : Z := 1714712400000.

(** The plugin starts with a 15 minute poll interval and a known position;
    the first request succeeds. *)
Definition started : State :=
  match initWeather "openweather" (Sample.config true 15) Sample.emptyStore
                    t0 (Some Sample.vessel) loaded with
  | Done s => s
  | Await s position =>
      let '(r, s) :=
        pollWeatherData_fetch (H := Sample.degreeGrid) Sample.remoteA t0
                              position s in
      pollWeatherData_resume t0 position r s
  end.

(** Fourteen quiet wakes, then the wake at which the poll interval has
    elapsed and the request succeeds again. *)
Definition secondFetch : State :=
  wakeLoop (H := Sample.degreeGrid) Sample.remoteB 15 t0 (Some Sample.vessel)
           started.

(** Fourteen quiet wakes, then the wake at which the poll interval has
    elapsed while the remote service is down. *)
Definition fetchFailed : State :=
  wakeLoop (H := Sample.degreeGrid) Sample.remoteDown 15 t0
           (Some Sample.vessel) started.

(** The interval fires again one second after that wake. *)
Definition afterTrip : State :=
  fire_run (H := Sample.degreeGrid) Sample.remoteB 1 (t0 + 901000)
           (Some Sample.vessel) fetchFailed.

End SampleRun.

(* ===================================================================== *)
(** ** [index.ts]: the plugin object *)
(* ===================================================================== *)

Module Plugin.

(** The options object handed to [start]: what the server read from the
    plugin configuration, where any part may be missing. *)
Record WeatherOptions : Type := mkWeatherOptions {
  enable : option bool;
  apiKey : option string;
  pollInterval : number
}.

Record Options : Type := mkOptions {
  weather : option WeatherOptions
}.

(** One entry of the [metas] array of [emitMeteoMetas]. *)
Record Meta : Type := mkMeta {
  path : string;
  description : string;
  units : option string
}.

(** What the plugin object itself does to the server; [server.debug] and the
    stack trace passed to [server.error] are left out. *)
Inductive Event : Type :=
| SetPluginStatus (msg : string)
| PluginError (msg : string)
| ServerError (msg : string)
| MetaMessage (pluginId context : string) (meta : list Meta).

Definition pluginId : string := "openweather".

Definition noWeatherApi : string :=
  "Weather API is not available! Server upgrade required.".

(** The message of the TypeError raised by [options.weather] on an undefined
    [options]. *)
Definition noOptions : string :=
  "Cannot read properties of undefined (reading 'weather')".

Definition defaultWeather : WeatherOptions :=
  mkWeatherOptions (Some false) (Some "") (Num DEFAULT_POLL_INTERVAL).

(** [settings.weather] after the four [??] assignments of [doStartup]. *)
Definition applyDefaults (options : Options) : WEATHER_CONFIG :=
  let w := default defaultWeather (weather options) in
  mkConfig (default "" (apiKey w))
           (default false (enable w))
           (match pollInterval w with
            | Undefined => Num DEFAULT_POLL_INTERVAL
            | v => v
            end).

(** The [metas] array built by [emitMeteoMetas]. *)
Definition meteoMetas : list Meta := [
  mkMeta "environment.date"
         "Time of measurement."
         None;
  mkMeta "environment.sun.sunrise"
         "Time of sunrise at the related position."
         None;
  mkMeta "environment.sun.sunset"
         "Time of sunset at the related position."
         None;
  mkMeta "environment.outside.uvIndex"
         "Level of UV radiation. 1 UVI = 25mW/sqm"
         (Some "UVI");
  mkMeta "environment.outside.cloudCover"
         "Cloud clover."
         (Some "ratio");
  mkMeta "environment.outside.temperature"
         "Outside air temperature."
         (Some "K");
  mkMeta "environment.outside.dewPointTemperature"
         "Dew point."
         (Some "K");
  mkMeta "environment.outside.feelsLikeTemperature"
         "Feels like temperature."
         (Some "K");
  mkMeta "environment.outside.horizontalVisibility"
         "Horizontal visibility."
         (Some "m");
  mkMeta "environment.outside.horizontalVisibilityOverRange"
         "Visibilty distance is greater than the range of the measuring equipment."
         None;
  mkMeta "environment.outside.pressure"
         "Barometric pressure."
         (Some "Pa");
  mkMeta "environment.outside.pressureTendency"
         "Integer value indicating barometric pressure value tendency e.g. 0 = steady, etc."
         None;
  mkMeta "environment.outside.pressureTendencyType"
         "Description for the value of pressureTendency e.g. steady, increasing, decreasing."
         None;
  mkMeta "environment.outside.relativeHumidity"
         "Relative humidity."
         (Some "ratio");
  mkMeta "environment.outside.absoluteHumidity"
         "Absolute humidity."
         (Some "ratio");
  mkMeta "environment.wind.averageSpeed"
         "Average wind speed."
         (Some "m/s");
  mkMeta "environment.wind.speedTrue"
         "True wind speed."
         (Some "m/s");
  mkMeta "environment.wind.directionTrue"
         "The wind direction relative to true north."
         (Some "rad");
  mkMeta "environment.wind.gust"
         "Maximum wind gust."
         (Some "m/s");
  mkMeta "environment.wind.gustDirectionTrue"
         "Maximum wind gust direction."
         (Some "rad");
  mkMeta "environment.wind.gust"
         "Maximum wind gust."
         (Some "m/s");
  mkMeta "environment.water.level"
         "Water level."
         (Some "m");
  mkMeta "environment.water.levelTendency"
         "Integer value indicating water level tendency e.g. 0 = steady, etc."
         None;
  mkMeta "environment.water.levelTendencyType"
         "Description for the value of levelTendency e.g. steady, increasing, decreasing."
         None;
  mkMeta "environment.water.waves.significantHeight"
         "Significant wave height."
         (Some "m");
  mkMeta "environment.water.waves.period"
         "Wave period."
         (Some "ms");
  mkMeta "environment.water.waves.direction"
         "Wave direction."
         (Some "rad");
  mkMeta "environment.water.swell.significantHeight"
         "Significant swell height."
         (Some "m");
  mkMeta "environment.water.swell.period"
         "Swell period."
         (Some "ms");
  mkMeta "environment.water.swell.directionTrue"
         "Swell direction."
         (Some "rad")
].

(** [doStartup(options)].  [hasWeatherApi] tells whether
    [server.registerWeatherProvider] is a function; [store], [now] and [pos]
    are what [initWeather] finds.  The events of the plugin object come
    first, the state of the weather service second. *)
Definition doStartup (hasWeatherApi : bool) (options : option Options)
    (store : WCache.t) (now : Z) (pos : option Position)
    (s : WeatherService.State) : list Event * WeatherService.Poll :=
  if hasWeatherApi then
    match options with
    | Some o =>
        ([MetaMessage pluginId "meteo.openweather" meteoMetas;
          SetPluginStatus "Started"],
         WeatherService.initWeather pluginId (applyDefaults o) store now pos s)
    | None =>
        ([PluginError noOptions; ServerError "** EXCEPTION: **"],
         WeatherService.Done s)
    end
  else
    ([PluginError noWeatherApi; ServerError "** EXCEPTION: **"],
     WeatherService.Done s).

Definition doShutdown (s : WeatherService.State)
  : list Event * WeatherService.State :=
  ([SetPluginStatus "Stopped"], WeatherService.stopWeather s).

End Plugin.

(* ===================================================================== *)
(** ** Drivers and sample data for the later sections *)
(* ===================================================================== *)

(** Every path that [emitMeteoDeltas] can put into a delta, in the order of
    its [push] calls. *)
Definition deltaPaths : list string := [
  "navigation.position";
  "";
  "environment.date";
  "environment.outside.horizontalVisibility";
  "environment.sun.sunrise";
  "environment.sun.sunset";
  "environment.outside.uvIndex";
  "environment.outside.cloudCover";
  "environment.outside.temperature";
  "environment.outside.dewPointTemperature";
  "environment.outside.feelsLikeTemperature";
  "environment.outside.pressure";
  "environment.outside.relativeHumidity";
  "environment.outside.absoluteHumidity";
  "environment.outside.precipitationType";
  "environment.wind.speedTrue";
  "environment.wind.directionTrue"
].

Module RevRun.

Import WeatherServiceRev.

(** The interval held in [timer] fires [n] times in a row, [wakeInterval]
    apart, each request being answered by [net] at once. *)
Fixpoint wakeLoop `{SpatialGrid} (net : Remote) (n : nat) (now : Z)
    (pos : option Position) (s : State) : State :=
  match n with
  | O => s
  | S n' =>
      match timer s with
      | Some h =>
          wakeLoop net n' (now + wakeInterval) pos
                   (settle net (now + wakeInterval)
                           (fire h (now + wakeInterval) pos s))
      | None => s
      end
  end.

Definition stateOf (p : Poll) : State :=
  match p with
  | Done s => s
  | Await s _ => s
  end.

Definition requestCount (s : State) : nat :=
  match weatherService s with
  | Some ow => length (requests ow)
  | None => O
  end.

(** The plugin was started with a 15 minute poll interval at [t0]; three
    seconds later the start-up timeout fires with a known position. *)
Definition starting : State :=
  initWeather "openweather" (Sample.config true 15) Sample.emptyStore
              SampleRun.t0 loaded.

Definition polling : Poll :=
  fire 1 (SampleRun.t0 + 3000) (Some Sample.vessel) starting.

End RevRun.

Module Sample2.

(** The body of an error reply of the provider. *)
Definition payloadError : OWResponse.t :=
  {| OWResponse.cod := Some 401;
     OWResponse.message := Some "Invalid API key.";
     OWResponse.current := None;
     OWResponse.hourly := None;
     OWResponse.daily := None;
     OWResponse.alerts := None |}.

Definition remoteError : Remote := fun _ => Body payloadError.

(** A reply that carries forecasts but no [current] object. *)
Definition payloadNoCurrent : OWResponse.t :=
  {| OWResponse.cod := None;
     OWResponse.message := None;
     OWResponse.current := None;
     OWResponse.hourly := Some [Sample.hourlyAt 1714712400];
     OWResponse.daily := None;
     OWResponse.alerts := None |}.

Definition remoteNoCurrent : Remote := fun _ => Body payloadNoCurrent.

(** The module state when [initWeather] has registered the provider and is
    about to poll for the first time. *)
Definition registered : WeatherService.State :=
  WeatherService.mkState "openweather" None None 900000 None None 0 0
    (Some (newOpenWeather (Sample.config true 15) Sample.emptyStore))
    emptyLoop [RegisterWeatherProvider].

(** The module state after the start-up poll and eleven retries have found
    no position: the twelfth retry timeout is pending. *)
Definition noPosition : WeatherService.State :=
  WeatherService.retryLoop (H := Sample.degreeGrid) Sample.remoteA 11
    SampleRun.t0 None
    (WeatherService.stateOf
       (WeatherService.pollWeatherData SampleRun.t0 None registered)).

(** An observation that carries a pressure only. *)
Definition pressureOnly : WeatherData.t :=
  WeatherData.mk (Some "clear sky") "2024-05-03T05:00:00.000Z" observation
    (Some (Outside.mk None None None None None None None None None None
                      (Some (101300 # 1)%Q) None None None))
    None None None.

(** An object configured without an API key. *)
Definition serviceNoKey : OpenWeather :=
  newOpenWeather (mkConfig "" true (Num 30)) Sample.emptyStore.

(** An alert that has an end but no start. *)
Definition endOnly : OWWarning.t :=
  OWWarning.mk (Some "Met Office") (Some "Fog") None (Some 1714723200)
               (Some "Fog patches.") None.

(** A daily entry without [temp]. *)
Definition dailyNoTemp : OWForecast.t OWTemp.t OWFeelsLike.t :=
  OWForecast.mk (Some 1714730400) None None None None None None
    (Some (OWFeelsLike.mk (Some (284 # 1)) None None None))
    None None None None None None (Some [Sample.clearSky])
    None None None None None.

(** An hourly entry that carries a date and a weather tag only. *)
Definition hourlyBare : OWForecast.t Q Q :=
  OWForecast.mk (Some 1714712400) None None None None None None None
    None None None None None None (Some [Sample.clearSky])
    None None None None None.

(** An observation with both a rain and a snow volume. *)
Definition sleet : OWObservation.t :=
  {| OWObservation.dt := Some 1714712400;
     OWObservation.sunrise := None;
     OWObservation.sunset := None;
     OWObservation.temp := None;
     OWObservation.feels_like := None;
     OWObservation.pressure := None;
     OWObservation.humidity := Some (80 # 1);
     OWObservation.dew_point := None;
     OWObservation.uvi := None;
     OWObservation.clouds := None;
     OWObservation.visibility := None;
     OWObservation.wind_speed := None;
     OWObservation.wind_deg := None;
     OWObservation.weather := Some [Sample.clearSky];
     OWObservation.rain := Some {[ "1h" := (2 # 1)%Q ]};
     OWObservation.snow := Some {[ "1h" := (1 # 1)%Q ]} |}.

End Sample2.
(* ===================================================================== *)
(** * Properties *)
(* ===================================================================== *)

(** ** [Date.prototype.toISOString] on sample time values *)

Example iso_epoch : isoString 0 = "1970-01-01T00:00:00.000Z".
Proof. reflexivity. Qed.

Example iso_2024 : isoString 1714712400259 = "2024-05-03T05:00:00.259Z".
Proof. reflexivity. Qed.

Example iso_neg : isoString (-1) = "1969-12-31T23:59:59.999Z".
Proof. reflexivity. Qed.

Example iso_max : toISOString 8640000000000000 = Ok "+275760-09-13T00:00:00.000Z".
Proof. reflexivity. Qed.

(* ===================================================================== *)
(** ** The cache *)
(* ===================================================================== *)

Section CacheFacts.

Context `{SpatialGrid}.

Lemma getEntry_setEntry now id data c :
  WCache.getEntry id (WCache.setEntry now id data c) = Some data.
Proof.
  unfold WCache.getEntry, WCache.setEntry. simpl.
  by rewrite lookup_insert_eq.
Qed.

Lemma getEntry_setEntry_other now id id' data c :
  id <> id' ->
  WCache.getEntry id' (WCache.setEntry now id data c) = WCache.getEntry id' c.
Proof.
  intros Hne. unfold WCache.getEntry, WCache.setEntry. simpl.
  by rewrite lookup_insert_ne.
Qed.

Lemma contains_Some now position c id :
  WCache.contains now position c = Some id ->
  id = calcId position /\
  exists e, WCache.entries c !! calcId position = Some e /\
            ltNumber (now - WCache.fetchedAt e) (WCache.maxAgeMillis c) = true.
Proof.
  unfold WCache.contains.
  destruct (WCache.entries c !! calcId position) as [e|]; [|done].
  destruct (ltNumber _ _) eqn:Hlt; [|done].
  intros [= <-]. eauto.
Qed.


(** An undefined or NaN [maxAge] makes every lookup a miss. *)
Lemma contains_without_maxAge now position c :
  WCache.maxAge c = Undefined \/ WCache.maxAge c = NaN ->
  WCache.contains now position c = None.
Proof.
  intros Hm. unfold WCache.contains, WCache.maxAgeMillis.
  destruct (WCache.entries c !! calcId position); [|done].
  by destruct Hm as [-> | ->].
Qed.

End CacheFacts.

(* ===================================================================== *)
(** ** The gateway: [fetchData] and the cache-or-fetch decision *)
(* ===================================================================== *)

Section GatewayFacts.

Context `{SpatialGrid}.

Lemma fetchData_requests net now position ow :
  requests (snd (fetchData net now position ow))
  = requests ow ++ [getUrl ow position].
Proof.
  unfold fetchData.
  destruct (fetch net (getUrl ow position)) as [m|owData]; [done|].
  by destruct (OWResponse.cod owData).
Qed.

Lemma fetchData_settings net now position ow :
  settings (snd (fetchData net now position ow)) = settings ow.
Proof.
  unfold fetchData.
  destruct (fetch net (getUrl ow position)) as [m|owData]; [done|].
  by destruct (OWResponse.cod owData).
Qed.

(** A successful remote call stores what it fetched, stamped [now]. *)
Lemma fetchData_success net now position ow owData :
  fetch net (getUrl ow position) = Body owData ->
  OWResponse.cod owData = None ->
  fetchData net now position ow
  = (Ok owData, updateCache now position owData
                            (logRequest (getUrl ow position) ow)).
Proof. intros Hf Hc. unfold fetchData. by rewrite Hf, Hc. Qed.

(** [fetchData] succeeds only that way. *)
Lemma fetchData_Ok_inv net now position ow owData ow' :
  fetchData net now position ow = (Ok owData, ow') ->
  fetch net (getUrl ow position) = Body owData /\
  OWResponse.cod owData = None.
Proof.
  unfold fetchData.
  destruct (fetch net (getUrl ow position)) as [m|d]; [done|].
  destruct (OWResponse.cod d) eqn:Hc; [done|].
  by intros [= <- _].
Qed.

(** A failed remote call leaves the cache as it was. *)
Lemma fetchData_failure net now position ow m :
  fst (fetchData net now position ow) = Throw m ->
  m = fetchDataError /\
  wcache (snd (fetchData net now position ow)) = wcache ow.
Proof.
  unfold fetchData.
  destruct (fetch net (getUrl ow position)) as [r|d]; simpl.
  - by intros [= <-].
  - destruct (OWResponse.cod d); simpl; [by intros [= <-]|done].
Qed.

Lemma resolve_bypass net now position ow :
  resolve net now position (Some true) ow
  = (bind (fst (fetchData net now position ow)) (fun d => Ok (Some d)),
     snd (fetchData net now position ow)).
Proof.
  unfold resolve.
  destruct (WCache.contains now position (wcache ow));
    by destruct (fetchData net now position ow).
Qed.

Lemma resolve_miss net now position bypassCache ow :
  WCache.contains now position (wcache ow) = None ->
  resolve net now position bypassCache ow
  = (bind (fst (fetchData net now position ow)) (fun d => Ok (Some d)),
     snd (fetchData net now position ow)).
Proof.
  intros Hc. unfold resolve. rewrite Hc.
  destruct bypassCache as [[|]|]; by destruct (fetchData net now position ow).
Qed.

Lemma resolve_hit net now position bypassCache ow id :
  bypassCache = None \/ bypassCache = Some false ->
  WCache.contains now position (wcache ow) = Some id ->
  resolve net now position bypassCache ow
  = (Ok (WCache.getEntry id (wcache ow)), ow).
Proof.
  intros Hb Hc. unfold resolve. rewrite Hc. by destruct Hb as [-> | ->].
Qed.

Lemma fetchObservations_resolve net now position options bypassCache ow :
  fetchObservations net now position options bypassCache ow
  = (rethrow parseError
       (bind (fst (resolve net now position bypassCache ow)) (fun owData =>
        bind (parseOWObservations now owData) (fun obs =>
        Ok (truncate options obs)))),
     snd (resolve net now position bypassCache ow)).
Proof.
  unfold fetchObservations.
  by destruct (resolve net now position bypassCache ow).
Qed.

Lemma fetchForecasts_resolve net now position type options bypassCache ow :
  fetchForecasts net now position type options bypassCache ow
  = (rethrow forecastError
       (bind (fst (resolve net now position bypassCache ow)) (fun owData =>
        bind (parseOWForecasts now owData type) (fun f =>
        Ok (truncate options f)))),
     snd (resolve net now position bypassCache ow)).
Proof.
  unfold fetchForecasts.
  by destruct (resolve net now position bypassCache ow).
Qed.

Lemma fetchWarnings_resolve net now position bypassCache ow :
  fetchWarnings net now position bypassCache ow
  = (rethrow parseError
       (bind (fst (resolve net now position bypassCache ow)) parseOWWarnings),
     snd (resolve net now position bypassCache ow)).
Proof.
  unfold fetchWarnings.
  by destruct (resolve net now position bypassCache ow).
Qed.

Lemma after_resolve m net now position bypassCache ow :
  after m net now position bypassCache ow
  = snd (resolve net now position bypassCache ow).
Proof.
  destruct m; simpl.
  - by rewrite fetchObservations_resolve.
  - by rewrite fetchForecasts_resolve.
  - by rewrite fetchWarnings_resolve.
Qed.

(** C1. With [bypassCache] false or omitted, [fetchObservations] follows
    [wcache.contains]: on a fresh entry the object is left exactly as it was
    (no [fetch] call is logged, the cache is untouched) and the result is
    computed from the stored payload; without a fresh entry [fetch] is called
    once with the request URL and, when the reply is a body without ['cod'],
    that body is in the cache under the position's cell, stamped [now], and
    the result is computed from it. *)
Theorem fetchObservations_cache_or_fetch
    net now position options bypassCache ow :
  bypassCache = None \/ bypassCache = Some false ->
  let out := fetchObservations net now position options bypassCache ow in
  (forall id,
     WCache.contains now position (wcache ow) = Some id ->
     exists e,
       WCache.entries (wcache ow) !! calcId position = Some e /\
       snd out = ow /\
       fst out = rethrow parseError
                   (bind (parseOWObservations now (Some (WCache.payload e)))
                         (fun obs => Ok (truncate options obs)))) /\
  (WCache.contains now position (wcache ow) = None ->
     requests (snd out) = requests ow ++ [getUrl ow position] /\
     forall owData,
       fetch net (getUrl ow position) = Body owData ->
       OWResponse.cod owData = None ->
       wcache (snd out)
         = WCache.setEntry now (calcId position) owData (wcache ow) /\
       WCache.getEntry (calcId position) (wcache (snd out)) = Some owData /\
       fst out = rethrow parseError
                   (bind (parseOWObservations now (Some owData))
                         (fun obs => Ok (truncate options obs)))).
Proof.
  intros Hb out. subst out. rewrite fetchObservations_resolve. simpl.
  split.
  - intros id Hc. rewrite (resolve_hit _ _ _ _ _ id Hb Hc). simpl.
    destruct (contains_Some _ _ _ _ Hc) as (-> & e & He & _).
    exists e. repeat split; [done|].
    unfold WCache.getEntry. by rewrite He.
  - intros Hc. rewrite (resolve_miss _ _ _ _ _ Hc). simpl.
    split; [apply fetchData_requests|].
    intros owData Hf Hcod.
    rewrite (fetchData_success _ _ _ _ _ Hf Hcod). simpl.
    repeat split. apply getEntry_setEntry.
Qed.

(** C2. With [bypassCache] true each of the three methods calls [fetch]
    once, whatever the cache holds; whenever the remote call is made and
    succeeds, with or without [bypassCache], the fetched body is the cache
    entry of the position's cell afterwards; and after two bypassed calls in
    a row the cache holds the body of the second. *)
Theorem bypass_refreshes_cache net now position ow :
  (forall m,
     requests (after m net now position (Some true) ow)
     = requests ow ++ [getUrl ow position]) /\
  (forall m bypassCache owData,
     bypassCache = Some true \/
       WCache.contains now position (wcache ow) = None ->
     fetch net (getUrl ow position) = Body owData ->
     OWResponse.cod owData = None ->
     WCache.entries (wcache (after m net now position bypassCache ow))
       !! calcId position = Some (WCache.mkEntry owData now)) /\
  (forall m1 m2 net2 now2 owData2,
     fetch net2 (getUrl ow position) = Body owData2 ->
     OWResponse.cod owData2 = None ->
     let ow1 := after m1 net now position (Some true) ow in
     let ow2 := after m2 net2 now2 position (Some true) ow1 in
     WCache.getEntry (calcId position) (wcache ow2) = Some owData2 /\
     requests ow2
     = requests ow ++ [getUrl ow position; getUrl ow position]).
Proof.
  split; [|split].
  - intros m. rewrite after_resolve, resolve_bypass. simpl.
    apply fetchData_requests.
  - intros m bypassCache owData Hcall Hf Hcod. rewrite after_resolve.
    assert (snd (resolve net now position bypassCache ow)
            = snd (fetchData net now position ow)) as ->.
    { destruct Hcall as [-> | Hmiss].
      - by rewrite resolve_bypass.
      - by rewrite resolve_miss. }
    rewrite (fetchData_success _ _ _ _ _ Hf Hcod). simpl.
    by rewrite lookup_insert_eq.
  - intros m1 m2 net2 now2 owData2 Hf Hcod ow1 ow2. subst ow2 ow1.
    rewrite !after_resolve, !resolve_bypass. simpl.
    set (ow1 := snd (fetchData net now position ow)).
    assert (getUrl ow1 position = getUrl ow position) as Hurl.
    { unfold getUrl, ow1. by rewrite fetchData_settings. }
    rewrite <- Hurl in Hf.
    rewrite (fetchData_success _ _ _ _ _ Hf Hcod). simpl.
    split; [apply getEntry_setEntry|].
    rewrite Hurl. unfold ow1. rewrite fetchData_requests.
    by rewrite <- app_assoc.
Qed.

End GatewayFacts.

(** C1 on the sample service, whose entry was stored at time 0 and whose
    [maxAge] is 30 minutes: a call 10 minutes later is served from the
    cache, a call 31 minutes later fetches payload B. *)
Lemma fetchObservations_cache_or_fetch_witness :
  snd (fetchObservations (H := Sample.degreeGrid) Sample.remoteB 600000
         Sample.vessel None None Sample.serviceA) = Sample.serviceA /\
  WCache.getEntry "100,200"
    (wcache (snd (fetchObservations (H := Sample.degreeGrid) Sample.remoteB
                    1860000 Sample.vessel None (Some false)
                    Sample.serviceA)))
  = Some Sample.payloadB.
Proof.
  split.
  - destruct (fetchObservations_cache_or_fetch (H := Sample.degreeGrid)
                Sample.remoteB 600000 Sample.vessel None None
                Sample.serviceA)
      as [Hhit _]; [by left|].
    destruct (Hhit "100,200") as (e & _ & Hsame & _);
      [vm_compute; reflexivity|].
    exact Hsame.
  - destruct (fetchObservations_cache_or_fetch (H := Sample.degreeGrid)
                Sample.remoteB 1860000 Sample.vessel None (Some false)
                Sample.serviceA) as [_ Hmiss]; [by right|].
    destruct Hmiss as [_ Hbody]; [vm_compute; reflexivity|].
    destruct (Hbody Sample.payloadB) as (_ & Hget & _);
      [vm_compute; reflexivity | vm_compute; reflexivity |].
    exact Hget.
Defined.

(** C2 on the sample service: two bypassed calls in a row. *)
Lemma bypass_refreshes_cache_witness :
  WCache.getEntry "100,200"
    (wcache (after (H := Sample.degreeGrid) Warnings Sample.remoteB 20
               Sample.vessel (Some true)
               (after (H := Sample.degreeGrid) (Observations None)
                  Sample.remoteA 10 Sample.vessel (Some true)
                  Sample.serviceA)))
  = Some Sample.payloadB.
Proof.
  destruct (bypass_refreshes_cache (H := Sample.degreeGrid) Sample.remoteA 10
              Sample.vessel Sample.serviceA) as (_ & _ & Htwice).
  destruct (Htwice (Observations None) Warnings Sample.remoteB 20
              Sample.payloadB) as [Hget _];
    [vm_compute; reflexivity | vm_compute; reflexivity |].
  exact Hget.
Defined.

(** The spec's end-to-end scenario: [maxAge] 30 minutes, payload A put at
    time 0; a lookup after 10 minutes finds it, a lookup after 31 minutes
    finds nothing, and a call without bypass after 31 minutes fetches
    payload B and leaves it in the cache. *)
Example end_to_end_scenario :
  WCache.contains (H := Sample.degreeGrid) (10 * 60000) Sample.vessel
    (wcache Sample.serviceA) = Some "100,200" /\
  WCache.getEntry "100,200" (wcache Sample.serviceA) = Some Sample.payloadA /\
  WCache.contains (H := Sample.degreeGrid) (31 * 60000) Sample.vessel
    (wcache Sample.serviceA) = None /\
  WCache.getEntry "100,200"
    (wcache (after (H := Sample.degreeGrid) (Observations None) Sample.remoteB
               (31 * 60000) Sample.vessel None Sample.serviceA))
  = Some Sample.payloadB.
Proof. repeat split; vm_compute; reflexivity. Qed.

(* ===================================================================== *)
(** ** Truncation by [maxCount] *)
(* ===================================================================== *)

Lemma slice0_first {A : Type} (n : Z) (l : list A) :
  0 <= n -> slice0 n l = firstn (Z.to_nat n) l.
Proof.
  intros Hn. unfold slice0.
  destruct (Z.ltb_spec n 0) as [|_]; [lia|].
  destruct (Z.le_gt_cases n (Z.of_nat (length l))) as [Hle|Hgt].
  - by rewrite Z.min_l.
  - rewrite Z.min_r by lia. rewrite Nat2Z.id.
    rewrite firstn_all. symmetry. apply firstn_all2. lia.
Qed.

Lemma slice0_length {A : Type} (n : Z) (l : list A) :
  (length (slice0 n l) <= length l)%nat.
Proof. unfold slice0. rewrite length_firstn. lia. Qed.

Lemma truncate_length {A : Type} options (l : list A) :
  (length (truncate options l) <= length l)%nat.
Proof.
  unfold truncate. destruct (options ≫= maxCount) as [n|]; [|done].
  destruct (truthy n); [apply slice0_length|done].
Qed.

Lemma truncate_zero {A : Type} startDate (l : list A) :
  truncate (Some (mkParams (Some 0) startDate)) l = l.
Proof. reflexivity. Qed.

Lemma truncate_first {A : Type} n startDate (l : list A) :
  1 <= n ->
  truncate (Some (mkParams (Some n) startDate)) l = firstn (Z.to_nat n) l.
Proof.
  intros Hn. unfold truncate, truthy. simpl.
  destruct (Z.eqb_spec n 0) as [|_]; [lia|]. simpl.
  apply slice0_first. lia.
Qed.

Lemma truncate_singleton {A : Type} options (x : A) :
  (forall n, options ≫= maxCount = Some n -> 0 <= n) ->
  truncate options [x] = [x].
Proof.
  intros Hn. unfold truncate.
  destruct (options ≫= maxCount) as [n|]; [|done].
  specialize (Hn n eq_refl). unfold truthy.
  destruct (Z.eqb_spec n 0) as [|Hne]; [done|]. simpl.
  rewrite slice0_first by done.
  destruct (Z.to_nat n) eqn:Hk; [lia|]. simpl. by rewrite firstn_nil.
Qed.

Section SurfaceFacts.

Context `{SpatialGrid}.

Import WeatherService.

(** The options only truncate: a call with options is the call without,
    cut by [truncate]. *)
Lemma getObservationData_options net now position options s :
  getObservationData net now position options s
  = (bind (fst (getObservationData net now position None s))
          (fun l => Ok (truncate options l)),
     snd (getObservationData net now position None s)).
Proof.
  unfold getObservationData, onDemand.
  destruct (weatherService s) as [ow|]; [|done].
  rewrite !fetchObservations_resolve.
  destruct (resolve net now position None ow) as [[owData|m] ow'];
    cbn [fst snd bind rethrow]; [|done].
  by destruct (parseOWObservations now owData).
Qed.

Lemma getForecastData_options net now position type options s :
  getForecastData net now position type options s
  = (bind (fst (getForecastData net now position type None s))
          (fun l => Ok (truncate options l)),
     snd (getForecastData net now position type None s)).
Proof.
  unfold getForecastData, onDemand.
  destruct (weatherService s) as [ow|]; [|done].
  rewrite !fetchForecasts_resolve.
  destruct (resolve net now position None ow) as [[owData|m] ow'];
    cbn [fst snd bind rethrow]; [|done].
  by destruct (parseOWForecasts now owData type).
Qed.

(** What the two queries return is the list their parser makes of the
    payload that [resolve] yields, cut by [truncate]. *)
Lemma getObservationData_parsed net now position options s ow owData obs :
  weatherService s = Some ow ->
  fst (resolve net now position None ow) = Ok owData ->
  parseOWObservations now owData = Ok obs ->
  fst (getObservationData net now position options s)
  = Ok (truncate options obs).
Proof.
  intros Hws Hr Hp. unfold getObservationData, onDemand. rewrite Hws.
  rewrite fetchObservations_resolve. cbn [fst snd].
  rewrite Hr. cbn [bind]. rewrite Hp. reflexivity.
Qed.

Lemma getForecastData_parsed net now position type options s ow owData fs :
  weatherService s = Some ow ->
  fst (resolve net now position None ow) = Ok owData ->
  parseOWForecasts now owData type = Ok fs ->
  fst (getForecastData net now position type options s)
  = Ok (truncate options fs).
Proof.
  intros Hws Hr Hp. unfold getForecastData, onDemand. rewrite Hws.
  rewrite fetchForecasts_resolve. cbn [fst snd].
  rewrite Hr. cbn [bind]. rewrite Hp. reflexivity.
Qed.

Lemma truncate_negative {A : Type} n startDate (l : list A) :
  n < 0 ->
  truncate (Some (mkParams (Some n) startDate)) l
  = firstn (length l - Z.to_nat (- n)) l.
Proof.
  intros Hn. unfold truncate, truthy. simpl.
  destruct (Z.eqb_spec n 0) as [|_]; [lia|]. simpl.
  unfold slice0. destruct (Z.ltb_spec n 0) as [_|]; [|lia].
  f_equal. lia.
Qed.

(** C8 (amended).  At the on-demand query surface, when the payload is
    there and its parser returns the list [l] (of observations, or of
    forecasts of the type asked for), the query returns all of [l] without
    options, without [maxCount] and with [maxCount] 0; it returns the first
    [maxCount] entries of [l] for every [maxCount >= 1]; and for a negative
    [maxCount], which is truthy as well, it returns [l] without its last
    [-maxCount] entries. *)
Theorem maxCount_zero_is_untruncated
    net now position type startDate s ow owData :
  weatherService s = Some ow ->
  fst (resolve net now position None ow) = Ok owData ->
  (forall obs,
     parseOWObservations now owData = Ok obs ->
     let ask := fun options =>
       fst (getObservationData net now position options s) in
     ask None = Ok obs /\
     ask (Some (mkParams None startDate)) = Ok obs /\
     ask (Some (mkParams (Some 0) startDate)) = Ok obs /\
     (forall n, 1 <= n ->
        ask (Some (mkParams (Some n) startDate))
        = Ok (firstn (Z.to_nat n) obs)) /\
     (forall n, n < 0 ->
        ask (Some (mkParams (Some n) startDate))
        = Ok (firstn (length obs - Z.to_nat (- n)) obs))) /\
  (forall fs,
     parseOWForecasts now owData type = Ok fs ->
     let ask := fun options =>
       fst (getForecastData net now position type options s) in
     ask None = Ok fs /\
     ask (Some (mkParams None startDate)) = Ok fs /\
     ask (Some (mkParams (Some 0) startDate)) = Ok fs /\
     (forall n, 1 <= n ->
        ask (Some (mkParams (Some n) startDate))
        = Ok (firstn (Z.to_nat n) fs)) /\
     (forall n, n < 0 ->
        ask (Some (mkParams (Some n) startDate))
        = Ok (firstn (length fs - Z.to_nat (- n)) fs))).
Proof.
  intros Hws Hr. split.
  - intros obs Hp ask. subst ask. cbv beta.
    rewrite !(getObservationData_parsed _ _ _ _ _ _ _ _ Hws Hr Hp).
    repeat split.
    + intros n Hn.
      rewrite (getObservationData_parsed _ _ _ _ _ _ _ _ Hws Hr Hp).
      by rewrite truncate_first.
    + intros n Hn.
      rewrite (getObservationData_parsed _ _ _ _ _ _ _ _ Hws Hr Hp).
      by rewrite truncate_negative.
  - intros fs Hp ask. subst ask. cbv beta.
    rewrite !(getForecastData_parsed _ _ _ _ _ _ _ _ _ Hws Hr Hp).
    repeat split.
    + intros n Hn.
      rewrite (getForecastData_parsed _ _ _ _ _ _ _ _ _ Hws Hr Hp).
      by rewrite truncate_first.
    + intros n Hn.
      rewrite (getForecastData_parsed _ _ _ _ _ _ _ _ _ Hws Hr Hp).
      by rewrite truncate_negative.
Qed.

End SurfaceFacts.

(** C8 (amended) on the sample run, whose cache holds the sample payload:
    with [maxCount] 0 the one observation and the three hourly forecasts
    come back, with [maxCount] 2 the first two forecasts. *)
Lemma maxCount_zero_is_untruncated_witness :
  exists obs fs,
    length obs = 1%nat /\ length fs = 3%nat /\
    fst (WeatherService.getObservationData (H := Sample.degreeGrid)
           Sample.remoteA SampleRun.t0 Sample.vessel
           (Some (mkParams (Some 0) None)) SampleRun.started) = Ok obs /\
    fst (WeatherService.getObservationData (H := Sample.degreeGrid)
           Sample.remoteA SampleRun.t0 Sample.vessel
           (Some (mkParams (Some 1) None)) SampleRun.started)
    = Ok (firstn 1 obs) /\
    fst (WeatherService.getForecastData (H := Sample.degreeGrid)
           Sample.remoteA SampleRun.t0 Sample.vessel point
           (Some (mkParams (Some 0) None)) SampleRun.started) = Ok fs /\
    fst (WeatherService.getForecastData (H := Sample.degreeGrid)
           Sample.remoteA SampleRun.t0 Sample.vessel point
           (Some (mkParams (Some 2) None)) SampleRun.started)
    = Ok (firstn 2 fs).
Proof.
  destruct (parseOWObservations SampleRun.t0 (Some Sample.payloadA))
    as [obs|] eqn:Hobs; [|vm_compute in Hobs; discriminate].
  destruct (parseOWForecasts SampleRun.t0 (Some Sample.payloadA) point)
    as [fs|] eqn:Hfs; [|vm_compute in Hfs; discriminate].
  destruct (maxCount_zero_is_untruncated (H := Sample.degreeGrid)
              Sample.remoteA SampleRun.t0 Sample.vessel point None
              SampleRun.started
              (snd (fetchData (H := Sample.degreeGrid) Sample.remoteA
                      SampleRun.t0 Sample.vessel
                      (newOpenWeather (Sample.config true 15)
                                      Sample.emptyStore)))
              (Some Sample.payloadA))
    as [Hone Hthree]; [vm_compute; reflexivity | vm_compute; reflexivity |].
  destruct (Hone obs Hobs) as (_ & _ & Hobs0 & Hobs1 & _).
  destruct (Hthree fs Hfs) as (_ & _ & Hfs0 & Hfs2 & _).
  exists obs, fs.
  split; [vm_compute in Hobs; by injection Hobs as <-|].
  split; [vm_compute in Hfs; by injection Hfs as <-|].
  split; [exact Hobs0|]. split; [apply (Hobs1 1); lia|].
  split; [exact Hfs0|]. apply (Hfs2 2). lia.
Defined.

(** C8: [maxCount] -1 is not at least 1, yet the truncation branch is
    taken: of the three hourly forecasts of the sample payload the query
    returns the first two. *)
Lemma negative_maxCount_is_truncated :
  truthy (-1) = true /\
  exists fs,
    fst (WeatherService.getForecastData (H := Sample.degreeGrid)
           Sample.remoteA SampleRun.t0 Sample.vessel point None
           SampleRun.started) = Ok fs /\
    length fs = 3%nat /\
    fst (WeatherService.getForecastData (H := Sample.degreeGrid)
           Sample.remoteA SampleRun.t0 Sample.vessel point
           (Some (mkParams (Some (-1)) None)) SampleRun.started)
    = Ok (firstn 2 fs) /\
    fst (WeatherService.getForecastData (H := Sample.degreeGrid)
           Sample.remoteA SampleRun.t0 Sample.vessel point
           (Some (mkParams (Some (-1)) None)) SampleRun.started)
    <> Ok fs.
Proof.
  split; [reflexivity|].
  eexists. split; [vm_compute; reflexivity|].
  split; [reflexivity|]. split; [vm_compute; reflexivity|].
  vm_compute. intros Heq. apply (f_equal (fun r =>
    match r with Ok l => length l | Throw _ => O end)) in Heq.
  discriminate Heq.
Qed.

(* ===================================================================== *)
(** ** The parsers *)
(* ===================================================================== *)

Lemma forEach_Forall2 {A B : Type} (f : A -> Result B) l l' :
  forEach f l = Ok l' -> Forall2 (fun x y => f x = Ok y) l l'.
Proof.
  revert l'. induction l as [|x xs IH]; intros l'; simpl.
  - intros [= <-]. constructor.
  - destruct (f x) as [y|] eqn:Hx; simpl; [|done].
    destruct (forEach f xs) as [ys|]; simpl; [|done].
    intros [= <-]. constructor; auto.
Qed.

Lemma forEach_length {A B : Type} (f : A -> Result B) l l' :
  forEach f l = Ok l' -> length l' = length l.
Proof.
  intros Hf. apply forEach_Forall2 in Hf.
  symmetry. by eapply Forall2_length.
Qed.

Lemma toISOString_printable s :
  printable (Some s) = true -> toISOString (s * 1000) = Ok (isoString (s * 1000)).
Proof. unfold printable, toISOString. by intros ->. Qed.

Lemma toISOString_unprintable s :
  printable (Some s) = false -> toISOString (s * 1000) = Throw "Invalid time value".
Proof. unfold printable, toISOString. by intros ->. Qed.

Lemma dateOrNow_printable now x :
  printable x = true -> exists d, dateOrNow now x = Ok d.
Proof.
  intros Hp. unfold dateOrNow. destruct x as [s|]; [|eauto].
  destruct (truthy s); [|eauto].
  rewrite toISOString_printable by done. eauto.
Qed.

Lemma isoIfDefined_printable x :
  printable x = true -> exists d, isoIfDefined x = Ok d.
Proof.
  intros Hp. unfold isoIfDefined. destruct x as [s|]; [|eauto].
  rewrite toISOString_printable by done. simpl. eauto.
Qed.

(** When the first weather tag is there and the three time stamps are
    printable, [observationOf] builds a record. *)
Lemma observationOf_succeeds now current w0 ws :
  OWObservation.weather current = Some (w0 :: ws) ->
  printable (OWObservation.dt current) = true ->
  printable (OWObservation.sunrise current) = true ->
  printable (OWObservation.sunset current) = true ->
  exists obs, observationOf now current = Ok obs.
Proof.
  intros Hw Hdt Hrise Hset. unfold observationOf.
  destruct (dateOrNow_printable now _ Hdt) as [d ->].
  rewrite Hw. cbn [bind firstDescription].
  destruct (precipitation _ _) as [ptype pvolume].
  destruct (isoIfDefined_printable _ Hrise) as [r ->].
  destruct (isoIfDefined_printable _ Hset) as [t ->].
  cbn [bind]. eauto.
Qed.

(** Without a first weather tag it throws. *)
Lemma observationOf_without_tag now current :
  OWObservation.weather current = None \/
  OWObservation.weather current = Some [] ->
  exists m, observationOf now current = Throw m.
Proof.
  intros Hw. unfold observationOf.
  destruct (dateOrNow now (OWObservation.dt current)); cbn [bind]; [|eauto].
  destruct Hw as [-> | ->]; cbn [bind firstDescription]; eauto.
Qed.

Lemma parseOWObservations_length now owData l :
  parseOWObservations now owData = Ok l -> (length l <= 1)%nat.
Proof.
  unfold parseOWObservations.
  destruct (owData ≫= OWResponse.current) as [current|].
  - destruct (observationOf now current); simpl; [|done].
    intros [= <-]. simpl. lia.
  - intros [= <-]. simpl. lia.
Qed.

Section ParserFacts.

Context `{SpatialGrid}.

(** C9 (amended).  Whatever [fetchObservations] returns has at most one
    element, for every [maxCount].  On a response without a [current] field
    it returns the empty list.  On a response whose [current] has a first
    [weather] element and printable [dt], [sunrise] and [sunset], and with
    [maxCount] omitted or not negative, it returns exactly one record. *)
Theorem fetchObservations_at_most_one
    net now position options bypassCache ow :
  let out := fst (fetchObservations net now position options bypassCache ow) in
  (forall l, out = Ok l -> (length l <= 1)%nat) /\
  (forall owData,
     fst (resolve net now position bypassCache ow) = Ok owData ->
     (owData ≫= OWResponse.current = None -> out = Ok []) /\
     (forall current w0 ws,
        owData ≫= OWResponse.current = Some current ->
        OWObservation.weather current = Some (w0 :: ws) ->
        printable (OWObservation.dt current) = true ->
        printable (OWObservation.sunrise current) = true ->
        printable (OWObservation.sunset current) = true ->
        (forall n, options ≫= maxCount = Some n -> 0 <= n) ->
        exists obs, out = Ok [obs])).
Proof.
  intros out. subst out. rewrite fetchObservations_resolve.
  cbn [fst]. split.
  - intros l.
    destruct (fst (resolve net now position bypassCache ow)) as [owData|];
      cbn [bind rethrow]; [|done].
    destruct (parseOWObservations now owData) as [obs|] eqn:Hp;
      cbn [bind rethrow]; [|done].
    intros [= <-]. apply parseOWObservations_length in Hp.
    pose proof (truncate_length options obs). lia.
  - intros owData ->. cbn [bind]. unfold parseOWObservations. split.
    + intros ->. cbn [bind rethrow].
      unfold truncate. destruct (options ≫= maxCount) as [n|]; [|done].
      destruct (truthy n); [|done]. unfold slice0. by rewrite firstn_nil.
    + intros current w0 ws -> Hw Hdt Hrise Hset Hn.
      destruct (observationOf_succeeds now _ _ _ Hw Hdt Hrise Hset)
        as [obs ->].
      cbn [bind rethrow]. exists obs. by rewrite truncate_singleton.
Qed.

(** C10.  An alert whose [start] and [end] are both non-zero yields a
    warning whose [startTime] and [endTime] are the same string, the ISO
    text of [start]; the value of [end] plays no part.  [warningOf] does
    return that warning whenever [start] is a printable date, and so every
    warning that [fetchWarnings] returns for such an alert has this shape. *)
Theorem warning_endTime_from_start net now position bypassCache ow :
  (forall alert s e,
     OWWarning.start alert = Some s -> s <> 0 ->
     OWWarning.end_ alert = Some e -> e <> 0 ->
     printable (Some s) = true ->
     warningOf alert
     = Ok {| WeatherWarning.startTime := isoString (s * 1000);
             WeatherWarning.endTime := isoString (s * 1000);
             WeatherWarning.details := OWWarning.description alert;
             WeatherWarning.source := OWWarning.sender_name alert;
             WeatherWarning.type := OWWarning.event alert |}) /\
  (forall owData alerts warnings,
     fst (resolve net now position bypassCache ow) = Ok owData ->
     owData ≫= OWResponse.alerts = Some alerts ->
     fst (fetchWarnings net now position bypassCache ow) = Ok warnings ->
     Forall2 (fun alert w =>
                forall s e,
                  OWWarning.start alert = Some s -> s <> 0 ->
                  OWWarning.end_ alert = Some e -> e <> 0 ->
                  WeatherWarning.startTime w = isoString (s * 1000) /\
                  WeatherWarning.endTime w = isoString (s * 1000))
             alerts warnings).
Proof.
  assert (forall alert s e w,
            OWWarning.start alert = Some s -> s <> 0 ->
            OWWarning.end_ alert = Some e -> e <> 0 ->
            warningOf alert = Ok w ->
            WeatherWarning.startTime w = isoString (s * 1000) /\
            WeatherWarning.endTime w = isoString (s * 1000)) as Hshape.
  { intros alert s e w Hs Hs0 He He0. unfold warningOf.
    rewrite Hs, He. unfold truthy.
    destruct (Z.eqb_spec s 0) as [|_]; [done|].
    destruct (Z.eqb_spec e 0) as [|_]; [done|]. cbn [negb].
    unfold toISOString.
    destruct (Z.abs (s * 1000) <=? maxTimeValue); cbn [bind]; [|done].
    by intros [= <-]. }
  split.
  - intros alert s e Hs Hs0 He He0 Hp. unfold warningOf.
    rewrite Hs, He. unfold truthy.
    destruct (Z.eqb_spec s 0) as [|_]; [done|].
    destruct (Z.eqb_spec e 0) as [|_]; [done|]. cbn [negb].
    by rewrite toISOString_printable.
  - intros owData alerts warnings Hr Ha.
    rewrite fetchWarnings_resolve. cbn [fst]. rewrite Hr. cbn [bind].
    unfold parseOWWarnings. rewrite Ha.
    destruct (forEach warningOf alerts) as [ws|] eqn:Hall;
      cbn [rethrow]; [|done].
    intros [= <-]. apply forEach_Forall2 in Hall.
    eapply Forall2_impl; [exact Hall|].
    intros alert w Hw s e Hs Hs0 He He0. by eapply Hshape.
Qed.

End ParserFacts.

(** C9: the response has a [current] field, its [weather] array is empty,
    and [fetchObservations] throws instead of returning one record. *)
Lemma fetchObservations_empty_weather_throws :
  OWResponse.current Sample.payloadNoTags
  = Some (Sample.currentWith (Some []) (283 # 1)) /\
  fst (fetchObservations (H := Sample.degreeGrid) Sample.remoteNoTags 0
         Sample.vessel None None Sample.service) = Throw parseError /\
  forall obs,
    fst (fetchObservations (H := Sample.degreeGrid) Sample.remoteNoTags 0
           Sample.vessel None None Sample.service) <> Ok [obs].
Proof.
  assert (fst (fetchObservations (H := Sample.degreeGrid) Sample.remoteNoTags
                 0 Sample.vessel None None Sample.service)
          = Throw parseError) as Hthrow by (vm_compute; reflexivity).
  split; [reflexivity|]. split; [exact Hthrow|].
  intros obs. by rewrite Hthrow.
Qed.

(** C9 (amended) on the sample payload, with [maxCount] 5. *)
Lemma fetchObservations_at_most_one_witness :
  exists obs,
    fst (fetchObservations (H := Sample.degreeGrid) Sample.remoteA 0
           Sample.vessel (Some (mkParams (Some 5) None)) None Sample.service)
    = Ok [obs].
Proof.
  destruct (fetchObservations_at_most_one (H := Sample.degreeGrid)
              Sample.remoteA 0 Sample.vessel (Some (mkParams (Some 5) None))
              None Sample.service) as [_ Hone].
  destruct (Hone (Some Sample.payloadA)) as [_ Hcur];
    [vm_compute; reflexivity|].
  apply (Hcur (Sample.currentWith (Some [Sample.clearSky]) (283 # 1))
              Sample.clearSky []); try reflexivity.
  intros n [= <-]. lia.
Defined.

(** C10 on the sample alert. *)
Lemma warning_endTime_from_start_witness :
  warningOf Sample.gale
  = Ok {| WeatherWarning.startTime := "2024-05-03T05:00:00.000Z";
          WeatherWarning.endTime := "2024-05-03T05:00:00.000Z";
          WeatherWarning.details := Some "Strong wind warning.";
          WeatherWarning.source := Some "Met Office";
          WeatherWarning.type := Some "Gale warning" |}.
Proof.
  destruct (warning_endTime_from_start (H := Sample.degreeGrid)
              Sample.remoteA 0 Sample.vessel None Sample.service)
    as [Hone _].
  apply (Hone Sample.gale 1714712400 1714723200); try reflexivity; lia.
Defined.

(** The end of the sample alert, 08:00, appears nowhere in its warning. *)
Example gale_end_is_lost :
  isoString (1714723200 * 1000) = "2024-05-03T08:00:00.000Z" /\
  bind (fst (fetchWarnings (H := Sample.degreeGrid) Sample.remoteA 0
               Sample.vessel None Sample.service))
       (fun warnings => Ok (map WeatherWarning.endTime warnings))
  = Ok ["2024-05-03T05:00:00.000Z"].
Proof. split; vm_compute; reflexivity. Qed.

(* ===================================================================== *)
(** ** Initialisation: [fetchInterval] and the cache's [maxAge] *)
(* ===================================================================== *)


Section Thresholds.

Context `{SpatialGrid}.



End Thresholds.


(** Where [pollInterval] is NaN the two part ways altogether: one hour for
    the scheduler, NaN for the cache, on which every lookup misses. *)
Example nan_pollInterval :
  let s := WeatherService.stateOf
             (WeatherService.initWeather "openweather"
                (mkConfig "key" false NaN) Sample.emptyStore 0 None
                WeatherService.loaded) in
  WeatherService.fetchInterval s = 3600000 /\
  option_map (fun ow => WCache.maxAge (wcache ow))
             (WeatherService.weatherService s) = Some NaN.
Proof. by split. Qed.

(* ===================================================================== *)
(** ** The timer table *)
(* ===================================================================== *)

Section TimerFacts.

Context {C : Type}.

Implicit Types (ts : list (Timer C)) (l : Loop C).

Lemma below_weaken h h' ts : (h <= h')%nat -> below h ts -> below h' ts.
Proof.
  intros Hle Hb. unfold below in *.
  eapply Forall_impl; [exact Hb|]. intros t Ht. simpl in Ht. lia.
Qed.

(** Clearing a handle that is not in the table changes nothing. *)
Lemma filter_below h ts :
  below h ts ->
  List.filter (fun t => negb (Nat.eqb (handle t) h)) ts = ts.
Proof.
  induction 1 as [|t ts Ht _ IH]; simpl; [done|].
  destruct (Nat.eqb_spec (handle t) h) as [Heq|_]; [lia|].
  simpl. by rewrite IH.
Qed.

Lemma find_below h ts (t : Timer C) :
  below h ts -> handle t = h ->
  List.find (fun t => Nat.eqb (handle t) h) (ts ++ [t]) = Some t.
Proof.
  intros Hb Ht. induction Hb as [|t' ts Ht' _ IH]; simpl.
  - by rewrite Ht, Nat.eqb_refl.
  - destruct (Nat.eqb_spec (handle t') h) as [Heq|_]; [lia|]. exact IH.
Qed.

Lemma find_absent h ts :
  below h ts -> List.find (fun t : Timer C => Nat.eqb (handle t) h) ts = None.
Proof.
  induction 1 as [|t ts Ht _ IH]; simpl; [done|].
  destruct (Nat.eqb_spec (handle t) h) as [Heq|_]; [lia|]. exact IH.
Qed.

(** A cleared handle is gone from the table. *)
Lemma find_clear h l : JS.find h (clear h l) = None.
Proof.
  unfold JS.find, clear. simpl.
  induction (timers l) as [|t ts IH]; simpl; [done|].
  destruct (Nat.eqb_spec (handle t) h) as [Heq|Hne]; simpl; [exact IH|].
  destruct (Nat.eqb_spec (handle t) h) as [Heq|_]; [done|]. exact IH.
Qed.

(** The last timer of the table fires: a one-shot timer leaves it. *)
Lemma fired_last h n ts ms at_ (cb : C) :
  below h ts ->
  JS.find h (mkLoop n (ts ++ [mkTimer h false ms at_ cb]))
  = Some (mkTimer h false ms at_ cb) /\
  fired h (mkLoop n (ts ++ [mkTimer h false ms at_ cb])) = mkLoop n ts.
Proof.
  intros Hb.
  assert (JS.find h (mkLoop n (ts ++ [mkTimer h false ms at_ cb]))
          = Some (mkTimer h false ms at_ cb)) as Hfind.
  { unfold JS.find. simpl. by apply find_below. }
  split; [exact Hfind|].
  unfold fired. rewrite Hfind. simpl. unfold clear. simpl.
  rewrite List.filter_app, filter_below by done. simpl.
  by rewrite Nat.eqb_refl, app_nil_r.
Qed.

End TimerFacts.

(* ===================================================================== *)
(** ** The polling scheduler of [weather-service.ts] *)
(* ===================================================================== *)

Section SchedulerFacts.

Context `{SpatialGrid}.

Import WeatherService.

Lemma notDue_later now now' lastFetch fetchInterval :
  now <= now' ->
  notDue now lastFetch fetchInterval = false ->
  notDue now' lastFetch fetchInterval = false.
Proof.
  unfold notDue. destruct lastFetch as [t|]; [|done].
  destruct (truthy t); [|done]. simpl.
  intros Hle Hdue. apply Z.ltb_ge in Hdue. apply Z.ltb_ge. lia.
Qed.

(** With the remote service down, a bypassed call fails after one request
    and leaves the cache alone. *)
Lemma fetchObservations_down net now position options ow :
  (forall url, exists m, net url = Rejected m) ->
  fetchObservations net now position options (Some true) ow
  = (Throw parseError, logRequest (getUrl ow position) ow).
Proof.
  intros Hdown. rewrite fetchObservations_resolve, resolve_bypass.
  unfold fetchData.
  assert (exists m, fetch net (getUrl ow position) = Rejected m) as [m ->].
  { unfold fetch. destruct (getUrl ow position); [eauto|apply Hdown]. }
  reflexivity.
Qed.

(** *** Single steps of [pollWeatherData] *)

Lemma poll_without_position now s :
  noPosRetry_count s < noPosRetry_maxCount ->
  pollWeatherData now None s
  = Done (armRetryTimer NoPositionRetry noPosRetry_interval now
            (set_noPosRetry_count (noPosRetry_count s + 1) s)).
Proof.
  intros Hlt. unfold pollWeatherData.
  destruct (Z.leb_spec noPosRetry_maxCount (noPosRetry_count s)); [lia|done].
Qed.

Lemma poll_without_position_spent now s :
  noPosRetry_maxCount <= noPosRetry_count s ->
  pollWeatherData now None s = Done s.
Proof.
  intros Hge. unfold pollWeatherData.
  destruct (Z.leb_spec noPosRetry_maxCount (noPosRetry_count s)); [done|lia].
Qed.

(** The state in which [pollWeatherData] looks at the fetch interval once a
    position is known. *)
Lemma poll_with_position now position s :
  let s1 := set_loop (clearIfSet (retryTimer s) (loop s))
                     (set_noPosRetry_count 0 s) in
  pollWeatherData now (Some position) s
  = if notDue now (lastFetch s) (fetchInterval s) then Done s1
    else if retry_count s <? retry_maxCount
         then Await (set_retry_count (retry_count s + 1) s1) position
         else Done (emit (ConsoleLog (exhaustedMessage s1))
                         (set_retry_count 0 s1)).
Proof. reflexivity. Qed.

Lemma armRetryTimer_pending cb ms now s :
  cb <> WakeTick ->
  below (nextHandle (loop s)) (timers (loop s)) ->
  retryPending (timers (loop s)) (nextHandle (loop s))
               (armRetryTimer cb ms now s).
Proof.
  intros Hcb Hb. unfold retryPending, armRetryTimer. simpl.
  repeat split; [done|]. by exists ms, now, cb.
Qed.

(** The pending retry fires: the callback finds the table without it. *)
Lemma fire_pending base h now pos s :
  retryPending base h s ->
  fire h now pos s = pollWeatherData now pos (set_loop (mkLoop (S h) base) s).
Proof.
  intros (_ & Hn & Hb & ms & at_ & cb & Hcb & Ht).
  unfold fire.
  destruct (loop s) as [n ts] eqn:Hl. simpl in Hn, Ht. subst n ts.
  destruct (fired_last h (S h) base ms at_ cb Hb) as [-> ->].
  simpl. by destruct cb.
Qed.

(** *** The no-position retry loop *)

Lemma retryLoop_S net n now pos s :
  retryLoop net (S n) now pos s
  = match retryTimer s with
    | Some h =>
        retryLoop net n (now + retry_interval) pos
                  (fire_run net h (now + retry_interval) pos s)
    | None => s
    end.
Proof. reflexivity. Qed.

Lemma noPosition_loop net k : forall now s base h,
  retryPending base h s ->
  noPosRetry_count s = noPosRetry_maxCount - Z.of_nat k ->
  let s' := retryLoop net (S k) now None s in
  noPosRetry_count s' = noPosRetry_maxCount /\
  timers (loop s') = base /\
  nextHandle (loop s') = (S h + k)%nat /\
  retry_count s' = retry_count s /\
  host s' = host s /\
  weatherService s' = weatherService s.
Proof.
  induction k as [|k IH]; intros now s base h Hp Hc;
    pose proof Hp as (Hrt & _ & Hb & _);
    rewrite retryLoop_S, Hrt; unfold fire_run;
    rewrite (fire_pending _ _ _ _ _ Hp).
  - rewrite poll_without_position_spent by (simpl in *; lia).
    simpl. repeat split; try (done || lia).
  - rewrite poll_without_position by (simpl; lia).
    set (s2 := armRetryTimer _ _ _ _).
    assert (retryPending base (S h) s2) as Hp2.
    { apply (armRetryTimer_pending NoPositionRetry noPosRetry_interval
               (now + retry_interval)
               (set_noPosRetry_count (noPosRetry_count s + 1)
                  (set_loop (mkLoop (S h) base) s))); [done|].
      simpl. apply (below_weaken h); [lia|done]. }
    destruct (IH (now + retry_interval) s2 base (S h) Hp2)
      as (Hc' & Ht' & Hn' & Hr' & Hh' & Hw').
    { unfold s2. simpl. lia. }
    repeat split; try done. lia.
Qed.

(** *** The fetch retry loop *)

(** The retry timeout has fired, a position is known and a fetch is due. *)
Lemma poll_after_retry now position base h s :
  retryTimer s = Some h ->
  below h base ->
  notDue now (lastFetch s) (fetchInterval s) = false ->
  pollWeatherData now (Some position) (set_loop (mkLoop (S h) base) s)
  = if retry_count s <? retry_maxCount
    then Await (set_retry_count (retry_count s + 1)
                  (set_loop (mkLoop (S h) base) (set_noPosRetry_count 0 s)))
               position
    else Done (emit (ConsoleLog (exhaustedMessage s))
                 (set_retry_count 0
                    (set_loop (mkLoop (S h) base)
                       (set_noPosRetry_count 0 s)))).
Proof.
  intros Hrt Hb Hdue. unfold pollWeatherData. simpl.
  rewrite Hrt, Hdue. simpl. unfold clear. simpl.
  by rewrite filter_below.
Qed.

Lemma fetchRetry_loop net position k : forall now s base h,
  (forall url, exists m, net url = Rejected m) ->
  retryPending base h s ->
  retry_count s = retry_maxCount - Z.of_nat k ->
  notDue now (lastFetch s) (fetchInterval s) = false ->
  weatherService s <> None ->
  let s' := retryLoop net (S k) now (Some position) s in
  retry_count s' = 0 /\
  timers (loop s') = base /\
  nextHandle (loop s') = (S h + k)%nat /\
  requestCount s' = (requestCount s + k)%nat /\
  lastFetch s' = lastFetch s /\
  exists log, host s' = host s ++ log ++ [ConsoleLog (exhaustedMessage s)].
Proof.
  induction k as [|k IH]; intros now s base h Hdown Hp Hc Hdue Hws;
    pose proof Hp as (Hrt & _ & Hb & _);
    assert (notDue (now + retry_interval) (lastFetch s) (fetchInterval s)
            = false) as Hdue'
      by (apply (notDue_later now); [unfold retry_interval; lia|done]);
    rewrite retryLoop_S, Hrt; unfold fire_run;
    rewrite (fire_pending _ _ _ _ _ Hp), poll_after_retry by done.
  - destruct (Z.ltb_spec (retry_count s) retry_maxCount) as [Hlt|_];
      [simpl in *; lia|].
    simpl. repeat split; try (done || lia). by exists [].
  - destruct (Z.ltb_spec (retry_count s) retry_maxCount) as [_|Hge];
      [|simpl in *; lia].
    unfold pollWeatherData_fetch. simpl (weatherService _).
    destruct (weatherService s) as [ow|] eqn:Hows; [|done].
    rewrite (fetchObservations_down _ _ _ _ _ Hdown).
    set (s2 := pollWeatherData_resume _ _ _ _).
    assert (retryPending base (S h) s2) as Hp2.
    { unfold s2, pollWeatherData_resume, pollFailed.
      match goal with
      | |- retryPending _ _ (armRetryTimer ?cb ?ms ?t ?st) =>
          pose proof (armRetryTimer_pending cb ms t st) as Harm
      end.
      simpl in Harm.
      apply Harm; [done|]. apply (below_weaken h); [lia|done]. }
    destruct (IH (now + retry_interval) s2 base (S h) Hdown Hp2)
      as (Hc' & Ht' & Hn' & Hr' & Hl' & log & Hh').
    { unfold s2. simpl. lia. }
    { unfold s2. simpl. done. }
    { unfold s2. simpl. done. }
    repeat split; try done.
    + lia.
    + rewrite Hr'. unfold s2, requestCount. simpl. rewrite ?Hows.
      simpl. rewrite length_app. simpl. lia.
    + exists log. rewrite Hh'. unfold s2. simpl. by rewrite ?Hows.
Qed.

Lemma below_clearIfSet n v (l : Loop Callback) :
  below n (timers l) -> below n (timers (clearIfSet v l)).
Proof.
  intros Hb. destruct v as [h|]; [|done]. simpl. unfold below in *.
  apply List.Forall_forall. intros t Ht.
  apply List.filter_In in Ht as [Ht _].
  by apply (proj1 (List.Forall_forall _ _) Hb).
Qed.

Lemma poll_with_position_effect now position s :
  let s' := stateOf (pollWeatherData now (Some position) s) in
  loop s' = clearIfSet (retryTimer s) (loop s) /\
  noPosRetry_count s' = 0 /\
  lastFetch s' = lastFetch s.
Proof.
  rewrite poll_with_position. cbv zeta.
  destruct (notDue now (lastFetch s) (fetchInterval s)); [done|].
  by destruct (retry_count s <? retry_maxCount).
Qed.

(** C5.  With no position and fewer than 12 retries so far, a wake adds one
    to the counter and arms exactly one timeout, 10 s ahead, that calls
    [pollWeatherData] again; with the counter at 12 it changes nothing, so
    no retry is armed.  With a position the counter is back at zero and the
    timeout that [retryTimer] refers to is cleared (in the retry loop that
    is the only pending one).  Run from a zero counter, the loop arms twelve
    timeouts in all; once the twelfth has fired the table is as it was
    before the loop and any later wake without a position leaves the state
    untouched. *)
Theorem noPosition_retry_gives_up net now s :
  (noPosRetry_count s < noPosRetry_maxCount ->
   exists s',
     pollWeatherData now None s = Done s' /\
     noPosRetry_count s' = noPosRetry_count s + 1 /\
     retryTimer s' = Some (nextHandle (loop s)) /\
     timers (loop s')
     = timers (loop s) ++ [mkTimer (nextHandle (loop s)) false
                                   noPosRetry_interval now NoPositionRetry]) /\
  (noPosRetry_maxCount <= noPosRetry_count s ->
   pollWeatherData now None s = Done s) /\
  (forall position,
     let s' := stateOf (pollWeatherData now (Some position) s) in
     noPosRetry_count s' = 0 /\
     (forall h, retryTimer s = Some h -> JS.find h (loop s') = None) /\
     (forall base h, retryPending base h s -> timers (loop s') = base)) /\
  (noPosRetry_count s = 0 ->
   below (nextHandle (loop s)) (timers (loop s)) ->
   let s' := retryLoop net 12 now None (stateOf (pollWeatherData now None s)) in
   noPosRetry_count s' = 12 /\
   timers (loop s') = timers (loop s) /\
   nextHandle (loop s') = (nextHandle (loop s) + 12)%nat /\
   forall later, pollWeatherData later None s' = Done s').
Proof.
  split; [|split; [|split]].
  - intros Hlt. rewrite poll_without_position by done.
    eexists. split; [reflexivity|]. by simpl.
  - apply poll_without_position_spent.
  - intros position s'.
    destruct (poll_with_position_effect now position s) as (Hl & Hc & _).
    fold s' in Hl, Hc. split; [done|]. rewrite Hl. split.
    + intros h ->. apply find_clear.
    + intros base h (-> & _ & Hb & ms & at_ & cb & _ & Ht). simpl.
      rewrite Ht, List.filter_app, filter_below by done. simpl.
      by rewrite Nat.eqb_refl, app_nil_r.
  - intros Hc Hb s'. subst s'.
    rewrite poll_without_position by (rewrite Hc; done).
    cbn [stateOf].
    set (s1 := armRetryTimer _ _ _ _).
    assert (retryPending (timers (loop s)) (nextHandle (loop s)) s1) as Hp.
    { apply (armRetryTimer_pending NoPositionRetry noPosRetry_interval now
               (set_noPosRetry_count (noPosRetry_count s + 1) s));
        [done|exact Hb]. }
    destruct (noPosition_loop net 11 now s1 _ _ Hp)
      as (Hc' & Ht' & Hn' & _).
    { unfold s1. simpl. rewrite Hc. done. }
    repeat split; try done.
    + rewrite Hn'. lia.
    + intros later. apply poll_without_position_spent. rewrite Hc'. done.
Qed.

(** C6.  An attempt is made only below three and adds one to the counter;
    a failed attempt keeps the counter and arms one retry, 10 s ahead; a
    successful one sets the counter to zero; with the counter at three the
    call makes no request, arms nothing and sets the counter to zero.  So no
    call of [pollWeatherData] lowers the counter except that give-up.  Run
    from a zero counter with the remote service down, the loop makes three
    requests; the retry armed by the third failure resets the counter, and
    then the table holds no retry any more. *)
Theorem fetch_retry_exhaustion net now position s :
  (forall s' p,
     pollWeatherData now (Some position) s = Await s' p ->
     retry_count s < retry_maxCount /\
     retry_count s' = retry_count s + 1 /\ p = position) /\
  (forall m,
     let s' := pollWeatherData_resume now position (Throw m) s in
     retry_count s' = retry_count s /\
     retryTimer s' = Some (nextHandle (loop s)) /\
     timers (loop s')
     = timers (loop s) ++ [mkTimer (nextHandle (loop s)) false retry_interval
                                   now FetchRetry]) /\
  (forall obs,
     retry_count (pollWeatherData_resume now position (Ok obs) s) = 0) /\
  (notDue now (lastFetch s) (fetchInterval s) = false ->
   retry_maxCount <= retry_count s ->
   exists s',
     pollWeatherData now (Some position) s = Done s' /\
     retry_count s' = 0 /\
     loop s' = clearIfSet (retryTimer s) (loop s) /\
     requestCount s' = requestCount s) /\
  (forall pos,
     let s' := stateOf (pollWeatherData now pos s) in
     retry_count s <= retry_count s' \/
     (retry_maxCount <= retry_count s /\ retry_count s' = 0)) /\
  ((forall url, exists m, net url = Rejected m) ->
   retry_count s = 0 ->
   notDue now (lastFetch s) (fetchInterval s) = false ->
   weatherService s <> None ->
   below (nextHandle (loop s)) (timers (loop s)) ->
   let s' := retryLoop net 3 now (Some position)
               (pollWeatherData_run net now (Some position) s) in
   retry_count s' = 0 /\
   timers (loop s') = timers (clearIfSet (retryTimer s) (loop s)) /\
   nextHandle (loop s') = (nextHandle (loop s) + 3)%nat /\
   requestCount s' = (requestCount s + 3)%nat /\
   exists log,
     host s' = host s ++ log ++ [ConsoleLog (exhaustedMessage s)]).
Proof.
  split; [|split; [|split; [|split; [|split]]]].
  - intros s' p. rewrite poll_with_position. cbv zeta.
    destruct (notDue now (lastFetch s) (fetchInterval s)); [done|].
    destruct (Z.ltb_spec (retry_count s) retry_maxCount); [|done].
    by intros [= <- <-].
  - intros m s'. by subst s'.
  - intros obs. unfold pollWeatherData_resume, emitMeteoDeltas.
    by destruct (meteoDeltas position (head obs)).
  - intros Hdue Hge. rewrite poll_with_position, Hdue. cbv zeta.
    destruct (Z.ltb_spec (retry_count s) retry_maxCount); [lia|].
    eexists. split; [reflexivity|]. by simpl.
  - intros [p|] s'; subst s'.
    + rewrite poll_with_position. cbv zeta.
      destruct (notDue now (lastFetch s) (fetchInterval s));
        [left; simpl; lia|].
      destruct (Z.ltb_spec (retry_count s) retry_maxCount);
        [left; simpl; lia|right; simpl; lia].
    + left. unfold pollWeatherData.
      destruct (noPosRetry_maxCount <=? noPosRetry_count s); simpl; lia.
  - intros Hdown Hc Hdue Hws Hb s'. subst s'.
    unfold pollWeatherData_run. rewrite poll_with_position, Hdue, Hc.
    cbv zeta. cbn [Z.ltb Z.compare retry_maxCount].
    unfold pollWeatherData_fetch. simpl (weatherService _).
    destruct (weatherService s) as [ow|] eqn:Hows; [|done].
    rewrite (fetchObservations_down _ _ _ _ _ Hdown).
    set (s1 := pollWeatherData_resume _ _ _ _).
    assert (retryPending (timers (clearIfSet (retryTimer s) (loop s)))
                         (nextHandle (loop s)) s1) as Hp.
    { unfold s1, pollWeatherData_resume, pollFailed.
      match goal with
      | |- retryPending _ _ (armRetryTimer ?cb ?ms ?t ?st) =>
          pose proof (armRetryTimer_pending cb ms t st) as Harm
      end.
      simpl in Harm.
      replace (nextHandle (clearIfSet (retryTimer s) (loop s)))
        with (nextHandle (loop s)) in Harm
        by (by destruct (retryTimer s)).
      apply Harm; [done|]. by apply below_clearIfSet. }
    destruct (fetchRetry_loop net position 2 now s1 _ _ Hdown Hp)
      as (Hc' & Ht' & Hn' & Hr' & _ & log & Hh').
    { unfold s1. simpl. done. }
    { unfold s1. simpl. done. }
    { unfold s1. simpl. done. }
    repeat split; try done.
    + rewrite Hn'. lia.
    + rewrite Hr'. unfold s1, requestCount. simpl. rewrite ?Hows. simpl.
      rewrite length_app. simpl. lia.
    + exists log. rewrite Hh'. unfold s1. simpl. by rewrite ?Hows.
Qed.

End SchedulerFacts.

(** C5 from the freshly loaded module, with no position at any wake. *)
Lemma noPosition_retry_gives_up_witness :
  let s' := WeatherService.retryLoop (H := Sample.degreeGrid) Sample.remoteA
              12 SampleRun.t0 None
              (WeatherService.stateOf
                 (WeatherService.pollWeatherData SampleRun.t0 None
                    WeatherService.loaded)) in
  WeatherService.noPosRetry_count s' = 12 /\
  timers (WeatherService.loop s') = [] /\
  nextHandle (WeatherService.loop s') = 13%nat.
Proof.
  destruct (noPosition_retry_gives_up (H := Sample.degreeGrid) Sample.remoteA
              SampleRun.t0 WeatherService.loaded) as (_ & _ & _ & Hloop).
  destruct Hloop as (Hc & Ht & Hn & _); [reflexivity|constructor|].
  repeat split; assumption.
Defined.

(** C6 from a freshly initialised module, with the remote service down. *)
Lemma fetch_retry_exhaustion_witness :
  let s := WeatherService.stateOf
             (WeatherService.initWeather "openweather"
                (Sample.config false 15) Sample.emptyStore SampleRun.t0
                (Some Sample.vessel) WeatherService.loaded) in
  let s' := WeatherService.retryLoop (H := Sample.degreeGrid)
              Sample.remoteDown 3 SampleRun.t0 (Some Sample.vessel)
              (WeatherService.pollWeatherData_run (H := Sample.degreeGrid)
                 Sample.remoteDown SampleRun.t0 (Some Sample.vessel) s) in
  WeatherService.retry_count s' = 0 /\
  timers (WeatherService.loop s') = [] /\
  WeatherService.requestCount s' = 3%nat.
Proof.
  intros s s'.
  destruct (fetch_retry_exhaustion (H := Sample.degreeGrid) Sample.remoteDown
              SampleRun.t0 Sample.vessel s) as (_ & _ & _ & _ & _ & Hloop).
  destruct Hloop as (Hc & Ht & _ & Hr & _).
  - intros url. by eexists.
  - reflexivity.
  - reflexivity.
  - discriminate.
  - constructor.
  - repeat split; assumption.
Defined.

(** The counter along that run: 1, 2, 3 after the three failures, then 0. *)
Example retry_count_trace :
  let s := WeatherService.stateOf
             (WeatherService.initWeather "openweather"
                (Sample.config false 15) Sample.emptyStore SampleRun.t0
                (Some Sample.vessel) WeatherService.loaded) in
  let s1 := WeatherService.pollWeatherData_run (H := Sample.degreeGrid)
              Sample.remoteDown SampleRun.t0 (Some Sample.vessel) s in
  map (fun n => WeatherService.retry_count
                  (WeatherService.retryLoop (H := Sample.degreeGrid)
                     Sample.remoteDown n SampleRun.t0 (Some Sample.vessel) s1))
      [0; 1; 2; 3; 4]%nat
  = [1; 2; 3; 0; 0].
Proof. vm_compute. reflexivity. Qed.

(* ===================================================================== *)
(** ** The periodic wake timer and its watchdog *)
(* ===================================================================== *)

Section WakeTimerFacts.

Import WeatherService.

(** What a successful fetch with a non-empty observation list does. *)
Lemma success_effects now position obs rest s :
  let s' := pollWeatherData_resume now position (Ok (obs :: rest)) s in
  retry_count s' = 0 /\
  lastFetch s' = Some now /\
  lastWake s' = Some now /\
  (exists values,
     meteoDeltas position (Some obs) = Ok values /\
     host s' = host s ++ [HandleMessage (pluginId s) "meteo.openweather"
                                        values]) /\
  timer s' = Some (nextHandle (loop s)) /\
  timers (loop s')
  = timers (loop s) ++ [mkTimer (nextHandle (loop s)) true wakeInterval now
                                WakeTick].
Proof.
  unfold pollWeatherData_resume, emitMeteoDeltas. simpl.
  repeat split. eexists. split; reflexivity.
Qed.

(** The interval is armed whatever [timer] holds: a timer that is already
    running stays in the table and a second one joins it. *)
Lemma success_arms_unconditionally now position obs rest s t :
  In t (timers (loop s)) ->
  let s' := pollWeatherData_resume now position (Ok (obs :: rest)) s in
  In t (timers (loop s')) /\
  (length (live repeating (loop s'))
   = S (length (live repeating (loop s))))%nat.
Proof.
  intros Ht s'.
  destruct (success_effects now position obs rest s)
    as (_ & _ & _ & _ & _ & Hts).
  fold s' in Hts. unfold live. rewrite Hts. split.
  - apply in_or_app. by left.
  - rewrite List.filter_app, length_app. simpl. lia.
Qed.

(** On a watchdog trip the interval callback clears the handle in [timer],
    reports the error, and then goes on to [pollWeatherData] all the same. *)
Lemma wakeTick_on_trip now pos s w :
  lastWake s = Some w ->
  now - w < 50000 ->
  wakeTick now pos s
  = pollWeatherData now pos
      (set_lastWake (Some now)
         (emit (SetPluginError "Weather watch timer error!")
               (set_loop (clearIfSet (timer s) (loop s)) s))).
Proof.
  intros Hw Hlt. unfold wakeTick, wakeWatchdog. rewrite Hw.
  destruct (Z.leb_spec 50000 (now - w)); [lia|done].
Qed.

End WakeTimerFacts.

(** C7: after the second successful poll two wake intervals are running;
    [timer] knows the second only, so [stopWeather] leaves the first one
    armed. *)
Theorem second_fetch_arms_second_timer :
  map handle (live repeating (WeatherService.loop SampleRun.started)) = [1%nat]
  /\
  WeatherService.timer SampleRun.started = Some 1%nat /\
  WeatherService.lastFetch SampleRun.secondFetch
  = Some (SampleRun.t0 + 900000) /\
  map handle (live repeating (WeatherService.loop SampleRun.secondFetch))
  = [1%nat; 2%nat] /\
  WeatherService.timer SampleRun.secondFetch = Some 2%nat /\
  map handle
      (timers (WeatherService.loop
                 (WeatherService.stopWeather SampleRun.secondFetch)))
  = [1%nat].
Proof. repeat split; vm_compute; reflexivity. Qed.

(** C4: the interval fires one second after the previous wake.  The
    callback reports the error and clears its interval, and in the same run
    it sends a request, publishes the delta and arms a new interval. *)
Theorem watchdog_trip_keeps_polling :
  WeatherService.lastWake SampleRun.fetchFailed
  = Some (SampleRun.t0 + 900000) /\
  map handle (timers (WeatherService.loop SampleRun.fetchFailed))
  = [1%nat; 2%nat] /\
  WeatherService.requestCount SampleRun.fetchFailed = 2%nat /\
  WeatherService.requestCount SampleRun.afterTrip = 3%nat /\
  timers (WeatherService.loop SampleRun.afterTrip)
  = [mkTimer 3 true wakeInterval (SampleRun.t0 + 901000)
             WeatherService.WakeTick] /\
  WeatherService.lastFetch SampleRun.afterTrip
  = Some (SampleRun.t0 + 901000) /\
  length (WeatherService.host SampleRun.afterTrip) = 4%nat /\
  nth_error (WeatherService.host SampleRun.afterTrip) 2
  = Some (SetPluginError "Weather watch timer error!") /\
  exists values,
    nth_error (WeatherService.host SampleRun.afterTrip) 3
    = Some (HandleMessage "openweather" "meteo.openweather" values).
Proof.
  repeat split; try (vm_compute; reflexivity).
  eexists. vm_compute. reflexivity.
Qed.

(** When no position is known at the trip, the same callback arms a retry
    timeout right after it has cleared its interval. *)
Example watchdog_trip_arms_retry :
  timers (WeatherService.loop
            (WeatherService.stateOf
               (WeatherService.fire 1 (SampleRun.t0 + 1000) None
                  SampleRun.started)))
  = [mkTimer 2 false WeatherService.noPosRetry_interval (SampleRun.t0 + 1000)
             WeatherService.NoPositionRetry].
Proof. vm_compute. reflexivity. Qed.

(* ===================================================================== *)
(** ** The later revision *)
(* ===================================================================== *)

Section RevisionFacts.

Import WeatherServiceRev.

(** There the watchdog stops: the interval in [timer] is cleared, [timer]
    is reset, the error is reported, and [pollWeatherData] returns without
    looking for a position or sending a request. *)
Lemma watchdog_trip_stops now pos s :
  watchdogTrips now s = true ->
  exists s',
    pollWeatherData now pos s = Done s' /\
    timer s' = None /\
    loop s' = clearIfSet (timer s) (loop s) /\
    host s' = host s ++ [SetPluginError "Weather timer stopped by watchdog!"] /\
    weatherService s' = weatherService s /\
    (forall t, timers (loop s) = [t] -> timer s = Some (handle t) ->
               timers (loop s') = []).
Proof.
  intros Htrip. unfold pollWeatherData. rewrite Htrip.
  eexists. split; [reflexivity|]. simpl. repeat split.
  intros t Ht ->. simpl. rewrite Ht. simpl. by rewrite Nat.eqb_refl.
Qed.

(** There a successful fetch leaves the timer table and [timer] alone. *)
Lemma success_keeps_timers now position obs rest s :
  let s' := pollWeatherData_resume now position (Ok (obs :: rest)) s in
  loop s' = loop s /\ timer s' = timer s /\ errorCount s' = 0.
Proof. by cbv. Qed.

(** There [initWeather] arms its start-up timeout only when [timer] is
    unset. *)
Lemma initWeather_arms_once id config store now s h :
  timer s = Some h ->
  loop (initWeather id config store now s) = loop s.
Proof.
  intros Ht. unfold initWeather. destruct (enable config); [|done].
  simpl. by rewrite Ht.
Qed.

End RevisionFacts.

(* ===================================================================== *)
(** ** More on the gateway *)
(* ===================================================================== *)

Section GatewayEdges.

Context `{SpatialGrid}.

Lemma fetchData_without_key net now position ow :
  apiKey (settings ow) = "" ->
  fetchData net now position ow
  = (Throw fetchDataError, logRequest EmptyUrl ow).
Proof. intros Hk. unfold fetchData, getUrl. by rewrite Hk. Qed.

Lemma resolve_without_key net net' now position bypassCache ow :
  apiKey (settings ow) = "" ->
  resolve net now position bypassCache ow
  = resolve net' now position bypassCache ow.
Proof.
  intros Hk. unfold resolve.
  by rewrite !fetchData_without_key.
Qed.

(** X1.  Without an API key the request URL is empty, so nothing the remote
    service would answer reaches the three methods: their result and the
    object they leave are the same for every remote, and a bypassed call
    fails after logging the empty URL. *)
Theorem no_apiKey_never_reaches_remote
    net net' now position type options bypassCache ow :
  apiKey (settings ow) = "" ->
  fetchObservations net now position options bypassCache ow
  = fetchObservations net' now position options bypassCache ow /\
  fetchForecasts net now position type options bypassCache ow
  = fetchForecasts net' now position type options bypassCache ow /\
  fetchWarnings net now position bypassCache ow
  = fetchWarnings net' now position bypassCache ow /\
  fetchObservations net now position options (Some true) ow
  = (Throw parseError, logRequest EmptyUrl ow).
Proof.
  intros Hk.
  rewrite !fetchObservations_resolve, !fetchForecasts_resolve,
    !fetchWarnings_resolve.
  rewrite !(resolve_without_key net net') by done.
  repeat split.
  by rewrite resolve_bypass, fetchData_without_key.
Qed.

Lemma fetchData_refused net now position ow :
  (forall d, fetch net (getUrl ow position) = Body d ->
             OWResponse.cod d <> None) ->
  fetchData net now position ow
  = (Throw fetchDataError, logRequest (getUrl ow position) ow).
Proof.
  intros Hbad. unfold fetchData.
  destruct (fetch net (getUrl ow position)) as [r|d] eqn:Hf; [done|].
  destruct (OWResponse.cod d) eqn:Hc; [done|].
  by destruct (Hbad d eq_refl).
Qed.

(** X2.  When the request is rejected or the body carries a ['cod'] key, a
    call that goes to the remote service (bypassed, or on a cache miss)
    rejects with the fixed message of its method and leaves the cache
    exactly as it was: an error reply is never stored. *)
Theorem failed_fetch_leaves_cache
    net now position type options bypassCache ow :
  (forall d, fetch net (getUrl ow position) = Body d ->
             OWResponse.cod d <> None) ->
  bypassCache = Some true \/
    WCache.contains now position (wcache ow) = None ->
  let ow' := logRequest (getUrl ow position) ow in
  wcache ow' = wcache ow /\
  fetchObservations net now position options bypassCache ow
  = (Throw parseError, ow') /\
  fetchForecasts net now position type options bypassCache ow
  = (Throw forecastError, ow') /\
  fetchWarnings net now position bypassCache ow = (Throw parseError, ow').
Proof.
  intros Hbad Hcall ow'.
  assert (resolve net now position bypassCache ow
          = (Throw fetchDataError, ow')) as Hr.
  { destruct Hcall as [-> | Hmiss].
    - by rewrite resolve_bypass, fetchData_refused.
    - by rewrite resolve_miss, fetchData_refused. }
  rewrite fetchObservations_resolve, fetchForecasts_resolve,
    fetchWarnings_resolve, Hr.
  by repeat split.
Qed.

(** X3.  The body is stored before it is parsed: when the remote call
    succeeds and the parser then throws, the method rejects, yet the object
    it leaves has the body in the cache under the position's cell. *)
Theorem response_cached_before_parsing
    net now position type options bypassCache ow d :
  fetch net (getUrl ow position) = Body d ->
  OWResponse.cod d = None ->
  bypassCache = Some true \/
    WCache.contains now position (wcache ow) = None ->
  let ow' := updateCache now position d
               (logRequest (getUrl ow position) ow) in
  (forall m, parseOWObservations now (Some d) = Throw m ->
     fetchObservations net now position options bypassCache ow
     = (Throw parseError, ow')) /\
  (forall m, parseOWForecasts now (Some d) type = Throw m ->
     fetchForecasts net now position type options bypassCache ow
     = (Throw forecastError, ow')) /\
  (forall m, parseOWWarnings (Some d) = Throw m ->
     fetchWarnings net now position bypassCache ow
     = (Throw parseError, ow')).
Proof.
  intros Hf Hc Hcall ow'.
  assert (resolve net now position bypassCache ow = (Ok (Some d), ow'))
    as Hr.
  { destruct Hcall as [-> | Hmiss].
    - by rewrite resolve_bypass, (fetchData_success _ _ _ _ _ Hf Hc).
    - by rewrite resolve_miss, (fetchData_success _ _ _ _ _ Hf Hc). }
  rewrite fetchObservations_resolve, fetchForecasts_resolve,
    fetchWarnings_resolve, Hr.
  cbn [fst snd bind].
  repeat split; intros m ->; reflexivity.
Qed.

(** X4.  With [bypassCache] false or omitted and a fresh entry, forecasts
    and warnings are served like observations: the object is left as it
    was, with no request logged, and the result is parsed from the stored
    payload. *)
Theorem cache_hit_serves_every_method
    net now position type options bypassCache ow id :
  bypassCache = None \/ bypassCache = Some false ->
  WCache.contains now position (wcache ow) = Some id ->
  (forall m, after m net now position bypassCache ow = ow) /\
  fetchForecasts net now position type options bypassCache ow
  = (rethrow forecastError
       (bind (parseOWForecasts now (WCache.getEntry id (wcache ow)) type)
             (fun f => Ok (truncate options f))), ow) /\
  fetchWarnings net now position bypassCache ow
  = (rethrow parseError (parseOWWarnings (WCache.getEntry id (wcache ow))),
     ow).
Proof.
  intros Hb Hc. split; [|split].
  - intros m. by rewrite after_resolve, (resolve_hit _ _ _ _ _ id).
  - by rewrite fetchForecasts_resolve, (resolve_hit _ _ _ _ _ id).
  - by rewrite fetchWarnings_resolve, (resolve_hit _ _ _ _ _ id).
Qed.

End GatewayEdges.

(** X1 on an object without a key: a bypassed call never reaches the
    sample remote. *)
Lemma no_apiKey_never_reaches_remote_witness :
  fetchObservations (H := Sample.degreeGrid) Sample.remoteA 0 Sample.vessel
    None (Some true) Sample2.serviceNoKey
  = (Throw parseError, logRequest EmptyUrl Sample2.serviceNoKey).
Proof.
  apply (no_apiKey_never_reaches_remote (H := Sample.degreeGrid)
           Sample.remoteA Sample.remoteB 0 Sample.vessel point None None
           Sample2.serviceNoKey).
  reflexivity.
Defined.

(** X2 on the 401 reply, 40 minutes after the entry was stored. *)
Lemma failed_fetch_leaves_cache_witness :
  fetchWarnings (H := Sample.degreeGrid) Sample2.remoteError 2400000
    Sample.vessel None Sample.serviceA
  = (Throw parseError,
     logRequest (getUrl Sample.serviceA Sample.vessel) Sample.serviceA).
Proof.
  apply (failed_fetch_leaves_cache (H := Sample.degreeGrid)
           Sample2.remoteError 2400000 Sample.vessel point None None
           Sample.serviceA).
  - intros d [= <-]. discriminate.
  - right. vm_compute. reflexivity.
Defined.

(** X3 on the reply whose [current.weather] is empty. *)
Lemma response_cached_before_parsing_witness :
  let out := fetchObservations (H := Sample.degreeGrid) Sample.remoteNoTags 0
               Sample.vessel None None Sample.service in
  fst out = Throw parseError /\
  WCache.getEntry "100,200" (wcache (snd out)) = Some Sample.payloadNoTags.
Proof.
  destruct (response_cached_before_parsing (H := Sample.degreeGrid)
              Sample.remoteNoTags 0 Sample.vessel point None None
              Sample.service Sample.payloadNoTags) as (Hobs & _).
  - reflexivity.
  - reflexivity.
  - right. vm_compute. reflexivity.
  - simpl. rewrite (Hobs "Cannot read properties of undefined").
    + split; [reflexivity|]. vm_compute. reflexivity.
    + vm_compute. reflexivity.
Defined.

(** X4 on the sample service, ten time units after the fetch. *)
Lemma cache_hit_serves_every_method_witness :
  after (H := Sample.degreeGrid) Warnings Sample.remoteB 10 Sample.vessel
        None Sample.serviceA = Sample.serviceA.
Proof.
  destruct (cache_hit_serves_every_method (H := Sample.degreeGrid)
              Sample.remoteB 10 Sample.vessel point None None
              Sample.serviceA "100,200") as (Hsame & _).
  - by left.
  - vm_compute. reflexivity.
  - apply Hsame.
Defined.

(* ===================================================================== *)
(** ** More on the parsers *)
(* ===================================================================== *)

Lemma forEach_throws {A B : Type} (f : A -> Result B) l x m :
  In x l -> f x = Throw m -> exists m', forEach f l = Throw m'.
Proof.
  induction l as [|y ys IH]; simpl; [done|].
  intros [-> | Hin] Hx.
  - rewrite Hx. simpl. eauto.
  - destruct (f y); simpl; [|eauto].
    destruct (IH Hin Hx) as [m' ->]. simpl. eauto.
Qed.

Lemma forEach_succeeds {A B : Type} (f : A -> Result B) l :
  Forall (fun x => exists y, f x = Ok y) l -> exists l', forEach f l = Ok l'.
Proof.
  induction 1 as [|x xs [y Hy] _ [ys IH]]; simpl; [eauto|].
  rewrite Hy, IH. simpl. eauto.
Qed.

Lemma forEach_Forall {A B : Type} (f : A -> Result B) (P : B -> Prop) l l' :
  (forall x y, f x = Ok y -> P y) -> forEach f l = Ok l' -> Forall P l'.
Proof.
  intros HP Hf. apply forEach_Forall2 in Hf.
  induction Hf as [|x y xs ys Hxy _ IH]; constructor; eauto.
Qed.

Lemma clean_Some {A : Type} (isEmpty : A -> bool) o a :
  clean isEmpty o = Some a -> o = Some a /\ isEmpty a = false.
Proof.
  unfold clean. destruct o as [b|]; [|done].
  destruct (isEmpty b) eqn:He; [done|]. by intros [= <-].
Qed.

Lemma clean_None {A : Type} (isEmpty : A -> bool) a :
  clean isEmpty (Some a) = None -> isEmpty a = true.
Proof. unfold clean. by destruct (isEmpty a). Qed.

(** An [outside] object without keys has no field at all. *)
Lemma Outside_isEmpty_true o :
  Outside.isEmpty o = true ->
  o = Outside.mk None None None None None None None None None None None None
                 None None.
Proof.
  destruct o as [f1 f2 f3 f4 f5 f6 f7 f8 f9 f10 f11 f12 f13 f14].
  unfold Outside.isEmpty.
  destruct f1; [done|]. destruct f2; [done|]. destruct f3; [done|].
  destruct f4; [done|]. destruct f5; [done|]. destruct f6; [done|].
  destruct f7; [done|]. destruct f8; [done|]. destruct f9; [done|].
  destruct f10; [done|]. destruct f11; [done|]. destruct f12; [done|].
  destruct f13; [done|]. destruct f14; [done|]. done.
Qed.

(** What [clean] leaves of an [outside] object keeps every field of it. *)
Lemma clean_outside_field {A : Type} (field : Outside.t -> option A) o v :
  field (Outside.mk None None None None None None None None None None None
                    None None None) = None ->
  field o = Some v ->
  clean Outside.isEmpty (Some o) = Some o.
Proof.
  intros Hnone Hv. unfold clean.
  destruct (Outside.isEmpty o) eqn:He; [|done].
  apply Outside_isEmpty_true in He. subst o. congruence.
Qed.

Section ObservationFacts.

Implicit Types (current : OWObservation.t) (obs : WeatherData.t).

(** The record that [observationOf] builds, with its dates abstracted. *)
Lemma observationOf_Ok now current obs :
  observationOf now current = Ok obs ->
  exists date descr sunrise sunset,
    isoIfDefined (OWObservation.sunrise current) = Ok sunrise /\
    isoIfDefined (OWObservation.sunset current) = Ok sunset /\
    obs =
    {| WeatherData.description := Some descr;
       WeatherData.date := date;
       WeatherData.type := observation;
       WeatherData.outside :=
         clean Outside.isEmpty (Some {|
           Outside.minTemperature := None;
           Outside.maxTemperature := None;
           Outside.feelsLikeTemperature := OWObservation.feels_like current;
           Outside.precipitationVolume :=
             snd (precipitation (OWObservation.rain current)
                                (OWObservation.snow current));
           Outside.absoluteHumidity :=
             div100 <$> OWObservation.humidity current;
           Outside.horizontalVisibility := OWObservation.visibility current;
           Outside.uvIndex := OWObservation.uvi current;
           Outside.cloudCover := div100 <$> OWObservation.clouds current;
           Outside.temperature := OWObservation.temp current;
           Outside.dewPointTemperature := OWObservation.dew_point current;
           Outside.pressure := mul100 <$> OWObservation.pressure current;
           Outside.pressureTendency := None;
           Outside.relativeHumidity := None;
           Outside.precipitationType :=
             fst (precipitation (OWObservation.rain current)
                                (OWObservation.snow current)) |});
       WeatherData.water := None;
       WeatherData.wind :=
         clean Wind.isEmpty (Some {|
           Wind.speedTrue := OWObservation.wind_speed current;
           Wind.directionTrue := degToRad <$> OWObservation.wind_deg current;
           Wind.gust := None;
           Wind.gustDirection := None |});
       WeatherData.sun := clean Sun.isEmpty (Some (Sun.mk sunrise sunset)) |}.
Proof.
  unfold observationOf.
  destruct (dateOrNow now (OWObservation.dt current)) as [date|];
    cbn [bind]; [|done].
  destruct (firstDescription (OWObservation.weather current)) as [descr|];
    cbn [bind]; [|done].
  destruct (precipitation _ _) as [ptype pvolume].
  destruct (isoIfDefined (OWObservation.sunrise current)) as [sunrise|];
    cbn [bind]; [|done].
  destruct (isoIfDefined (OWObservation.sunset current)) as [sunset|];
    cbn [bind]; [|done].
  intros [= <-]. by exists date, descr, sunrise, sunset.
Qed.

Lemma isoIfDefined_None x d :
  isoIfDefined x = Ok d -> (d = None <-> x = None).
Proof.
  unfold isoIfDefined. destruct x as [s|].
  - destruct (toISOString (s * 1000)); simpl; [|done].
    intros [= <-]. split; done.
  - intros [= <-]. split; done.
Qed.

(** X7.  Rain wins over snow: when [rain['1h']] is there the observation
    reports rain with that volume whatever [snow] holds; snow is reported
    only when [rain] has no ['1h'] entry; with neither, no precipitation
    type or volume is reported. *)
Theorem precipitation_rain_before_snow now current obs :
  observationOf now current = Ok obs ->
  let rain1h := OWObservation.rain current ≫= (.!! "1h") in
  let snow1h := OWObservation.snow current ≫= (.!! "1h") in
  let reported :=
    (WeatherData.outside obs ≫= Outside.precipitationType,
     WeatherData.outside obs ≫= Outside.precipitationVolume) in
  (forall v, rain1h = Some v -> reported = (Some rainKind, Some v)) /\
  (forall v, rain1h = None -> snow1h = Some v ->
             reported = (Some snowKind, Some v)) /\
  (rain1h = None -> snow1h = None -> reported = (None, None)).
Proof.
  intros Hobs rain1h snow1h reported. subst rain1h snow1h reported.
  destruct (observationOf_Ok _ _ _ Hobs)
    as (date & descr & sr & ss & _ & _ & ->).
  clear Hobs. cbn [WeatherData.outside]. unfold precipitation.
  split; [|split].
  - intros v ->. cbn [fst snd].
    erewrite (clean_outside_field Outside.precipitationVolume); done.
  - intros v -> ->. cbn [fst snd].
    erewrite (clean_outside_field Outside.precipitationVolume); done.
  - intros -> ->. cbn [fst snd].
    destruct (clean Outside.isEmpty _) as [o|] eqn:Hc; [|done].
    apply clean_Some in Hc as [[= <-] _]. done.
Qed.

(** X8.  An observation never carries an empty group and never a [water]
    group: [outside], [wind] and [sun] are present exactly when the response
    has at least one of the fields that feed them. *)
Theorem observation_groups_never_empty now current obs :
  observationOf now current = Ok obs ->
  WeatherData.water obs = None /\
  (forall o, WeatherData.outside obs = Some o -> Outside.isEmpty o = false) /\
  (forall w, WeatherData.wind obs = Some w -> Wind.isEmpty w = false) /\
  (forall u, WeatherData.sun obs = Some u -> Sun.isEmpty u = false) /\
  (WeatherData.wind obs = None <->
     OWObservation.wind_speed current = None /\
     OWObservation.wind_deg current = None) /\
  (WeatherData.sun obs = None <->
     OWObservation.sunrise current = None /\
     OWObservation.sunset current = None) /\
  (WeatherData.outside obs = None <->
     OWObservation.uvi current = None /\
     OWObservation.clouds current = None /\
     OWObservation.visibility current = None /\
     OWObservation.temp current = None /\
     OWObservation.feels_like current = None /\
     OWObservation.dew_point current = None /\
     OWObservation.pressure current = None /\
     OWObservation.humidity current = None /\
     OWObservation.rain current ≫= (.!! "1h") = None /\
     OWObservation.snow current ≫= (.!! "1h") = None).
Proof.
  intros Hobs.
  destruct (observationOf_Ok _ _ _ Hobs)
    as (date & descr & sr & ss & Hsr & Hss & ->).
  cbn [WeatherData.water WeatherData.outside WeatherData.wind WeatherData.sun].
  split; [done|].
  split; [intros o Ho; by apply clean_Some in Ho as [_ ?]|].
  split; [intros w Hw; by apply clean_Some in Hw as [_ ?]|].
  split; [intros u Hu; by apply clean_Some in Hu as [_ ?]|].
  split; [|split].
  - destruct (OWObservation.wind_speed current),
      (OWObservation.wind_deg current); simpl; split; (done || by intros []).
  - rewrite <- (isoIfDefined_None _ _ Hsr), <- (isoIfDefined_None _ _ Hss).
    destruct sr, ss; simpl; split; (done || by intros []).
  - split.
    + intros Hnone. apply clean_None, Outside_isEmpty_true in Hnone.
      injection Hnone as Hfeels Hvol Hhum Hvis Huvi Hcl Htemp Hdew Hpr Hty.
      unfold precipitation in Hvol, Hty.
      destruct (OWObservation.rain current ≫= (.!! "1h")); [done|].
      destruct (OWObservation.snow current ≫= (.!! "1h")); [done|].
      destruct (OWObservation.humidity current); [done|].
      destruct (OWObservation.clouds current); [done|].
      destruct (OWObservation.pressure current); [done|].
      done.
    + intros (-> & -> & -> & -> & -> & -> & -> & -> & Hr & Hs).
      unfold precipitation. by rewrite Hr, Hs.
Qed.

End ObservationFacts.

Section WarningFacts.

Context `{SpatialGrid}.

(** X5.  [parseOWWarnings] turns the alerts into warnings one for one and in
    order: [details], [source] and [type] are the alert's [description],
    [sender_name] and [event]; a missing or zero [start] gives an empty
    [startTime], a missing or zero [end] an empty [endTime]; a response
    without [alerts] gives the empty list. *)
Theorem warnings_follow_alerts owData :
  (owData ≫= OWResponse.alerts = None -> parseOWWarnings owData = Ok []) /\
  (forall alerts warnings,
     owData ≫= OWResponse.alerts = Some alerts ->
     parseOWWarnings owData = Ok warnings ->
     length warnings = length alerts /\
     Forall2 (fun alert w =>
                WeatherWarning.details w = OWWarning.description alert /\
                WeatherWarning.source w = OWWarning.sender_name alert /\
                WeatherWarning.type w = OWWarning.event alert /\
                (OWWarning.start alert = None \/
                 OWWarning.start alert = Some 0 ->
                 WeatherWarning.startTime w = "") /\
                (OWWarning.end_ alert = None \/
                 OWWarning.end_ alert = Some 0 ->
                 WeatherWarning.endTime w = ""))
             alerts warnings).
Proof.
  unfold parseOWWarnings. split; [by intros ->|].
  intros alerts warnings -> Hall.
  split; [by eapply forEach_length|].
  apply forEach_Forall2 in Hall.
  eapply Forall2_impl; [exact Hall|].
  intros alert w. unfold warningOf.
  destruct (match OWWarning.start alert with
            | Some s => if truthy s then toISOString (s * 1000) else Ok ""
            | None => Ok ""
            end) as [st|] eqn:Hst; cbn [bind]; [|done].
  destruct (match OWWarning.end_ alert with
            | Some e => _
            | None => Ok ""
            end) as [en|] eqn:Hen; cbn [bind]; [|done].
  intros [= <-]. cbn.
  repeat split.
  - intros [Hs | Hs]; rewrite Hs in Hst; by injection Hst.
  - intros [He | He]; rewrite He in Hen; by injection Hen.
Qed.

(** X6.  An alert with a non-zero [end] and no [start] makes
    [parseOWWarnings] throw, and then [fetchWarnings] rejects for the whole
    response; with [start] zero the same alert is reported with an empty
    [startTime] and the epoch as [endTime]. *)
Theorem warning_end_without_start
    net now position bypassCache ow d alerts alert e :
  OWResponse.alerts d = Some alerts ->
  In alert alerts ->
  OWWarning.end_ alert = Some e -> e <> 0 ->
  (OWWarning.start alert = None ->
     fst (resolve net now position bypassCache ow) = Ok (Some d) ->
     fst (fetchWarnings net now position bypassCache ow) = Throw parseError)
  /\
  (OWWarning.start alert = Some 0 ->
     exists w,
       warningOf alert = Ok w /\
       WeatherWarning.startTime w = "" /\
       WeatherWarning.endTime w = "1970-01-01T00:00:00.000Z").
Proof.
  intros Ha Hin He He0. split.
  - intros Hs Hr. rewrite fetchWarnings_resolve. cbn [fst]. rewrite Hr.
    cbn [bind]. unfold parseOWWarnings. simpl. rewrite Ha.
    destruct (forEach_throws warningOf alerts alert "Invalid time value" Hin)
      as [m' ->]; [|done].
    unfold warningOf. rewrite Hs, He. unfold truthy.
    by destruct (Z.eqb_spec e 0).
  - intros Hs. unfold warningOf. rewrite Hs, He. unfold truthy.
    destruct (Z.eqb_spec e 0); [done|]. simpl. eauto.
Qed.

End WarningFacts.

Section ForecastFacts.

(** The record that [forecastOf] builds. *)
Lemma forecastOf_Ok {T F : Type} now period
    (part : OWForecast.t T F -> Result PeriodPart) f fc :
  forecastOf now period part f = Ok fc ->
  exists date descr sun minT maxT feels temperature outside,
    part f = Ok (sun, minT, maxT, feels, temperature) /\
    Outside.minTemperature outside = minT /\
    Outside.maxTemperature outside = maxT /\
    Outside.temperature outside = temperature /\
    fc =
    {| WeatherData.description := Some descr;
       WeatherData.date := date;
       WeatherData.type := forecast period;
       WeatherData.outside :=
         match clean Wind.isEmpty (Some {|
                 Wind.speedTrue := OWForecast.wind_speed f;
                 Wind.directionTrue := degToRad <$> OWForecast.wind_deg f;
                 Wind.gust := OWForecast.wind_gust f;
                 Wind.gustDirection := None |}) with
         | Some _ => clean Outside.isEmpty (Some outside)
         | None => Some outside
         end;
       WeatherData.water := None;
       WeatherData.wind :=
         clean Wind.isEmpty (Some {|
           Wind.speedTrue := OWForecast.wind_speed f;
           Wind.directionTrue := degToRad <$> OWForecast.wind_deg f;
           Wind.gust := OWForecast.wind_gust f;
           Wind.gustDirection := None |});
       WeatherData.sun := clean Sun.isEmpty sun |}.
Proof.
  unfold forecastOf.
  destruct (dateOrNow now (OWForecast.dt f)) as [date|]; cbn [bind]; [|done].
  destruct (firstDescription (OWForecast.weather f)) as [descr|];
    cbn [bind]; [|done].
  destruct (part f) as [[[[[sun minT] maxT] feels] temperature]|];
    cbn [bind]; [|done].
  destruct (precipitation _ _) as [ptype pvolume].
  intros [= <-].
  exists date, descr, sun, minT, maxT, feels, temperature,
    {| Outside.minTemperature := minT;
       Outside.maxTemperature := maxT;
       Outside.feelsLikeTemperature := feels;
       Outside.precipitationVolume := pvolume;
       Outside.absoluteHumidity := div100 <$> OWForecast.humidity f;
       Outside.horizontalVisibility := None;
       Outside.uvIndex := OWForecast.uvi f;
       Outside.cloudCover := div100 <$> OWForecast.clouds f;
       Outside.temperature := temperature;
       Outside.dewPointTemperature := OWForecast.dew_point f;
       Outside.pressure := mul100 <$> OWForecast.pressure f;
       Outside.pressureTendency := None;
       Outside.relativeHumidity := None;
       Outside.precipitationType := ptype |}.
  repeat split; reflexivity.
Qed.

(** X9.  A forecast entry never has a [water] group and never an empty
    [wind] or [sun] group; its [outside] group is dropped when empty only
    if the entry has wind data: without wind data an entry always has an
    [outside] group, empty or not. *)
Theorem forecast_outside_survives_without_wind {T F : Type} now period
    (part : OWForecast.t T F -> Result PeriodPart) f fc :
  forecastOf now period part f = Ok fc ->
  WeatherData.water fc = None /\
  (forall w, WeatherData.wind fc = Some w -> Wind.isEmpty w = false) /\
  (forall u, WeatherData.sun fc = Some u -> Sun.isEmpty u = false) /\
  (WeatherData.wind fc = None <->
     OWForecast.wind_speed f = None /\ OWForecast.wind_deg f = None /\
     OWForecast.wind_gust f = None) /\
  (WeatherData.wind fc = None -> WeatherData.outside fc <> None) /\
  (forall o, WeatherData.wind fc <> None ->
             WeatherData.outside fc = Some o -> Outside.isEmpty o = false).
Proof.
  intros Hfc.
  destruct (forecastOf_Ok _ _ _ _ _ Hfc)
    as (date & descr & sun & minT & maxT & feels & temperature & outside
        & _ & _ & _ & _ & ->).
  clear Hfc.
  cbn [WeatherData.water WeatherData.outside WeatherData.wind WeatherData.sun].
  split; [done|].
  split; [intros w Hw; by apply clean_Some in Hw as [_ ?]|].
  split; [intros u Hu; by apply clean_Some in Hu as [_ ?]|].
  split; [|split].
  - destruct (OWForecast.wind_speed f), (OWForecast.wind_deg f),
      (OWForecast.wind_gust f); simpl; split;
      (done || by intros (? & ? & ?)).
  - by intros ->.
  - intros o Hw.
    destruct (clean Wind.isEmpty _) as [w|]; [|done].
    intros Ho. by apply clean_Some in Ho as [_ ?].
Qed.

(** X10.  [parseOWForecasts] reads the [hourly] array for 'point' and the
    [daily] array for 'daily', entry for entry: the result has the length
    of that array (none when the array is missing) and every entry is
    tagged with the period asked for; a point forecast has no [sun] group
    and no minimum or maximum temperature, a daily forecast has no plain
    temperature. *)
Theorem forecasts_follow_period now owData period l :
  parseOWForecasts now owData period = Ok l ->
  Forall (fun fc => WeatherData.type fc = forecast period) l /\
  (period = point ->
     length l = length (default [] (owData ≫= OWResponse.hourly)) /\
     Forall (fun fc =>
               WeatherData.sun fc = None /\
               forall o, WeatherData.outside fc = Some o ->
                         Outside.minTemperature o = None /\
                         Outside.maxTemperature o = None) l) /\
  (period = daily ->
     length l = length (default [] (owData ≫= OWResponse.daily)) /\
     Forall (fun fc =>
               forall o, WeatherData.outside fc = Some o ->
                         Outside.temperature o = None) l).
Proof.
  unfold parseOWForecasts.
  assert (forall {T F : Type} p
            (part : OWForecast.t T F -> Result PeriodPart) f fc o,
            forecastOf now p part f = Ok fc ->
            WeatherData.outside fc = Some o ->
            exists sun minT maxT feels temperature,
              part f = Ok (sun, minT, maxT, feels, temperature) /\
              Outside.minTemperature o = minT /\
              Outside.maxTemperature o = maxT /\
              Outside.temperature o = temperature) as Hout.
  { intros T F p part f fc o Hfc.
    destruct (forecastOf_Ok _ _ _ _ _ Hfc)
      as (date & descr & sun & minT & maxT & feels & temperature & outside
          & Hpart & Hmin & Hmax & Htemp & ->).
    cbn [WeatherData.outside]. intros Ho.
    assert (o = outside) as ->.
    { destruct (clean Wind.isEmpty _); [|by injection Ho].
      by apply clean_Some in Ho as [[= ->] _]. }
    by exists sun, minT, maxT, feels, temperature. }
  destruct period.
  - destruct (owData ≫= OWResponse.daily) as [fs|]; simpl.
    + intros Hall. split; [|split; [done|]].
      * eapply forEach_Forall; [|exact Hall].
        intros f fc Hfc.
        destruct (forecastOf_Ok _ _ _ _ _ Hfc)
          as (? & ? & ? & ? & ? & ? & ? & ? & _ & _ & _ & _ & ->).
        done.
      * intros _. split; [by eapply forEach_length|].
        eapply forEach_Forall; [|exact Hall].
        intros f fc Hfc o Ho.
        destruct (Hout _ _ _ _ _ _ _ Hfc Ho)
          as (sun & minT & maxT & feels & temperature & Hpart & _ & _ & ->).
        unfold dailyPart in Hpart.
        destruct (isoIfDefined (OWForecast.sunrise f)); cbn [bind] in Hpart;
          [|done].
        destruct (isoIfDefined (OWForecast.sunset f)); cbn [bind] in Hpart;
          [|done].
        destruct (OWForecast.temp f); [|done].
        destruct (OWForecast.feels_like f); [|done].
        by injection Hpart.
    + intros [= <-]. by repeat split.
  - destruct (owData ≫= OWResponse.hourly) as [fs|]; simpl.
    + intros Hall. split; [|split; [|done]].
      * eapply forEach_Forall; [|exact Hall].
        intros f fc Hfc.
        destruct (forecastOf_Ok _ _ _ _ _ Hfc)
          as (? & ? & ? & ? & ? & ? & ? & ? & _ & _ & _ & _ & ->).
        done.
      * intros _. split; [by eapply forEach_length|].
        eapply forEach_Forall; [|exact Hall].
        intros f fc Hfc. split.
        -- destruct (forecastOf_Ok _ _ _ _ _ Hfc)
             as (? & ? & sun & ? & ? & ? & ? & ? & Hpart & _ & _ & _ & ->).
           unfold pointPart in Hpart. injection Hpart as <- _ _ _ _. done.
        -- intros o Ho.
           destruct (Hout _ _ _ _ _ _ _ Hfc Ho)
             as (sun & minT & maxT & feels & temperature & Hpart & -> & ->
                 & _).
           unfold pointPart in Hpart. by injection Hpart as _ <- <- _ _.
    + intros [= <-]. by repeat split.
Qed.

(** X11.  One daily entry without [temp] or without [feels_like] makes
    [parseOWForecasts] throw for the whole 'daily' array.  For 'point'
    neither is needed: the hourly array parses whenever each entry has a
    first weather tag and a printable [dt]. *)
Theorem daily_forecast_needs_temp now owData :
  (forall fs f,
     owData ≫= OWResponse.daily = Some fs -> In f fs ->
     OWForecast.temp f = None \/ OWForecast.feels_like f = None ->
     exists m, parseOWForecasts now owData daily = Throw m) /\
  (forall fs,
     owData ≫= OWResponse.hourly = Some fs ->
     Forall (fun f => printable (OWForecast.dt f) = true /\
                      exists w ws, OWForecast.weather f = Some (w :: ws)) fs ->
     exists l, parseOWForecasts now owData point = Ok l).
Proof.
  unfold parseOWForecasts. split.
  - intros fs f -> Hin Hmissing.
    assert (exists m, forecastOf now daily dailyPart f = Throw m) as [m Hm].
    { unfold forecastOf.
      destruct (dateOrNow now (OWForecast.dt f)); cbn [bind]; [|eauto].
      destruct (firstDescription (OWForecast.weather f)); cbn [bind];
        [|eauto].
      unfold dailyPart.
      destruct (isoIfDefined (OWForecast.sunrise f)); cbn [bind]; [|eauto].
      destruct (isoIfDefined (OWForecast.sunset f)); cbn [bind]; [|eauto].
      destruct Hmissing as [-> | ->]; [by eauto|].
      destruct (OWForecast.temp f); cbn [bind]; eauto. }
    by eapply forEach_throws.
  - intros fs -> Hall. apply forEach_succeeds.
    eapply Forall_impl; [exact Hall|].
    intros f [Hdt (w & ws & Hw)]. unfold forecastOf, pointPart.
    destruct (dateOrNow_printable now _ Hdt) as [d ->].
    rewrite Hw. cbn [bind firstDescription].
    destruct (precipitation _ _). eauto.
Qed.

End ForecastFacts.

(* ===================================================================== *)
(** ** More on [maxCount] *)
(* ===================================================================== *)

Lemma slice0_negative {A : Type} (n : Z) (l : list A) :
  n < 0 -> slice0 n l = firstn (length l - Z.to_nat (- n)) l.
Proof.
  intros Hn. unfold slice0.
  destruct (Z.ltb_spec n 0) as [_|]; [|lia].
  f_equal. lia.
Qed.

Section NegativeCount.

Context `{SpatialGrid}.

Import WeatherService.

(** X12.  A negative [maxCount] is truthy, so it reaches [slice]: for
    [maxCount = -k] the forecasts come back without their last [k] entries,
    and a list of observations, which has one entry at most, comes back
    empty. *)
Theorem negative_maxCount_drops_tail
    net now position type startDate s n :
  n < 0 ->
  (forall l s',
     getForecastData net now position type None s = (Ok l, s') ->
     getForecastData net now position type
                     (Some (mkParams (Some n) startDate)) s
     = (Ok (firstn (length l - Z.to_nat (- n)) l), s')) /\
  (forall l s',
     getObservationData net now position None s = (Ok l, s') ->
     getObservationData net now position
                        (Some (mkParams (Some n) startDate)) s
     = (Ok [], s')).
Proof.
  intros Hn.
  assert (forall A (l : list A),
            truncate (Some (mkParams (Some n) startDate)) l
            = firstn (length l - Z.to_nat (- n)) l) as Htr.
  { intros A l. unfold truncate, truthy. simpl.
    destruct (Z.eqb_spec n 0); [lia|]. simpl. by apply slice0_negative. }
  split; intros l s' Hnone.
  - rewrite getForecastData_options, Hnone. cbn [fst snd bind].
    by rewrite Htr.
  - rewrite getObservationData_options, Hnone. cbn [fst snd bind].
    rewrite Htr.
    assert (length l <= 1)%nat as Hlen.
    { revert Hnone. unfold getObservationData, onDemand.
      destruct (weatherService s) as [ow|]; [|done].
      rewrite fetchObservations_resolve.
      destruct (fst (resolve net now position None ow)) as [owData|];
        cbn [bind rethrow]; [|done].
      destruct (parseOWObservations now owData) as [obs|] eqn:Hp;
        cbn [bind rethrow]; [|done].
      intros [= <- _]. apply parseOWObservations_length in Hp.
      by cbn. }
    replace (length l - Z.to_nat (- n))%nat with O by lia. done.
Qed.

End NegativeCount.

(** X5 on the sample payload. *)
Lemma warnings_follow_alerts_witness :
  exists warnings,
    parseOWWarnings (Some Sample.payloadA) = Ok warnings /\
    length warnings = 1%nat.
Proof.
  eexists. split; [vm_compute; reflexivity|].
  destruct (warnings_follow_alerts (Some Sample.payloadA)) as [_ Hall].
  destruct (Hall [Sample.gale] _ eq_refl eq_refl) as [Hlen _].
  exact Hlen.
Defined.

(** X6 on an alert that has an end only. *)
Lemma warning_end_without_start_witness :
  fst (fetchWarnings (H := Sample.degreeGrid)
         (fun _ => Body (OWResponse.mk None None None None None
                           (Some [Sample.gale; Sample2.endOnly])))
         0 Sample.vessel (Some true) Sample.service)
  = Throw parseError.
Proof.
  destruct (warning_end_without_start (H := Sample.degreeGrid)
              (fun _ => Body (OWResponse.mk None None None None None
                                (Some [Sample.gale; Sample2.endOnly])))
              0 Sample.vessel (Some true) Sample.service
              (OWResponse.mk None None None None None
                 (Some [Sample.gale; Sample2.endOnly]))
              [Sample.gale; Sample2.endOnly] Sample2.endOnly 1714723200)
    as [Hthrow _].
  - reflexivity.
  - right. by left.
  - reflexivity.
  - lia.
  - apply Hthrow; [reflexivity|]. vm_compute. reflexivity.
Defined.

(** X7 on an observation with rain and snow. *)
Lemma precipitation_rain_before_snow_witness :
  exists obs,
    observationOf 0 Sample2.sleet = Ok obs /\
    WeatherData.outside obs ≫= Outside.precipitationType = Some rainKind /\
    WeatherData.outside obs ≫= Outside.precipitationVolume = Some (2 # 1)%Q.
Proof.
  eexists. split; [vm_compute; reflexivity|].
  match goal with
  | |- context [WeatherData.outside ?o] =>
      destruct (precipitation_rain_before_snow 0 Sample2.sleet o)
        as (Hrain & _); [vm_compute; reflexivity|]
  end.
  specialize (Hrain (2 # 1)%Q eq_refl).
  split; [exact (f_equal fst Hrain)|exact (f_equal snd Hrain)].
Defined.

(** X8 on the same observation: humidity and rain only. *)
Lemma observation_groups_never_empty_witness :
  exists obs,
    observationOf 0 Sample2.sleet = Ok obs /\
    WeatherData.water obs = None /\
    WeatherData.wind obs = None /\
    WeatherData.sun obs = None.
Proof.
  eexists. split; [vm_compute; reflexivity|].
  match goal with
  | |- context [WeatherData.water ?o] =>
      destruct (observation_groups_never_empty 0 Sample2.sleet o)
        as (Hwater & _ & _ & _ & Hwind & Hsun & _);
        [vm_compute; reflexivity|]
  end.
  split; [exact Hwater|]. split.
  - by apply Hwind.
  - by apply Hsun.
Defined.

(** X9 on an hourly entry without wind data: the empty [outside] stays. *)
Lemma forecast_outside_survives_without_wind_witness :
  exists fc,
    forecastOf 0 point pointPart Sample2.hourlyBare = Ok fc /\
    WeatherData.wind fc = None /\
    WeatherData.outside fc <> None.
Proof.
  eexists. split; [vm_compute; reflexivity|].
  match goal with
  | |- context [WeatherData.wind ?o] =>
      destruct (forecast_outside_survives_without_wind 0 point pointPart
                  Sample2.hourlyBare o)
        as (_ & _ & _ & Hwind & Hout & _); [vm_compute; reflexivity|]
  end.
  split; [reflexivity|]. apply Hout. by apply Hwind.
Defined.

(** X10 on the three hourly entries of the sample payload. *)
Lemma forecasts_follow_period_witness :
  exists l,
    parseOWForecasts 0 (Some Sample.payloadA) point = Ok l /\
    length l = 3%nat.
Proof.
  eexists. split; [vm_compute; reflexivity|].
  match goal with
  | |- length ?l = _ =>
      destruct (forecasts_follow_period 0 (Some Sample.payloadA) point l)
        as (_ & Hpoint & _); [vm_compute; reflexivity|]
  end.
  destruct Hpoint as [Hlen _]; [reflexivity|]. exact Hlen.
Defined.

(** X11 on a daily array whose second entry has no [temp]. *)
Lemma daily_forecast_needs_temp_witness :
  exists m,
    parseOWForecasts 0
      (Some (OWResponse.mk None None None None
               (Some [Sample.dailyAt 1714730400; Sample2.dailyNoTemp]) None))
      daily = Throw m.
Proof.
  destruct (daily_forecast_needs_temp 0
              (Some (OWResponse.mk None None None None
                       (Some [Sample.dailyAt 1714730400; Sample2.dailyNoTemp])
                       None))) as [Hdaily _].
  apply (Hdaily [Sample.dailyAt 1714730400; Sample2.dailyNoTemp]
                Sample2.dailyNoTemp).
  - reflexivity.
  - right. by left.
  - by left.
Defined.

(** X12 on the three hourly forecasts with [maxCount] -1. *)
Lemma negative_maxCount_drops_tail_witness :
  exists l s',
    WeatherService.getForecastData (H := Sample.degreeGrid) Sample.remoteA
      SampleRun.t0 Sample.vessel point None SampleRun.started = (Ok l, s') /\
    length l = 3%nat /\
    WeatherService.getForecastData (H := Sample.degreeGrid) Sample.remoteA
      SampleRun.t0 Sample.vessel point (Some (mkParams (Some (-1)) None))
      SampleRun.started = (Ok (firstn 2 l), s').
Proof.
  eexists _, _. split; [vm_compute; reflexivity|]. split; [reflexivity|].
  destruct (negative_maxCount_drops_tail (H := Sample.degreeGrid)
              Sample.remoteA SampleRun.t0 Sample.vessel point None
              SampleRun.started (-1)) as [Hforecasts _]; [lia|].
  match goal with
  | |- _ = (Ok (firstn 2 ?l), ?s') =>
      assert (WeatherService.getForecastData (H := Sample.degreeGrid)
                Sample.remoteA SampleRun.t0 Sample.vessel point None
                SampleRun.started = (Ok l, s')) as Hnone
        by (vm_compute; reflexivity);
      exact (Hforecasts l s' Hnone)
  end.
Defined.

(* ===================================================================== *)
(** ** The delta and the metas *)
(* ===================================================================== *)

Lemma pushIfDefined_paths {A : Type} path (wrap : A -> DeltaValue) v :
  map fst (pushIfDefined path wrap v) `sublist_of` [path].
Proof.
  destruct v; simpl; [done|]. apply sublist_nil_l.
Qed.

Lemma elem_of_pushIfDefined {A : Type} path (wrap : A -> DeltaValue) v x :
  x ∈ map fst (pushIfDefined path wrap v) -> x = path /\ v <> None.
Proof.
  destruct v; simpl; [|by intros ?%elem_of_nil].
  intros ->%list_elem_of_singleton. done.
Qed.

Lemma meteoDeltas_paths position obs values :
  meteoDeltas position (Some obs) = Ok values ->
  map fst values `sublist_of` deltaPaths.
Proof.
  unfold meteoDeltas. cbv zeta. intros [= <-].
  rewrite !map_cons, !map_app. cbn [fst].
  change deltaPaths with
    ("navigation.position" :: "" :: "environment.date" ::
     ["environment.outside.horizontalVisibility"] ++
     ["environment.sun.sunrise"] ++ ["environment.sun.sunset"] ++
     ["environment.outside.uvIndex"] ++
     ["environment.outside.cloudCover"] ++
     ["environment.outside.temperature"] ++
     ["environment.outside.dewPointTemperature"] ++
     ["environment.outside.feelsLikeTemperature"] ++
     ["environment.outside.pressure"] ++
     ["environment.outside.relativeHumidity"] ++
     ["environment.outside.absoluteHumidity"] ++
     ["environment.outside.precipitationType"] ++
     ["environment.wind.speedTrue"] ++
     ["environment.wind.directionTrue"]).
  do 3 apply sublist_skip.
  repeat (apply sublist_app; [done || apply pushIfDefined_paths|]).
  apply pushIfDefined_paths.
Qed.

(** X13.  For every observation [emitMeteoDeltas] builds a delta: it opens
    with the position polled, the provider name and the date, has between
    3 and 17 values, and its paths are pairwise distinct and come in the
    order of [deltaPaths]; for a missing observation it throws. *)
Theorem meteoDeltas_shape position obs :
  (exists m, meteoDeltas position None = Throw m) /\
  exists values,
    meteoDeltas position (Some obs) = Ok values /\
    firstn 3 values
    = [("navigation.position", VPosition position);
       ("", VName "OpenWeather");
       ("environment.date", VString (WeatherData.date obs))] /\
    map fst values `sublist_of` deltaPaths /\
    NoDup (map fst values) /\
    (3 <= length values <= 17)%nat.
Proof.
  split; [by eexists|].
  eexists. split; [reflexivity|]. split; [reflexivity|].
  pose proof (meteoDeltas_paths position obs _ eq_refl) as Hsub.
  split; [exact Hsub|]. split.
  - eapply sublist_NoDup; [|exact Hsub]. compute_done.
  - split.
    + cbv zeta. rewrite length_app. simpl. lia.
    + apply sublist_length in Hsub. rewrite length_map in Hsub.
      exact Hsub.
Qed.

(** X14.  Apart from the position, the provider name and the precipitation
    type, every path that a delta can carry has an entry in the metas that
    [emitMeteoMetas] publishes at start-up. *)
Theorem delta_paths_have_metas position obs values path :
  meteoDeltas position obs = Ok values ->
  path ∈ map fst values ->
  path ∈ ["navigation.position"; "";
          "environment.outside.precipitationType"] \/
  path ∈ map Plugin.path Plugin.meteoMetas.
Proof.
  intros Hv Hin. destruct obs as [obs|]; [|done].
  pose proof (meteoDeltas_paths position obs values Hv) as Hsub.
  pose proof (elem_of_sublist _ _ _ Hin Hsub) as Hall.
  assert (Forall (fun p =>
                    p ∈ ["navigation.position"; "";
                         "environment.outside.precipitationType"] \/
                    p ∈ map Plugin.path Plugin.meteoMetas) deltaPaths)
    as Hcovered.
  { unfold deltaPaths.
    repeat (constructor; [first [left; compute_done | right; compute_done]|]).
    constructor. }
  by apply (proj1 (Forall_forall _ _) Hcovered).
Qed.

(** X15.  What [parseOWObservations] makes of a response never leads to a
    relative-humidity value in the delta: the provider's [humidity] is
    published, divided by 100, under [absoluteHumidity]. *)
Theorem humidity_is_published_as_absolute now current obs position values :
  observationOf now current = Ok obs ->
  meteoDeltas position (Some obs) = Ok values ->
("environment.outside.relativeHumidity" ∉ map fst values) /\
  (forall h, OWObservation.humidity current = Some h ->
     ("environment.outside.absoluteHumidity", VNumber (div100 h)) ∈ values).
Proof.
  intros Hobs Hv.
  destruct (observationOf_Ok _ _ _ Hobs)
    as (date & descr & sr & ss & _ & _ & Heq).
  assert (WeatherData.outside obs ≫= Outside.relativeHumidity = None)
    as Hrel.
  { rewrite Heq. cbn [WeatherData.outside].
    destruct (clean Outside.isEmpty _) as [o|] eqn:Hc; [|done].
    by apply clean_Some in Hc as [[= <-] _]. }
  assert (forall h, OWObservation.humidity current = Some h ->
            WeatherData.outside obs ≫= Outside.absoluteHumidity
            = Some (div100 h)) as Habs.
  { intros h Hh. rewrite Heq. cbn [WeatherData.outside].
    erewrite (clean_outside_field Outside.absoluteHumidity);
      [|done|simpl; by rewrite Hh].
    simpl. by rewrite Hh. }
  clear Heq Hobs. unfold meteoDeltas in Hv. cbv zeta in Hv.
  injection Hv as <-.
  split.
  - rewrite !map_cons, !map_app, !elem_of_cons, !elem_of_app.
    intros Hin.
    repeat (destruct Hin as [Hin|Hin];
            [first [ done
                   | by apply elem_of_pushIfDefined in Hin as [[=] _]
                   | by apply elem_of_pushIfDefined in Hin as [_ ?] ]|]).
    by apply elem_of_pushIfDefined in Hin as [[=] _].
  - intros h Hh. rewrite !elem_of_cons, !elem_of_app.
    do 13 right. left. rewrite (Habs h Hh). simpl.
    by apply list_elem_of_singleton.
Qed.

(** X14 on the delta of the first sample poll. *)
Lemma delta_paths_have_metas_witness :
  "environment.outside.pressure"
  ∈ map Plugin.path Plugin.meteoMetas.
Proof.
  destruct (delta_paths_have_metas Sample.vessel
              (Some (WeatherData.mk (Some "clear sky")
                       "2024-05-03T05:00:00.000Z" observation
                       (Some (Outside.mk None None None None None None None
                                None None None (Some (101300 # 1)%Q) None
                                None None))
                       None None None))
              [("navigation.position", VPosition Sample.vessel);
               ("", VName "OpenWeather");
               ("environment.date", VString "2024-05-03T05:00:00.000Z");
               ("environment.outside.pressure", VNumber (101300 # 1)%Q)]
              "environment.outside.pressure") as [Hin | Hin].
  - reflexivity.
  - compute_done.
  - exfalso. revert Hin. compute_done.
  - exact Hin.
Defined.

(** X15 on the sample observation with 80 % humidity. *)
Lemma humidity_is_published_as_absolute_witness :
  exists obs values,
    observationOf 0 Sample2.sleet = Ok obs /\
    meteoDeltas Sample.vessel (Some obs) = Ok values /\
    ("environment.outside.absoluteHumidity", VNumber (div100 (80 # 1)))
    ∈ values.
Proof.
  eexists _, _. split; [vm_compute; reflexivity|].
  split; [reflexivity|].
  eapply (humidity_is_published_as_absolute 0 Sample2.sleet _ Sample.vessel).
  - vm_compute. reflexivity.
  - reflexivity.
  - reflexivity.
Defined.

(* ===================================================================== *)
(** ** The wake timer between two fetches *)
(* ===================================================================== *)

Section WakeFacts.

Import WeatherService.

Context `{SpatialGrid}.

Lemma wakeLoop_S net n now pos s :
  wakeLoop net (S n) now pos s
  = match timer s with
    | Some h =>
        wakeLoop net n (now + wakeInterval) pos
                 (fire_run net h (now + wakeInterval) pos s)
    | None => s
    end.
Proof. reflexivity. Qed.

Lemma fetch_is_counted net now position s :
  weatherService s <> None ->
  requestCount (snd (pollWeatherData_fetch net now position s))
  = S (requestCount s).
Proof.
  intros Hws. unfold pollWeatherData_fetch, requestCount.
  destruct (weatherService s) as [ow|]; [|done].
  rewrite fetchObservations_resolve, resolve_bypass. cbn [fst snd].
  simpl (weatherService _). cbv iota.
  rewrite fetchData_requests, length_app.
  simpl. lia.
Qed.

Lemma resume_weatherService now position r s :
  weatherService (pollWeatherData_resume now position r s) = weatherService s.
Proof.
  destruct r as [obs|m]; [|reflexivity].
  unfold pollWeatherData_resume, emitMeteoDeltas.
  by destruct (meteoDeltas position (head obs)).
Qed.

(** The interval fires while the poll interval has not elapsed: the watchdog
    passes and nothing but [lastWake] and the no-position counter moves. *)
Lemma quiet_wake net h now position s t w tm :
  lastFetch s = Some t -> t <> 0 ->
  lastWake s = Some w -> 50000 <= now - w ->
  JS.find h (loop s) = Some tm -> repeating tm = true ->
  callback tm = WakeTick ->
  clearIfSet (retryTimer s) (loop s) = loop s ->
  now - t < fetchInterval s ->
  fire_run net h now (Some position) s
  = mkState (pluginId s) (Some now) (lastFetch s) (fetchInterval s) (timer s)
            (retryTimer s) (retry_count s) 0 (weatherService s) (loop s)
            (host s).
Proof.
  intros Hf Ht Hw Hdt Hfind Hrep Hcb Hclear Hdue.
  unfold fire_run, fire. rewrite Hfind, Hcb. cbn [runCallback].
  unfold fired. rewrite Hfind, Hrep.
  unfold wakeTick, wakeWatchdog. simpl (lastWake _). rewrite Hw.
  replace (50000 <=? now - w) with true by (symmetry; by apply Z.leb_le).
  rewrite poll_with_position. cbn zeta.
  simpl (lastFetch _). simpl (fetchInterval _). rewrite Hf.
  unfold notDue, truthy.
  replace (t =? 0) with false by (symmetry; by apply Z.eqb_neq).
  replace (now - t <? fetchInterval s) with true
    by (symmetry; by apply Z.ltb_lt).
  simpl. rewrite Hclear. destruct s; simpl in *. by rewrite Hf.
Qed.

Lemma quiet_wakes net position t h tm n : forall now s w,
  lastFetch s = Some t -> t <> 0 ->
  lastWake s = Some w -> w <= now + 10000 ->
  timer s = Some h ->
  JS.find h (loop s) = Some tm -> repeating tm = true ->
  callback tm = WakeTick ->
  clearIfSet (retryTimer s) (loop s) = loop s ->
  now + Z.of_nat (S n) * wakeInterval - t < fetchInterval s ->
  wakeLoop net (S n) now (Some position) s
  = mkState (pluginId s) (Some (now + Z.of_nat (S n) * wakeInterval))
            (lastFetch s) (fetchInterval s) (timer s) (retryTimer s)
            (retry_count s) 0 (weatherService s) (loop s) (host s).
Proof.
  unfold wakeInterval.
  induction n as [|n IH]; intros now s w Hf Ht Hw Hdt Htimer Hfind Hrep Hcb
                                 Hclear Hdue;
    rewrite wakeLoop_S, Htimer;
    rewrite (quiet_wake net h (now + wakeInterval) position s t w tm);
    unfold wakeInterval; try (done || lia).
  - simpl wakeLoop. rewrite Htimer. by do 2 f_equal.
  - erewrite IH; try done; simpl; try lia.
    rewrite Htimer. do 2 f_equal. lia.
Qed.

Lemma wakeLoop_last net n : forall now pos s,
  wakeLoop net (S n) now pos s
  = match timer (wakeLoop net n now pos s) with
    | Some h =>
        fire_run net h (now + Z.of_nat (S n) * wakeInterval) pos
                 (wakeLoop net n now pos s)
    | None => wakeLoop net n now pos s
    end.
Proof.
  induction n as [|n IH]; intros now pos s.
  - rewrite wakeLoop_S. simpl wakeLoop.
    by replace (now + Z.of_nat 1 * wakeInterval) with (now + wakeInterval)
      by lia.
  - rewrite wakeLoop_S. rewrite (wakeLoop_S net n).
    destruct (timer s) as [h|] eqn:Htimer; [|by rewrite Htimer].
    rewrite IH.
    by replace (now + wakeInterval + Z.of_nat (S n) * wakeInterval)
      with (now + Z.of_nat (S (S n)) * wakeInterval) by lia.
Qed.

(** The interval fires when the poll interval has elapsed: one request. *)
Lemma due_wake net h now position s t w tm :
  lastFetch s = Some t ->
  lastWake s = Some w -> 50000 <= now - w ->
  JS.find h (loop s) = Some tm -> repeating tm = true ->
  callback tm = WakeTick ->
  fetchInterval s <= now - t ->
  retry_count s < retry_maxCount ->
  weatherService s <> None ->
  requestCount (fire_run net h now (Some position) s) = S (requestCount s).
Proof.
  intros Hf Hw Hdt Hfind Hrep Hcb Hdue Hretry Hws.
  unfold fire_run, fire. rewrite Hfind, Hcb. cbn [runCallback].
  unfold fired. rewrite Hfind, Hrep.
  unfold wakeTick, wakeWatchdog. simpl (lastWake _). rewrite Hw.
  replace (50000 <=? now - w) with true by (symmetry; by apply Z.leb_le).
  rewrite poll_with_position. cbn zeta.
  simpl (lastFetch _). simpl (fetchInterval _). simpl (retry_count _).
  rewrite Hf. unfold notDue.
  replace (now - t <? fetchInterval s) with false
    by (symmetry; by apply Z.ltb_ge).
  rewrite andb_false_r.
  replace (retry_count s <? retry_maxCount) with true
    by (symmetry; by apply Z.ltb_lt).
  match goal with
  | |- requestCount (let '(_, _) := pollWeatherData_fetch ?n ?t ?p ?st in _)
       = _ =>
      pose proof (fetch_is_counted n t p st) as Hcount;
      destruct (pollWeatherData_fetch n t p st) as [r s1]
  end.
  unfold requestCount at 1. rewrite resume_weatherService.
  fold (requestCount s1). simpl in Hcount. by apply Hcount.
Qed.

(** X16.  Between two fetches the wake timer is silent: while a wake comes
    less than [fetchInterval] after the last fetch it makes no request and
    publishes nothing, and the first wake that comes [fetchInterval] or more
    after it makes exactly one request. *)
Theorem next_request_waits_for_interval net position t h tm n now s w :
  lastFetch s = Some t -> t <> 0 ->
  lastWake s = Some w -> w <= now + 10000 ->
  timer s = Some h ->
  JS.find h (loop s) = Some tm -> repeating tm = true ->
  callback tm = WakeTick ->
  clearIfSet (retryTimer s) (loop s) = loop s ->
  retry_count s < retry_maxCount ->
  weatherService s <> None ->
  now + Z.of_nat n * wakeInterval - t < fetchInterval s ->
  fetchInterval s <= now + Z.of_nat (S n) * wakeInterval - t ->
  let quiet := wakeLoop net n now (Some position) s in
  requestCount quiet = requestCount s /\
  host quiet = host s /\
  loop quiet = loop s /\
  requestCount (wakeLoop net (S n) now (Some position) s)
  = S (requestCount s).
Proof.
  intros Hf Ht Hw Hdt Htimer Hfind Hrep Hcb Hclear Hretry Hws Hquiet Hdue
         quiet.
  rewrite wakeLoop_last. subst quiet. unfold wakeInterval in *.
  destruct n as [|n].
  - simpl wakeLoop. rewrite Htimer.
    repeat split; try done.
    apply (due_wake net h _ position s t w tm); try (done || lia).
  - rewrite (quiet_wakes net position t h tm n now s w);
      unfold wakeInterval; try (done || lia).
    cbn [timer]. rewrite Htimer.
    repeat split; try done.
    erewrite (due_wake net h _ position _ t _ tm);
      try done; simpl; try (done || lia).
Qed.

End WakeFacts.

(** X16 on the sample run: after the first fetch at [t0], with a poll
    interval of 15 minutes, fourteen wakes are silent and the fifteenth
    makes the second request. *)
Lemma next_request_waits_for_interval_witness :
  WeatherService.requestCount
    (WeatherService.wakeLoop (H := Sample.degreeGrid) Sample.remoteB 14
       SampleRun.t0 (Some Sample.vessel) SampleRun.started) = 1%nat /\
  WeatherService.requestCount SampleRun.secondFetch = 2%nat.
Proof.
  destruct (next_request_waits_for_interval (H := Sample.degreeGrid)
              Sample.remoteB Sample.vessel SampleRun.t0 1%nat
              (mkTimer 1%nat true 60000 SampleRun.t0 WeatherService.WakeTick)
              14 SampleRun.t0 SampleRun.started SampleRun.t0)
    as (Hquiet & _ & _ & Hdue);
    try (vm_compute; (reflexivity || congruence)).
  split; [exact Hquiet | exact Hdue].
Defined.

(* ===================================================================== *)
(** ** A reply without a current observation *)
(* ===================================================================== *)

Section EmptyObservation.

Import WeatherService.

Context `{SpatialGrid}.

Lemma fetch_without_current net now position s ow :
  (forall url, exists d, net url = Body d /\ OWResponse.cod d = None /\
                         OWResponse.current d = None) ->
  weatherService s = Some ow ->
  apiKey (settings ow) <> "" ->
  exists ow',
    pollWeatherData_fetch net now position s
    = (Ok [], set_weatherService (Some ow') s) /\
    length (requests ow') = S (length (requests ow)).
Proof.
  intros Hnet Hws Hkey. unfold pollWeatherData_fetch. rewrite Hws.
  rewrite fetchObservations_resolve, resolve_bypass. cbn [fst snd].
  unfold fetchData, getUrl.
  destruct (String.eqb_spec (apiKey (settings ow)) "") as [|_]; [done|].
  cbn zeta. unfold fetch.
  destruct (Hnet (OneCall (latitude position) (longitude position)
                          (apiKey (settings ow)))) as (d & -> & Hcod & Hcur).
  rewrite Hcod. cbn [fst snd bind rethrow].
  unfold parseOWObservations. simpl. rewrite Hcur. simpl.
  eexists. split; [reflexivity|]. simpl. rewrite length_app. simpl. lia.
Qed.

(** X17.  A reply without [current] gives no observation; the poll then
    publishes nothing and arms the retry, but has already recorded the
    fetch, so that the retry finds the poll interval not elapsed and arms
    nothing: of the timers of this poll none is left. *)
Theorem reply_without_current_strands net now position s ow :
  (forall url, exists d, net url = Body d /\ OWResponse.cod d = None /\
                         OWResponse.current d = None) ->
  weatherService s = Some ow ->
  apiKey (settings ow) <> "" ->
  notDue now (lastFetch s) (fetchInterval s) = false ->
  retry_count s < retry_maxCount ->
  below (nextHandle (loop s)) (timers (loop s)) ->
  retry_interval < fetchInterval s ->
  now <> 0 ->
  let s1 := pollWeatherData_run net now (Some position) s in
  let s2 := retryLoop net 1 now (Some position) s1 in
  host s1 = host s /\
  lastFetch s1 = Some now /\
  requestCount s1 = S (requestCount s) /\
  retryPending (timers (clearIfSet (retryTimer s) (loop s)))
               (nextHandle (loop s)) s1 /\
  timers (loop s2) = timers (clearIfSet (retryTimer s) (loop s)) /\
  timer s2 = timer s /\
  requestCount s2 = requestCount s1 /\
  host s2 = host s.
Proof.
  intros Hnet Hws Hkey Hdue Hretry Hbelow Hint Hnow s1 s2.
  set (s0 := set_retry_count (retry_count s + 1)
               (set_loop (clearIfSet (retryTimer s) (loop s))
                  (set_noPosRetry_count 0 s))).
  destruct (fetch_without_current net now position s0 ow Hnet)
    as (ow' & Hfetch & Hlog); [done|done|].
  assert (s1 = armRetryTimer FetchRetry retry_interval now
                 (set_times (Some now) (Some now)
                    (set_retry_count 0
                       (set_weatherService (Some ow') s0)))) as Hs1.
  { unfold s1, pollWeatherData_run. rewrite poll_with_position. cbn zeta.
    rewrite Hdue.
    replace (retry_count s <? retry_maxCount) with true
      by (symmetry; by apply Z.ltb_lt).
    fold s0. by rewrite Hfetch. }
  match type of Hs1 with
  | _ = armRetryTimer _ _ _ ?st =>
      pose proof (armRetryTimer_pending FetchRetry retry_interval now st)
        as Hpending
  end.
  rewrite <- Hs1 in Hpending. simpl in Hpending.
  assert (nextHandle (clearIfSet (retryTimer s) (loop s))
          = nextHandle (loop s)) as Hnext
    by (by destruct (retryTimer s)).
  rewrite Hnext in Hpending.
  specialize (Hpending ltac:(done)
                (below_clearIfSet _ (retryTimer s) (loop s) Hbelow)).
  assert (host s1 = host s) as Hhost by (by rewrite Hs1).
  assert (lastFetch s1 = Some now) as Hfetched by (by rewrite Hs1).
  assert (requestCount s1 = S (requestCount s)) as Hreq.
  { rewrite Hs1. unfold requestCount. simpl. by rewrite Hws. }
  assert (timer s1 = timer s) as Htimer by (by rewrite Hs1).
  assert (fetchInterval s1 = fetchInterval s) as Hfi by (by rewrite Hs1).
  assert (timers (loop s2) = timers (clearIfSet (retryTimer s) (loop s)) /\
          timer s2 = timer s1 /\
          weatherService s2 = weatherService s1 /\
          host s2 = host s1) as (Htimers & Htimer2 & Hws2 & Hhost2).
  { pose proof Hpending as (Hrt & _ & Hb & _).
    unfold s2. clearbody s1. rewrite retryLoop_S, Hrt.
    unfold fire_run. rewrite (fire_pending _ _ _ _ _ Hpending).
    rewrite poll_with_position. cbn zeta.
    simpl (lastFetch _). simpl (fetchInterval _). simpl (retryTimer _).
    rewrite Hfetched, Hfi, Hrt. unfold notDue, truthy.
    replace (now =? 0) with false by (symmetry; by apply Z.eqb_neq).
    replace (now + retry_interval - now <? fetchInterval s) with true
      by (symmetry; apply Z.ltb_lt; lia).
    simpl. by rewrite filter_below. }
  do 3 (split; [done|]).
  split; [exact Hpending|].
  split; [done|]. split; [by rewrite Htimer2|].
  split; [|by rewrite Hhost2].
  unfold requestCount. by rewrite Hws2.
Qed.

End EmptyObservation.

(** X17 on a plugin that starts with a known position against a provider
    whose reply has no [current]: one request, no delta, and after the
    retry has fired no timer is left. *)
Lemma reply_without_current_strands_witness :
  let s1 := WeatherService.pollWeatherData_run (H := Sample.degreeGrid)
              Sample2.remoteNoCurrent SampleRun.t0 (Some Sample.vessel)
              Sample2.registered in
  let s2 := WeatherService.retryLoop (H := Sample.degreeGrid)
              Sample2.remoteNoCurrent 1 SampleRun.t0 (Some Sample.vessel)
              s1 in
  WeatherService.requestCount s2 = 1%nat /\
  timers (WeatherService.loop s2) = [] /\
  WeatherService.host s2 = [RegisterWeatherProvider].
Proof.
  intros s1 s2.
  destruct (reply_without_current_strands (H := Sample.degreeGrid)
              Sample2.remoteNoCurrent SampleRun.t0 Sample.vessel
              Sample2.registered (newOpenWeather (Sample.config true 15)
                                    Sample.emptyStore))
    as (_ & _ & Hreq & _ & Htimers & _ & Hreq2 & Hhost).
  - intros url. by eexists.
  - reflexivity.
  - vm_compute. congruence.
  - reflexivity.
  - vm_compute. reflexivity.
  - constructor.
  - vm_compute. reflexivity.
  - vm_compute. congruence.
  - split; [|split].
    + unfold s2, s1. rewrite Hreq2, Hreq. reflexivity.
    + unfold s2, s1. rewrite Htimers. reflexivity.
    + unfold s2, s1. rewrite Hhost. reflexivity.
Defined.

(* ===================================================================== *)
(** ** Stopping and starting again *)
(* ===================================================================== *)

Lemma find_clear_other {C : Type} h h' (l : Loop C) :
  JS.find h l = None -> JS.find h (clear h' l) = None.
Proof.
  unfold JS.find, clear. simpl. induction (timers l) as [|t ts IH]; [done|].
  simpl. destruct (Nat.eqb (handle t) h) eqn:Hh; [done|]. intros Hfind.
  destruct (negb (Nat.eqb (handle t) h')); simpl; rewrite ?Hh; by apply IH.
Qed.

Lemma find_clearIfSet {C : Type} h v (l : Loop C) :
  JS.find h l = None -> JS.find h (clearIfSet v l) = None.
Proof. destruct v; [apply find_clear_other|done]. Qed.

Lemma below_cleared {C : Type} n v (l : Loop C) :
  below n (timers l) -> below n (timers (clearIfSet v l)).
Proof.
  intros Hb. destruct v as [h|]; [|done]. simpl. unfold below in *.
  apply List.Forall_forall. intros t Ht.
  apply List.filter_In in Ht as [Ht _].
  by apply (proj1 (List.Forall_forall _ _) Hb).
Qed.

Section StopFacts.

Import WeatherService.

Lemma stopWeather_find h s :
  timer s = Some h \/ retryTimer s = Some h ->
  JS.find h (loop (stopWeather s)) = None.
Proof.
  unfold stopWeather. simpl. intros [Hh|Hh]; rewrite Hh; simpl.
  - apply find_clearIfSet, find_clear.
  - apply find_clear.
Qed.

(** X18.  [stopWeather] takes the timers held in [timer] and [retryTimer]
    out of the table, so neither fires again, and leaves [lastFetch]
    at [fetchInterval - 1]; the two handles and the two counters stay as
    they were. *)
Theorem stopWeather_disarms h now pos s :
  timer s = Some h \/ retryTimer s = Some h ->
  let s' := stopWeather s in
  fire h now pos s' = Done s' /\
  lastFetch s' = Some (fetchInterval s - 1) /\
  timer s' = timer s /\ retryTimer s' = retryTimer s /\
  retry_count s' = retry_count s /\
  noPosRetry_count s' = noPosRetry_count s.
Proof.
  intros Hh s'. subst s'. split; [|done].
  unfold fire. by rewrite (stopWeather_find h s Hh).
Qed.

(** X19.  The no-position counter outlives a restart: once it has reached
    its maximum, stopping the plugin and starting it again while the
    position is still unknown reports [Started], yet arms no timer and
    leaves none of the timers the module refers to in the table. *)
Theorem restart_without_position_is_idle o store now s :
  noPosRetry_maxCount <= noPosRetry_count s ->
  Plugin.enable <$> Plugin.weather o = Some (Some true) ->
  exists s',
    Plugin.doStartup true (Some o) store now None (snd (Plugin.doShutdown s))
    = ([Plugin.MetaMessage Plugin.pluginId "meteo.openweather"
          Plugin.meteoMetas;
        Plugin.SetPluginStatus "Started"], Done s') /\
    loop s' = loop (stopWeather s) /\
    noPosRetry_count s' = noPosRetry_count s /\
    (forall h, timer s' = Some h \/ retryTimer s' = Some h ->
               JS.find h (loop s') = None).
Proof.
  intros Hspent Henable. unfold Plugin.doStartup, Plugin.doShutdown.
  cbn [snd]. unfold initWeather.
  assert (enable (Plugin.applyDefaults o) = true) as ->.
  { unfold Plugin.applyDefaults. destruct (Plugin.weather o) as [w|]; [|done].
    simpl in *. by injection Henable as ->. }
  rewrite poll_without_position_spent by done.
  eexists. split; [reflexivity|]. simpl.
  repeat split. intros h Hh. by apply (stopWeather_find h s).
Qed.

End StopFacts.

(** X18 on the sample run: the wake timer of the first fetch. *)
Lemma stopWeather_disarms_witness :
  WeatherService.fire 1 (SampleRun.t0 + 60000) (Some Sample.vessel)
    (WeatherService.stopWeather SampleRun.started)
  = WeatherService.Done (WeatherService.stopWeather SampleRun.started).
Proof.
  apply (stopWeather_disarms 1 (SampleRun.t0 + 60000) (Some Sample.vessel)
           SampleRun.started).
  left. reflexivity.
Defined.

(** X19 after twelve polls without a position. *)
Lemma restart_without_position_is_idle_witness :
  exists s',
    Plugin.doStartup true
      (Some (Plugin.mkOptions
               (Some (Plugin.mkWeatherOptions (Some true) (Some "key")
                                              (Num 15)))))
      Sample.emptyStore SampleRun.t0 None
      (snd (Plugin.doShutdown Sample2.noPosition))
    = ([Plugin.MetaMessage Plugin.pluginId "meteo.openweather"
          Plugin.meteoMetas;
        Plugin.SetPluginStatus "Started"], WeatherService.Done s') /\
    timers (WeatherService.loop s') = [].
Proof.
  destruct (restart_without_position_is_idle
              (Plugin.mkOptions
                 (Some (Plugin.mkWeatherOptions (Some true) (Some "key")
                                                (Num 15))))
              Sample.emptyStore SampleRun.t0 Sample2.noPosition)
    as (s' & Hstart & Hloop & _).
  - vm_compute. congruence.
  - reflexivity.
  - exists s'. split; [exact Hstart|]. rewrite Hloop. reflexivity.
Defined.

(* ===================================================================== *)
(** ** The later revision: watchdog, error budget and restart *)
(* ===================================================================== *)

Section RevisionScheduler.

Import WeatherServiceRev.

Context `{SpatialGrid}.

(** X20.  In the later revision a reply that settles less than 50 s before
    the next wake stops the scheduler: the fetch sets [lastWake] to the time
    it settles, so the watchdog of the next wake trips, clears the interval
    and reports the error, although the fetch succeeded. *)
Theorem late_reply_trips_watchdog settled next position obs rest pos s :
  0 < settled ->
  next - settled < wakeInterval - 10000 ->
  let s1 := pollWeatherData_resume settled position (Ok (obs :: rest)) s in
  exists s2,
    pollWeatherData next pos s1 = Done s2 /\
    errorCount s1 = 0 /\
    timer s2 = None /\
    loop s2 = clearIfSet (timer s) (loop s) /\
    weatherService s2 = weatherService s /\
    host s2 = host s1 ++ [SetPluginError "Weather timer stopped by watchdog!"].
Proof.
  intros Hpos Hlate s1.
  destruct (success_keeps_timers settled position obs rest s)
    as (Hloop & Htimer & Hcount). fold s1 in Hloop, Htimer, Hcount.
  assert (watchdogTrips next s1 = true) as Htrip.
  { unfold watchdogTrips.
    replace (lastWake s1) with (Some settled) by reflexivity.
    apply andb_true_intro. split; [by apply Z.ltb_lt|by apply Z.ltb_lt]. }
  destruct (watchdog_trip_stops next pos s1 Htrip)
    as (s2 & Hpoll & Hnone & Hloop2 & Hhost & Hws & _).
  exists s2. rewrite Hloop2, Hloop, Htimer, Hws.
  repeat split; try done.
Qed.

Lemma rev_wakeLoop_S net n now pos s :
  RevRun.wakeLoop net (S n) now pos s
  = match timer s with
    | Some h =>
        RevRun.wakeLoop net n (now + wakeInterval) pos
          (settle net (now + wakeInterval) (fire h (now + wakeInterval) pos s))
    | None => s
    end.
Proof. reflexivity. Qed.

(** A wake of the later revision at which the watchdog passes and no
    position is known. *)
Lemma rev_wake_without_position h now s w tm :
  lastWake s = Some w -> wakeInterval - 10000 <= now - w ->
  JS.find h (loop s) = Some tm -> repeating tm = true ->
  callback tm = Wake ->
  fire h now None s
  = Done (handleError "*** Weather: No vessel position detected!"
                      (set_lastWake (Some now) s)).
Proof.
  intros Hw Hdt Hfind Hrep Hcb. unfold fire. rewrite Hfind, Hcb.
  cbn [runCallback]. unfold fired. rewrite Hfind, Hrep.
  unfold pollWeatherData, watchdogTrips. simpl (lastWake _). rewrite Hw.
  replace (now - w <? wakeInterval - 10000) with false
    by (symmetry; by apply Z.ltb_ge).
  rewrite andb_false_r. by destruct s.
Qed.

(** X21.  The error budget of the later revision: with the interval running
    and [errorCount] at [errorCountMax - k - 1], [k + 1] wakes in a row
    without a position stop the scheduler, with no request made: the
    interval is cleared, [timer] is reset and [errorCount] stands at
    [errorCountMax]. *)
Theorem error_budget_stops_scheduler net h tm k : forall now s w,
  errorCount s = errorCountMax - Z.of_nat (S k) ->
  lastWake s = Some w -> w <= now + 10000 ->
  timer s = Some h ->
  JS.find h (loop s) = Some tm -> repeating tm = true ->
  callback tm = Wake ->
  let s' := RevRun.wakeLoop net (S k) now None s in
  timer s' = None /\
  JS.find h (loop s') = None /\
  errorCount s' = errorCountMax /\
  weatherService s' = weatherService s /\
  lastWake s' = Some 0 /\
  lastFetch s' = Some (fetchInterval s - 1).
Proof.
  induction k as [|k IH]; intros now s w Hcount Hw Hdt Htimer Hfind Hrep Hcb;
    cbv zeta; rewrite rev_wakeLoop_S, Htimer;
    rewrite (rev_wake_without_position h _ s w tm)
      by (unfold wakeInterval; done || lia);
    cbn [settle]; unfold handleError; cbn zeta;
    simpl (errorCount _); rewrite Hcount.
  - replace (errorCountMax <=? errorCountMax - Z.of_nat 1 + 1) with true
      by (symmetry; apply Z.leb_le; lia).
    simpl. rewrite Htimer. simpl. repeat split; try done.
    apply find_clear.
  - replace (errorCountMax <=? errorCountMax - Z.of_nat (S (S k)) + 1)
      with false by (symmetry; apply Z.leb_gt; lia).
    match goal with
    | |- context [RevRun.wakeLoop net (S k) ?t None ?st] =>
        destruct (IH t st (now + wakeInterval))
          as (Ht' & Hf' & Hc' & Hws' & Hw' & Hlf'); try done
    end.
    + simpl. lia.
    + unfold wakeInterval. lia.
Qed.

(** X22.  Restart in the later revision: after [stopWeather], [initWeather]
    arms the start-up timeout; when it fires, exactly one interval is armed
    on top of the timers that [stopWeather] left, the watchdog does not trip
    on the [lastWake] that [stopWeather] reset, and with a known position
    the poll goes on to the request as soon as the poll interval has elapsed
    on the reset [lastFetch]. *)
Theorem restart_arms_one_interval id config store now position s :
  enable config = true ->
  below (nextHandle (loop s)) (timers (loop s)) ->
  fetchInterval s - 1 + fetchIntervalOf config <= now + 3000 ->
  let n := nextHandle (loop s) in
  let s1 := initWeather id config store now (stopWeather s) in
  exists s2,
    fire n (now + 3000) (Some position) s1 = Await s2 position /\
    timer s2 = Some (S n) /\
    timers (loop s2)
    = timers (clearIfSet (timer s) (loop s))
      ++ [mkTimer (S n) true wakeInterval (now + 3000) Wake] /\
    errorCount s2 = 0 /\
    lastWake s2 = Some (now + 3000).
Proof.
  intros Henable Hbelow Hdue n s1.
  assert (nextHandle (clearIfSet (timer s) (loop s)) = n) as Hnext
    by (by destruct (timer s)).
  pose proof (below_cleared _ (timer s) (loop s) Hbelow) as Hb.
  unfold s1, initWeather. rewrite Henable. cbn [timer stopWeather].
  unfold fire. cbn [loop set_loop snd setTimeout arm timers nextHandle].
  change (loop (stopWeather s)) with (clearIfSet (timer s) (loop s)).
  change (lastWake (stopWeather s)) with (Some 0).
  change (lastFetch (stopWeather s)) with (Some (fetchInterval s - 1)).
  rewrite Hnext.
  destruct (fired_last n (S n) (timers (clearIfSet (timer s) (loop s)))
              3000 now StartTimer Hb) as (-> & ->).
  cbn [callback runCallback]. unfold startTimer.
  set (base := clearIfSet (timer s) (loop s)) in *.
  unfold pollWeatherData, watchdogTrips, notDue. simpl.
  match goal with
  | |- context [?a <? fetchIntervalOf config] =>
      destruct (Z.ltb_spec a (fetchIntervalOf config)) as [Hlt|_];
        [exfalso; lia|]
  end.
  rewrite andb_false_r.
  eexists. split; [reflexivity|]. by repeat split.
Qed.

End RevisionScheduler.

(** X20 on the sample start: the start-up poll at [t0 + 3 s] is answered
    twelve seconds later, and the first wake of the interval trips. *)
Lemma late_reply_trips_watchdog_witness :
  exists s2,
    WeatherServiceRev.pollWeatherData (SampleRun.t0 + 63000)
      (Some Sample.vessel)
      (WeatherServiceRev.pollWeatherData_resume (SampleRun.t0 + 15000)
         Sample.vessel (Ok [Sample2.pressureOnly])
         (RevRun.stateOf RevRun.polling))
    = WeatherServiceRev.Done s2 /\
    WeatherServiceRev.timer s2 = None /\
    timers (WeatherServiceRev.loop s2) = [].
Proof.
  destruct (late_reply_trips_watchdog (SampleRun.t0 + 15000)
              (SampleRun.t0 + 63000) Sample.vessel Sample2.pressureOnly []
              (Some Sample.vessel) (RevRun.stateOf RevRun.polling))
    as (s2 & Hpoll & _ & Htimer & Hloop & _).
  - reflexivity.
  - reflexivity.
  - exists s2. split; [exact Hpoll|]. split; [exact Htimer|].
    rewrite Hloop. reflexivity.
Defined.

(** X21 on a start without a position: the start-up poll is the first
    error, and four wakes later the scheduler has stopped. *)
Lemma error_budget_stops_scheduler_witness :
  let s := RevRun.stateOf
             (WeatherServiceRev.fire 1 (SampleRun.t0 + 3000) None
                                     RevRun.starting) in
  let s' := RevRun.wakeLoop (H := Sample.degreeGrid) Sample.remoteA 4
              (SampleRun.t0 + 3000) None s in
  WeatherServiceRev.errorCount s = 1 /\
  WeatherServiceRev.timer s' = None /\
  WeatherServiceRev.errorCount s' = 5 /\
  RevRun.requestCount s' = 0%nat.
Proof.
  intros s s'.
  destruct (error_budget_stops_scheduler (H := Sample.degreeGrid)
              Sample.remoteA 2%nat
              (mkTimer 2%nat true 60000 (SampleRun.t0 + 3000)
                       WeatherServiceRev.Wake)
              3 (SampleRun.t0 + 3000) s (SampleRun.t0 + 3000))
    as (Htimer & _ & Hcount & Hws & _).
  - reflexivity.
  - reflexivity.
  - vm_compute. congruence.
  - reflexivity.
  - reflexivity.
  - reflexivity.
  - reflexivity.
  - split; [reflexivity|]. split; [exact Htimer|]. split; [exact Hcount|].
    unfold RevRun.requestCount, s'. rewrite Hws. reflexivity.
Defined.

(** X22 on the sample start: stopped and started again 10 000 s later. *)
Lemma restart_arms_one_interval_witness :
  exists s2,
    WeatherServiceRev.fire 3 (SampleRun.t0 + 10000000 + 3000)
      (Some Sample.vessel)
      (WeatherServiceRev.initWeather "openweather" (Sample.config true 15)
         Sample.emptyStore (SampleRun.t0 + 10000000)
         (WeatherServiceRev.stopWeather (RevRun.stateOf RevRun.polling)))
    = WeatherServiceRev.Await s2 Sample.vessel /\
    timers (WeatherServiceRev.loop s2)
    = [mkTimer 4%nat true 60000 (SampleRun.t0 + 10000000 + 3000)
               WeatherServiceRev.Wake].
Proof.
  destruct (restart_arms_one_interval "openweather" (Sample.config true 15)
              Sample.emptyStore (SampleRun.t0 + 10000000) Sample.vessel
              (RevRun.stateOf RevRun.polling))
    as (s2 & Hfire & _ & Htimers & _).
  - reflexivity.
  - repeat constructor.
  - vm_compute. congruence.
  - exists s2. split; [exact Hfire|]. rewrite Htimers. reflexivity.
Defined.

(* ===================================================================== *)
(** ** Start-up outcomes and the on-demand surface *)
(* ===================================================================== *)

Section PluginFacts.

Import WeatherService.

Context `{SpatialGrid}.

(** X23.  A start-up whose options do not enable polling still registers
    the provider, creates the service object, publishes the metas and
    reports [Started], but polls nothing and arms no timer; without a
    [weather] object at all the service is created without an API key and
    [fetchInterval] is one hour. *)
Theorem disabled_startup_registers_only o store now pos s :
  default false (Plugin.weather o ≫= Plugin.enable) = false ->
  exists s',
    Plugin.doStartup true (Some o) store now pos s
    = ([Plugin.MetaMessage Plugin.pluginId "meteo.openweather"
          Plugin.meteoMetas;
        Plugin.SetPluginStatus "Started"], Done s') /\
    host s' = host s ++ [RegisterWeatherProvider] /\
    loop s' = loop s /\
    requestCount s' = 0%nat /\
    weatherService s'
    = Some (newOpenWeather (Plugin.applyDefaults o) store) /\
    (Plugin.weather o = None ->
       Plugin.applyDefaults o = mkConfig "" false (Num 60) /\
       fetchInterval s' = 3600000).
Proof.
  intros Hoff. unfold Plugin.doStartup, initWeather.
  assert (enable (Plugin.applyDefaults o) = false) as ->.
  { unfold Plugin.applyDefaults. destruct (Plugin.weather o) as [w|]; [|done].
    exact Hoff. }
  eexists. split; [reflexivity|]. simpl.
  repeat split; try done.
  all: unfold Plugin.applyDefaults;
    match goal with Hnone : Plugin.weather _ = None |- _ => by rewrite Hnone end.
Qed.

(** X24.  A start-up that fails, on a server without the Weather API or on
    undefined options, reports the error, never reports [Started], and
    leaves the weather module as it was: no provider registered, no service
    object, no poll. *)
Theorem failed_startup_leaves_module hasWeatherApi options store now pos s :
  hasWeatherApi = false \/ options = None ->
  exists msg,
    Plugin.doStartup hasWeatherApi options store now pos s
    = ([Plugin.PluginError msg; Plugin.ServerError "** EXCEPTION: **"],
       Done s) /\
    (hasWeatherApi = false -> msg = Plugin.noWeatherApi) /\
    (hasWeatherApi = true -> msg = Plugin.noOptions).
Proof.
  intros [-> | ->]; unfold Plugin.doStartup.
  - eexists. by repeat split.
  - destruct hasWeatherApi; eexists; by repeat split.
Qed.

Lemma resolve_requests net now position bypassCache ow :
  let ow' := snd (resolve net now position bypassCache ow) in
  (length (requests ow') <= S (length (requests ow)))%nat /\
  settings ow' = settings ow.
Proof.
  unfold resolve.
  pose proof (fetchData_requests net now position ow) as Hlog.
  pose proof (fetchData_settings net now position ow) as Hset.
  destruct (fetchData net now position ow) as [r ow1]. simpl in Hlog, Hset.
  destruct bypassCache as [[|]|],
           (WCache.contains now position (wcache ow)); simpl;
    rewrite ?Hlog, ?length_app; simpl; split; (done || lia).
Qed.

Lemma onDemand_effect {A : Type} msg
    (call : OpenWeather -> Result A * OpenWeather) s :
  let out := onDemand msg call s in
  (fst out = Throw msg \/ exists v, fst out = Ok v) /\
  loop (snd out) = loop s /\ host (snd out) = host s /\
  timer (snd out) = timer s /\ retryTimer (snd out) = retryTimer s /\
  lastFetch (snd out) = lastFetch s /\ lastWake (snd out) = lastWake s /\
  retry_count (snd out) = retry_count s.
Proof.
  unfold onDemand. destruct (weatherService s) as [ow|]; [|by repeat split; left].
  destruct (call ow) as [[v|m] ow']; simpl; repeat split; eauto.
Qed.

Lemma onDemand_requests {A : Type} msg
    (call : OpenWeather -> Result A * OpenWeather) s :
  (forall ow, (length (requests (snd (call ow)))
               <= S (length (requests ow)))%nat) ->
  (requestCount (snd (onDemand msg call s)) <= S (requestCount s))%nat.
Proof.
  intros Hcall. unfold onDemand, requestCount.
  destruct (weatherService s) as [ow|] eqn:Hws; [|simpl; rewrite Hws; lia].
  specialize (Hcall ow). destruct (call ow) as [r ow']. simpl in *. done.
Qed.

(** X25.  The on-demand surface never touches the scheduler and never
    passes on the cause of a failure: each of the three calls either
    returns a result or throws its own fixed message, leaves the timer
    table, both timer handles, [lastFetch], [lastWake], the retry counter
    and the host log as they were, and sends at most one request. *)
Theorem on_demand_leaves_scheduler net now position type options s :
  let o := getObservationData net now position options s in
  let f := getForecastData net now position type options s in
  let w := getWarnings net now position s in
  (fst o = Throw observationError \/ exists v, fst o = Ok v) /\
  (fst f = Throw observationError \/ exists v, fst f = Ok v) /\
  (fst w = Throw warningError \/ exists v, fst w = Ok v) /\
  Forall (fun s' =>
            loop s' = loop s /\ host s' = host s /\ timer s' = timer s /\
            retryTimer s' = retryTimer s /\
            lastFetch s' = lastFetch s /\ lastWake s' = lastWake s /\
            retry_count s' = retry_count s /\
            (requestCount s' <= S (requestCount s))%nat)
         [snd o; snd f; snd w].
Proof.
  intros o f w.
  destruct (onDemand_effect observationError
              (fetchObservations net now position options None) s)
    as (Ho & Ho1 & Ho2 & Ho3 & Ho4 & Ho5 & Ho6 & Ho7).
  destruct (onDemand_effect observationError
              (fetchForecasts net now position type options None) s)
    as (Hf & Hf1 & Hf2 & Hf3 & Hf4 & Hf5 & Hf6 & Hf7).
  destruct (onDemand_effect warningError
              (fetchWarnings net now position None) s)
    as (Hw & Hw1 & Hw2 & Hw3 & Hw4 & Hw5 & Hw6 & Hw7).
  split; [exact Ho|]. split; [exact Hf|]. split; [exact Hw|].
  do 3 (constructor;
        [do 7 (split; [done|]);
         apply onDemand_requests; intros ow;
         rewrite ?fetchObservations_resolve, ?fetchForecasts_resolve,
                 ?fetchWarnings_resolve;
         cbn [snd]; apply resolve_requests|]).
  constructor.
Qed.

End PluginFacts.

(** X23 on options that carry no [weather] object. *)
Lemma disabled_startup_registers_only_witness :
  exists s',
    Plugin.doStartup true (Some (Plugin.mkOptions None)) Sample.emptyStore
                     SampleRun.t0 (Some Sample.vessel) WeatherService.loaded
    = ([Plugin.MetaMessage Plugin.pluginId "meteo.openweather"
          Plugin.meteoMetas;
        Plugin.SetPluginStatus "Started"], WeatherService.Done s') /\
    timers (WeatherService.loop s') = [] /\
    WeatherService.fetchInterval s' = 3600000.
Proof.
  destruct (disabled_startup_registers_only (Plugin.mkOptions None)
              Sample.emptyStore SampleRun.t0 (Some Sample.vessel)
              WeatherService.loaded)
    as (s' & Hstart & _ & Hloop & _ & _ & Hnone).
  - reflexivity.
  - exists s'. split; [exact Hstart|]. rewrite Hloop.
    split; [reflexivity|]. by apply Hnone.
Defined.

(** X24 on a server without the Weather API. *)
Lemma failed_startup_leaves_module_witness :
  snd (Plugin.doStartup false (Some (Plugin.mkOptions None))
         Sample.emptyStore SampleRun.t0 (Some Sample.vessel)
         WeatherService.loaded)
  = WeatherService.Done WeatherService.loaded.
Proof.
  destruct (failed_startup_leaves_module false
              (Some (Plugin.mkOptions None)) Sample.emptyStore SampleRun.t0
              (Some Sample.vessel) WeatherService.loaded)
    as (msg & -> & _).
  - left. reflexivity.
  - reflexivity.
Defined.
